(** * TFT / Moonraker bridge: a shallow embedding of [tft_moonraker_bridge.py]

    The development follows the classes of the Python module:
    [SecurityValidator], [RateLimiter], [MoonrakerClient], [GCodeTranslator],
    [TFTSerial] and [TFTMoonrakerBridge].  Pure functions are Rocq functions;
    methods that touch a device, the network or the clock are written in a
    small state-and-exception monad over an explicit [world].

    Text.  A Python [str] is a sequence of code points.  Here a string is a
    [list ascii], one element per code point, so the embedding covers the
    code points below 256; the classification tables of Python ([str.isspace],
    [str.isalnum], [str.upper], the classes of [re]) are written out in full
    for that range.  String literals are Rocq string literals, read as lists
    of characters through a coercion. *)

From Stdlib Require Import List Bool Arith ZArith Lia Ascii String.
From Stdlib Require DecimalString.
Import ListNotations.

Set Implicit Arguments.
Set Warnings "-register-all".

Open Scope string_scope.
Open Scope list_scope.
Open Scope nat_scope.

(* ================================================================== *)
(** * Python strings *)
(* ================================================================== *)

Definition str := list ascii.

Coercion list_ascii_of_string : string >-> list.

Module Py.

Definition code (c : ascii) : nat := nat_of_ascii c.

Definition between (lo hi : nat) (c : ascii) : bool :=
  (lo <=? code c) && (code c <=? hi).

(** [str.isspace] on one code point; also the class [\s] of [re] on [str]
    patterns.  Below 256 these are TAB..CR, FS..US, SPACE, NEL and NBSP. *)
Definition isspace (c : ascii) : bool :=
  between 9 13 c || between 28 32 c
  || (code c =? 133) || (code c =? 160).

Definition isdigit (c : ascii) : bool := between 48 57 c.

Definition isupper_ascii (c : ascii) : bool := between 65 90 c.
Definition islower_ascii (c : ascii) : bool := between 97 122 c.

(** [str.isalnum] on one code point.  Above the ASCII range the
    alphanumeric code points below 256 are the ordinal indicators, the
    superscript digits, micro, the vulgar fractions and the Latin-1
    letters (all of 0xC0..0xFF except the multiplication and division
    signs). *)
Definition isalnum (c : ascii) : bool :=
  isdigit c || isupper_ascii c || islower_ascii c
  || (code c =? 170) || between 178 179 c || (code c =? 181)
  || between 185 186 c || between 188 190 c
  || between 192 214 c || between 216 246 c || between 248 255 c.

(** The class [\w] of [re]: alphanumeric or underscore. *)
Definition isword (c : ascii) : bool := isalnum c || (code c =? 95).

Definition eqc (a b : ascii) : bool := Ascii.eqb a b.

Fixpoint eqs (a b : str) : bool :=
  match a, b with
  | [], [] => true
  | x :: a', y :: b' => eqc x y && eqs a' b'
  | _, _ => false
  end.

Fixpoint dropwhile (p : ascii -> bool) (s : str) : str :=
  match s with
  | [] => []
  | c :: s' => if p c then dropwhile p s' else s
  end.

Definition lstrip (s : str) : str := dropwhile isspace s.
Definition rstrip (s : str) : str := rev (dropwhile isspace (rev s)).

(** [s.strip()] *)
Definition strip (s : str) : str := rstrip (lstrip s).

(** [s.startswith(p)] *)
Fixpoint startswith (p s : str) : bool :=
  match p, s with
  | [], _ => true
  | _ :: _, [] => false
  | x :: p', y :: s' => eqc x y && startswith p' s'
  end.

(** [sub in s] *)
Fixpoint contains (sub s : str) : bool :=
  startswith sub s ||
  match s with
  | [] => false
  | _ :: s' => contains sub s'
  end.

(** [s.split(sep)] for a one-character separator: never empty, one more
    piece than there are separators. *)
Fixpoint split (sep : ascii) (s : str) : list str :=
  match s with
  | [] => [[]]
  | c :: s' =>
      if eqc c sep then [] :: split sep s'
      else match split sep s' with
           | [] => [[c]]
           | l :: ls => (c :: l) :: ls
           end
  end.

(** [c.upper()] for one code point; the result is a string because the
    capital of sharp s is two letters.  The capitals of micro (0xB5) and of
    y with diaeresis (0xFF) lie above 255, outside what [str] holds: both
    stay as they are here, so that on a text with one of them [upper] is
    not [str.upper].  Both are outside ASCII either way, which is all that
    a comparison with an ASCII literal can see; a statement about the
    capitals themselves is made for texts without the two
    ([upper_exact]). *)
Definition upper_char (c : ascii) : str :=
  if islower_ascii c then [ascii_of_nat (code c - 32)]
  else if code c =? 223 then ["S"%char; "S"%char]
  else if (between 224 246 c || between 248 254 c)
       then [ascii_of_nat (code c - 32)]
  else [c].

(** [s.upper()] *)
Definition upper (s : str) : str := flat_map upper_char s.

(** The one-to-one case maps that [re] folds case with. *)
Definition lower1 (c : ascii) : ascii :=
  if isupper_ascii c || between 192 214 c || between 216 222 c
  then ascii_of_nat (code c + 32) else c.

Definition upper1 (c : ascii) : ascii :=
  if islower_ascii c || between 224 246 c || between 248 254 c
  then ascii_of_nat (code c - 32) else c.

(** [s.replace(old, new)] for a non-empty [old]: occurrences are replaced
    from the left and do not overlap. *)
Fixpoint replace_from (fuel : nat) (old new s : str) : str :=
  match fuel with
  | 0 => s
  | S fuel' =>
      match s with
      | [] => []
      | c :: s' =>
          if startswith old s
          then new ++ replace_from fuel' old new (skipn (List.length old) s)
          else c :: replace_from fuel' old new s'
      end
  end.

Definition replace (old new s : str) : str :=
  replace_from (List.length s) old new s.

(** [sep.join(parts)] *)
Fixpoint join (sep : str) (parts : list str) : str :=
  match parts with
  | [] => []
  | [x] => x
  | x :: rest => x ++ sep ++ join sep rest
  end.

(** [s[:n]] *)
Definition prefix (n : nat) (s : str) : str := firstn n s.

(** [len(s)] *)
Definition len (s : str) : nat := List.length s.

End Py.

(* ================================================================== *)
(** * SecurityValidator *)
(* ================================================================== *)

Module SecurityValidator.

(** [os.path.isabs] of [posixpath]: the bridge runs next to Klipper on a
    POSIX host. *)
Definition isabs (filename : str) : bool := Py.startswith "/" filename.

(** [validate_filename], branch by branch. *)
Definition validate_filename (filename : str) : bool :=
  match filename with
  | [] => false
  | _ =>
      if Py.contains ".." filename || Py.startswith "/" filename
         || Py.contains "\" filename
      then false
      else if isabs filename then false
      else if 255 <? Py.len filename then false
      else true
  end.

(** The negated character class of the [re.sub] call:
    [[^\w\s\.\-\+\=\:]] deletes a character exactly when it is in none of
    the listed classes. *)
Definition kept (c : ascii) : bool :=
  Py.isword c || Py.isspace c
  || Py.eqc c "."%char || Py.eqc c "-"%char || Py.eqc c "+"%char
  || Py.eqc c "="%char || Py.eqc c ":"%char.

(** [re.sub(r'[^\w\s\.\-\+\=\:]', '', text)] *)
Definition re_sub_unsafe (text : str) : str := filter kept text.

(** [sanitize_gcode] *)
Definition sanitize_gcode (gcode : str) : str :=
  match gcode with
  | [] => []
  | _ =>
      let sanitized := re_sub_unsafe (Py.strip gcode) in
      if 1000 <? Py.len sanitized then Py.prefix 1000 sanitized
      else sanitized
  end.

End SecurityValidator.

(* ================================================================== *)
(** * Exceptions and effects *)
(* ================================================================== *)

(** The exception classes that the module names or that its expressions
    can raise; every one of them derives from [Exception].  The argument is
    the message, [str(e)]. *)
Inductive exn : Type :=
| IndexError (msg : str)
| KeyError (msg : str)
| TypeError (msg : str)
| ValueError (msg : str)
| AttributeError (msg : str)
| SerialException (msg : str)       (* serial.SerialException *)
| ClientError (msg : str)           (* aiohttp.ClientError *)
| TimeoutError (msg : str)          (* asyncio.TimeoutError *)
| OverflowError (msg : str)
| OtherException (msg : str).

Definition exn_str (e : exn) : str :=
  match e with
  | IndexError m | KeyError m | TypeError m | ValueError m
  | AttributeError m | SerialException m | ClientError m
  | TimeoutError m | OverflowError m | OtherException m => m
  end.

Inductive result (A : Type) : Type :=
| Ok (a : A)
| Raise (e : exn).

Arguments Ok {A} a.
Arguments Raise {A} e.

(** A computation over a state [S]: it ends with a value or with a raised
    exception, and the state it leaves is kept either way, as the
    attributes of a Python object are. *)
Definition M (S A : Type) : Type := S -> result A * S.

Module Eff.
Section Monad.
Context {S : Type}.

Definition ret {A} (a : A) : M S A := fun s => (Ok a, s).

Definition raise {A} (e : exn) : M S A := fun s => (Raise e, s).

Definition bind {A B} (m : M S A) (k : A -> M S B) : M S B :=
  fun s => match m s with
           | (Ok a, s') => k a s'
           | (Raise e, s') => (Raise e, s')
           end.

Definition get : M S S := fun s => (Ok s, s).
Definition put (s : S) : M S unit := fun _ => (Ok tt, s).
Definition modify (f : S -> S) : M S unit := fun s => (Ok tt, f s).

(** [try: m  except Exception as e: h e] *)
Definition try_except {A} (m : M S A) (h : exn -> M S A) : M S A :=
  fun s => match m s with
           | (Ok a, s') => (Ok a, s')
           | (Raise e, s') => h e s'
           end.

(** [try: m  finally: f] *)
Definition try_finally {A} (m : M S A) (f : M S unit) : M S A :=
  fun s => match m s with
           | (r, s') => match f s' with
                        | (Ok _, s'') => (r, s'')
                        | (Raise e, s'') => (Raise e, s'')
                        end
           end.
End Monad.
End Eff.

Notation "x <- m ;; k" := (Eff.bind m (fun x => k))
  (at level 61, m at next level, right associativity).
Notation "m ;;; k" := (Eff.bind m (fun _ => k))
  (at level 61, right associativity).

(* ================================================================== *)
(** * RateLimiter *)
(* ================================================================== *)

(** Time.  [time.time()] and the arguments of [asyncio.sleep] are Python
    floats; here they are exact numbers, integers counting ticks of the
    clock, and a sleep lasts exactly as long as it was asked to. *)
Definition time := Z.
Bind Scope Z_scope with time.

Module RateLimiter.

Record t : Type := mk {
  max_requests : Z;
  time_window : time;
  requests : list time            (* the deque, oldest at the left *)
}.

Definition set_requests (self : t) (q : list time) : t :=
  mk (max_requests self) (time_window self) q.

(** What [acquire] sees: the limiter and the clock.  The lock is held for
    the whole call, so nothing else touches the deque meanwhile. *)
Definition state : Type := (t * time)%type.

(** [while self.requests and self.requests[0] < bound: popleft()] *)
Fixpoint evict_old (bound : time) (q : list time) : list time :=
  match q with
  | [] => []
  | oldest :: q' =>
      if (oldest <? bound)%Z then evict_old bound q' else q
  end.

(** [acquire] *)
Definition acquire : M state unit := fun '(self, clock) =>
  let now := clock in
  let q := evict_old (now - time_window self)%Z (requests self) in
  if (max_requests self <=? Z.of_nat (List.length q))%Z then
    match q with
    | [] =>                                   (* self.requests[0] *)
        (Raise (IndexError "deque index out of range"),
         (set_requests self q, clock))
    | oldest :: rest =>
        let sleep_time := (time_window self - (now - oldest))%Z in
        if (0 <? sleep_time)%Z then
          (* await asyncio.sleep(sleep_time); popleft() *)
          (Ok tt, (set_requests self (rest ++ [now]),
                   (clock + sleep_time)%Z))
        else
          (Ok tt, (set_requests self (q ++ [now]), clock))
    end
  else
    (Ok tt, (set_requests self (q ++ [now]), clock)).

End RateLimiter.

(* ================================================================== *)
(** * Regular expressions *)
(* ================================================================== *)

(** The fragment of [re] that the bridge's patterns are written in:
    literals, [.], the classes [\s \d \w], bracketed sets of characters and
    ranges, groups, and the greedy quantifiers [? * +] on a one-character
    atom.  [compile] reads the pattern text as the source has it; [match_]
    is [re.match]: anchored at the start of the text, free at its end, the
    leftmost alternative first, greedy with backtracking. *)
Module Re.

Inductive cls : Type :=
| Lit (c : ascii)
| Dot
| Digit
| Space
| Word
| OneOf (ranges : list (ascii * ascii)).

Inductive quant : Type := One | Opt | Star | Plus.

Inductive item : Type :=
| Atom (k : cls) (q : quant)
| Open
| Close.

Definition pattern : Type := list item.

(** *** Reading a pattern *)

(** The inside of [[...]], after the opening bracket. *)
Fixpoint parse_set (s : str) : option (list (ascii * ascii) * str) :=
  match s with
  | [] => None
  | c :: rest =>
      if Py.eqc c "]" then Some ([], rest)
      else if Py.eqc c "\" then None
      else
        let single :=
          match parse_set rest with
          | Some (rs, rest') => Some ((c, c) :: rs, rest')
          | None => None
          end in
        match rest with
        | d :: hi :: rest2 =>
            if Py.eqc d "-" && negb (Py.eqc hi "]") then
              match parse_set rest2 with
              | Some (rs, rest') => Some ((c, hi) :: rs, rest')
              | None => None
              end
            else single
        | _ => single
        end
  end.

Definition parse_atom (s : str) : option (cls * str) :=
  match s with
  | [] => None
  | c :: rest =>
      if Py.eqc c "\" then
        match rest with
        | [] => None
        | e :: rest' =>
            if Py.eqc e "s" then Some (Space, rest')
            else if Py.eqc e "d" then Some (Digit, rest')
            else if Py.eqc e "w" then Some (Word, rest')
            else if Py.isalnum e then None
            else Some (Lit e, rest')
        end
      else if Py.eqc c "[" then
        if Py.startswith "^" rest || Py.startswith "]" rest then None
        else
          match parse_set rest with
          | Some (rs, rest') => Some (OneOf rs, rest')
          | None => None
          end
      else if Py.eqc c "." then Some (Dot, rest)
      else if Py.eqc c "*" || Py.eqc c "+" || Py.eqc c "?"
              || Py.eqc c "|" || Py.eqc c "{" || Py.eqc c "}"
              || Py.eqc c "^" || Py.eqc c "$" || Py.eqc c "]"
      then None
      else Some (Lit c, rest)
  end.

Definition parse_quant (s : str) : quant * str :=
  match s with
  | c :: rest =>
      if Py.eqc c "?" then (Opt, rest)
      else if Py.eqc c "*" then (Star, rest)
      else if Py.eqc c "+" then (Plus, rest)
      else (One, s)
  | [] => (One, s)
  end.

Fixpoint parse (fuel : nat) (s : str) : option pattern :=
  match s with
  | [] => Some []
  | c :: rest =>
      match fuel with
      | 0 => None
      | S fuel' =>
          if Py.eqc c "(" then option_map (cons Open) (parse fuel' rest)
          else if Py.eqc c ")" then option_map (cons Close) (parse fuel' rest)
          else
            match parse_atom s with
            | None => None
            | Some (k, rest1) =>
                let '(q, rest2) := parse_quant rest1 in
                option_map (cons (Atom k q)) (parse fuel' rest2)
            end
      end
  end.

(** [re.compile]; [None] stands for the [re.error] of a pattern outside
    the fragment. *)
Definition compile (text : str) : option pattern :=
  parse (List.length text) text.

(** *** Matching *)

Section Matching.

(** [re.IGNORECASE] *)
Variable ignorecase : bool.

Definition in_range (r : ascii * ascii) (c : ascii) : bool :=
  let '(lo, hi) := r in
  Py.between (Py.code lo) (Py.code hi) c
  || (ignorecase
      && (Py.between (Py.code lo) (Py.code hi) (Py.lower1 c)
          || Py.between (Py.code lo) (Py.code hi) (Py.upper1 c))).

Definition accepts (k : cls) (c : ascii) : bool :=
  match k with
  | Lit l =>
      Py.eqc c l
      || (ignorecase && Py.eqc (Py.lower1 c) (Py.lower1 l))
  | Dot => negb (Py.eqc c "010")
  | Digit => Py.isdigit c
  | Space => Py.isspace c
  | Word => Py.isword c
  | OneOf rs => existsb (fun r => in_range r c) rs
  end.

(** The groups of a match in progress: the closed ones with their text,
    the open ones (innermost first) with their text so far, reversed. *)
Record groups : Type := mkGroups {
  closed : list (nat * str);
  opened : list (nat * str);
  next : nat
}.

Definition no_groups : groups := mkGroups [] [] 1.

Definition take (c : ascii) (g : groups) : groups :=
  mkGroups (closed g)
           (map (fun '(i, acc) => (i, c :: acc)) (opened g))
           (next g).

Definition open_group (g : groups) : groups :=
  mkGroups (closed g) ((next g, []) :: opened g) (S (next g)).

Definition close_group (g : groups) : groups :=
  match opened g with
  | [] => g
  | (i, acc) :: rest => mkGroups ((i, rev acc) :: closed g) rest (next g)
  end.

(** [k*] followed by the rest of the pattern: as many characters as
    possible first, one fewer on each failure of the rest. *)
Fixpoint star (k : cls) (rest : str -> groups -> option groups)
         (s : str) (g : groups) : option groups :=
  match s with
  | c :: s' =>
      if accepts k c then
        match star k rest s' (take c g) with
        | Some r => Some r
        | None => rest s g
        end
      else rest s g
  | [] => rest [] g
  end.

Fixpoint run (p : pattern) (s : str) (g : groups) : option groups :=
  match p with
  | [] => Some g
  | Open :: p' => run p' s (open_group g)
  | Close :: p' => run p' s (close_group g)
  | Atom k One :: p' =>
      match s with
      | c :: s' => if accepts k c then run p' s' (take c g) else None
      | [] => None
      end
  | Atom k Opt :: p' =>
      match s with
      | c :: s' =>
          if accepts k c then
            match run p' s' (take c g) with
            | Some r => Some r
            | None => run p' s g
            end
          else run p' s g
      | [] => run p' s g
      end
  | Atom k Star :: p' => star k (run p') s g
  | Atom k Plus :: p' =>
      match s with
      | c :: s' =>
          if accepts k c then star k (run p') s' (take c g) else None
      | [] => None
      end
  end.

End Matching.

(** A match object: the text of each group that took part. *)
Definition match_obj : Type := list (nat * str).

(** [m.group(n)]; a group that took no part is [None]. *)
Fixpoint group (m : match_obj) (n : nat) : option str :=
  match m with
  | [] => None
  | (i, text) :: m' => if i =? n then Some text else group m' n
  end.

(** [re.match(pattern, text, re.IGNORECASE)] *)
Definition match_ (pattern_text text : str) : result (option match_obj) :=
  match compile pattern_text with
  | None => Raise (OtherException "re.error")
  | Some p =>
      Ok (option_map (@closed) (run true p text no_groups))
  end.

End Re.

(* ================================================================== *)
(** * TFTSerial *)
(* ================================================================== *)

Module TFTSerial.

(** What one poll of the port finds: nothing waiting, some text (the
    bytes that were waiting, already through
    [decode('utf-8', errors='ignore')]), or a failure of the driver. *)
Inductive rx : Type :=
| RxIdle
| RxData (data : str)
| RxFail (e : exn).

(** How one write-and-flush ends. *)
Inductive tx : Type :=
| TxDone
| TxFail (e : exn).

(** The [serial.Serial] object with the device behind it. *)
Record port : Type := mkPort {
  incoming : list rx;       (* what the coming polls will find, in order *)
  tx_oracle : nat -> tx;    (* how the k-th write ends *)
  tx_count : nat;           (* writes tried so far *)
  wire : str                (* everything written and flushed *)
}.

Record t : Type := mk {
  serial : option port;
  connected : bool;
  _read_buffer : str;
  write_calls : list str    (* the arguments of the calls of write_line *)
}.

Definition set_serial (self : t) (p : port) : t :=
  mk (Some p) (connected self) (_read_buffer self) (write_calls self).
Definition set_connected (self : t) (b : bool) : t :=
  mk (serial self) b (_read_buffer self) (write_calls self).
Definition set_read_buffer (self : t) (b : str) : t :=
  mk (serial self) (connected self) b (write_calls self).
Definition log_write_call (self : t) (data : str) : t :=
  mk (serial self) (connected self) (_read_buffer self)
     (write_calls self ++ [data]).

(** [self.serial.in_waiting] and [self.serial.read(...)] in one step. *)
Definition poll (p : port) : rx * port :=
  match incoming p with
  | [] => (RxIdle, p)
  | ev :: rest => (ev, mkPort rest (tx_oracle p) (tx_count p) (wire p))
  end.

(** [self.serial.write(line.encode('utf-8')); self.serial.flush()] *)
Definition transmit (p : port) (line : str) : tx * port :=
  match tx_oracle p (tx_count p) with
  | TxDone =>
      (TxDone, mkPort (incoming p) (tx_oracle p) (S (tx_count p))
                      (wire p ++ line))
  | TxFail e =>
      (TxFail e, mkPort (incoming p) (tx_oracle p) (S (tx_count p)) (wire p))
  end.

(** The buffer step of [read_line], after [self._read_buffer += data]:
    the new buffer and the value returned. *)
Definition extract (buffer : str) : str * option str :=
  if Py.contains ["010"%char] buffer then
    let lines := Py.split "010" buffer in
    let first := Py.strip (hd [] lines) in
    (last lines [],
     match first with
     | [] => None
     | _ => Some first
     end)
  else (buffer, None).

(** [read_line] *)
Definition read_line : M t (option str) := fun self =>
  match serial self with
  | None => (Ok None, self)
  | Some p =>
      if negb (connected self) then (Ok None, self)
      else
        match poll p with
        | (RxIdle, p') => (Ok None, set_serial self p')
        | (RxData data, p') =>
            let self := set_serial self p' in
            let '(buffer, line) := extract (_read_buffer self ++ data) in
            (Ok line, set_read_buffer self buffer)
        | (RxFail (SerialException _), p') =>
            (Ok None, set_connected (set_serial self p') false)
        | (RxFail _, p') => (Ok None, set_serial self p')
        end
  end.

(** [write_line] *)
Definition write_line (data : str) : M t bool := fun self =>
  let self := log_write_call self data in
  match serial self with
  | None => (Ok false, self)
  | Some p =>
      if negb (connected self) then (Ok false, self)
      else
        let data := if 1000 <? Py.len data then Py.prefix 1000 data
                    else data in
        let line := data ++ ["010"%char] in
        match transmit p line with
        | (TxDone, p') => (Ok true, set_serial self p')
        | (TxFail (SerialException _), p') =>
            (Ok false, set_connected (set_serial self p') false)
        | (TxFail _, p') => (Ok false, set_serial self p')
        end
  end.

(** [close] *)
Definition close (self : t) : t := set_connected self false.

(** A connected link whose port will deliver the given chunks, one per
    poll. *)
Definition fed (chunks : list str) : t :=
  mk (Some (mkPort (map RxData chunks) (fun _ => TxDone) 0 [])) true [] [].

(** [n] calls of [read_line] in a row, with what each returned. *)
Fixpoint read_lines (n : nat) (self : t) : list (option str) * t :=
  match n with
  | 0 => ([], self)
  | S n' =>
      match read_line self with
      | (Ok line, self') =>
          let '(more, self'') := read_lines n' self' in
          (line :: more, self'')
      | (Raise _, self') => ([], self')
      end
  end.

End TFTSerial.

(* ================================================================== *)
(** * Decoded JSON *)
(* ================================================================== *)

(** What [response.json()] gives: a number is kept as the decimal literal
    it was sent as, mantissa and power of ten. *)
Inductive json : Type :=
| JNull
| JBool (b : bool)
| JNum (mantissa exponent : Z)
| JStr (s : str)
| JList (items : list json)
| JDict (entries : list (str * json)).

Module Json.

Definition rbind {A B} (m : result A) (k : A -> result B) : result B :=
  match m with
  | Ok a => k a
  | Raise e => Raise e
  end.

Fixpoint lookup (k : str) (d : list (str * json)) : option json :=
  match d with
  | [] => None
  | (k', v) :: d' => if Py.eqs k' k then Some v else lookup k d'
  end.

Definition has_key (k : str) (d : list (str * json)) : bool :=
  match lookup k d with
  | Some _ => true
  | None => false
  end.

(** [k in v] *)
Definition contains (k : str) (v : json) : result bool :=
  match v with
  | JDict d => Ok (has_key k d)
  | JList l =>
      Ok (existsb (fun x => match x with
                            | JStr s => Py.eqs s k
                            | _ => false
                            end) l)
  | JStr s => Ok (Py.contains k s)
  | _ => Raise (TypeError "argument is not iterable")
  end.

(** [v[k]] for a string [k] *)
Definition getitem (v : json) (k : str) : result json :=
  match v with
  | JDict d =>
      match lookup k d with
      | Some x => Ok x
      | None => Raise (KeyError k)
      end
  | JList _ | JStr _ => Raise (TypeError "indices must be integers")
  | _ => Raise (TypeError "object is not subscriptable")
  end.

(** [v.get(k, default)] *)
Definition get (v : json) (k : str) (default : json) : result json :=
  match v with
  | JDict d =>
      Ok (match lookup k d with
          | Some x => x
          | None => default
          end)
  | _ => Raise (AttributeError "object has no attribute 'get'")
  end.

(** [v.keys()] *)
Definition keys (v : json) : result (list str) :=
  match v with
  | JDict d => Ok (map fst d)
  | _ => Raise (AttributeError "object has no attribute 'keys'")
  end.

Definition is_dict (v : json) : bool :=
  match v with
  | JDict _ => true
  | _ => false
  end.

(** [{"error": message}] *)
Definition error (message : str) : json :=
  JDict [("error" : str, JStr message)].

End Json.

Notation "x <-? m ;; k" := (Json.rbind m (fun x => k))
  (at level 61, m at next level, right associativity).

(* ================================================================== *)
(** * BridgeConfig and the world *)
(* ================================================================== *)

(** [str(n)] for an integer. *)
Definition str_of_int (n : Z) : str :=
  list_ascii_of_string (DecimalString.NilZero.string_of_int (Z.to_int n)).

(** [str(l)] for a list of integers. *)
Definition str_of_ints (l : list Z) : str :=
  "[" ++ Py.join ", " (map str_of_int l) ++ "]".

(** A Python float as the command line can set it: [float] reads a finite
    number, here a whole number of ticks, and also [inf], [-inf] and
    [nan]. *)
Inductive pyfloat : Type :=
| Finite (x : Z)
| PosInf
| NegInf
| NaN.

Coercion Finite : Z >-> pyfloat.
Bind Scope Z_scope with pyfloat.

Module PyFloat.

(** [x <= 0]: false for NaN, as every comparison with it. *)
Definition le0 (x : pyfloat) : bool :=
  match x with
  | Finite z => (z <=? 0)%Z
  | NegInf => true
  | PosInf | NaN => false
  end.

(** [0 < x] *)
Definition positive (x : pyfloat) : Prop :=
  match x with
  | Finite z => (0 < z)%Z
  | PosInf => True
  | NegInf | NaN => False
  end.

End PyFloat.

(** The fields of the dataclass.  [timeout] comes from the command line
    through [float].  [retry_delay] is set by no caller: [main] leaves it at
    its default [1.0], and it is kept here as a finite number of ticks; what
    a sleep does with a delay that is infinite or not a number is outside
    the model. *)
Record BridgeConfig : Type := mkConfig {
  serial_port : str;
  baud_rate : Z;
  moonraker_host : str;
  moonraker_port : Z;
  log_level : str;
  timeout : pyfloat;
  max_retries : Z;
  retry_delay : time;
  test_mode : bool;
  standalone_mode : bool
}.

(** How one HTTP attempt ends: with the decoded body of a good response,
    [await response.json()], which is whatever JSON value the host sent, or
    with whatever the body of the [try] raised (connecting, the status
    check, decoding). *)
Inductive http_outcome : Type :=
| Responds (body : json)
| Fails (e : exn).

(** Everything the bridge object reaches: its own attributes and the
    behaviour of the clock, the host and the device.  Every [await] comes
    back: an attempt ends with an outcome and a sleep ends. *)
Record world : Type := mkWorld {
  clock : time;                                  (* time.time() *)
  rate_requests : list time;                     (* rate_limiter.requests *)
  http_oracle : nat -> http_outcome;             (* how the k-th attempt ends *)
  http_log : list (str * str * option json);     (* attempts made *)
  request_log : list (str * str);                (* calls of _make_request *)
  command_count : nat;                           (* test_handler *)
  available_macros : list str;                   (* translator *)
  macros_checked : bool;
  tft : TFTSerial.t;
  urljoin : str -> str -> result str             (* urllib.parse.urljoin *)
}.

Module World.

Definition set_clock (w : world) (x : time) : world :=
  mkWorld x (rate_requests w) (http_oracle w) (http_log w) (request_log w)
          (command_count w) (available_macros w) (macros_checked w) (tft w)
          (urljoin w).
Definition set_rate_requests (w : world) (x : list time) : world :=
  mkWorld (clock w) x (http_oracle w) (http_log w) (request_log w)
          (command_count w) (available_macros w) (macros_checked w) (tft w)
          (urljoin w).
Definition set_http_log (w : world) (x : list (str * str * option json)) : world :=
  mkWorld (clock w) (rate_requests w) (http_oracle w) x (request_log w)
          (command_count w) (available_macros w) (macros_checked w) (tft w)
          (urljoin w).
Definition set_request_log (w : world) (x : list (str * str)) : world :=
  mkWorld (clock w) (rate_requests w) (http_oracle w) (http_log w) x
          (command_count w) (available_macros w) (macros_checked w) (tft w)
          (urljoin w).
Definition set_command_count (w : world) (x : nat) : world :=
  mkWorld (clock w) (rate_requests w) (http_oracle w) (http_log w)
          (request_log w) x (available_macros w) (macros_checked w) (tft w)
          (urljoin w).
Definition set_available_macros (w : world) (x : list str) : world :=
  mkWorld (clock w) (rate_requests w) (http_oracle w) (http_log w)
          (request_log w) (command_count w) x (macros_checked w) (tft w)
          (urljoin w).
Definition set_macros_checked (w : world) (x : bool) : world :=
  mkWorld (clock w) (rate_requests w) (http_oracle w) (http_log w)
          (request_log w) (command_count w) (available_macros w) x (tft w)
          (urljoin w).
Definition set_tft (w : world) (x : TFTSerial.t) : world :=
  mkWorld (clock w) (rate_requests w) (http_oracle w) (http_log w)
          (request_log w) (command_count w) (available_macros w)
          (macros_checked w) x (urljoin w).

(** [await asyncio.sleep(d)]: a delay that is not positive is no delay. *)
Definition sleep (d : time) : M world unit :=
  fun w => (Ok tt, set_clock w (clock w + Z.max 0 d)%Z).

(** A method of the device link, run on the bridge's [tft]. *)
Definition on_tft {A} (m : M TFTSerial.t A) : M world A :=
  fun w => let '(r, t') := m (tft w) in (r, set_tft w t').

(** A pure Python expression, which may raise. *)
Definition eval {A} (r : result A) : M world A := fun w => (r, w).

End World.

(* ================================================================== *)
(** * MoonrakerClient *)
(* ================================================================== *)

(** Ticks of the clock in one second. *)
Definition second : time := 1000%Z.

(** [delay * (2 ** attempt)] for a float [delay]: the power is an integer,
    converted to a float for the product, and from [2 ** 1024] on it has
    none.  A product beyond the range of a float is [inf], and a sleep of
    that length has no end; here a delay is a number of ticks and every
    sleep ends, so what is said of the time slept is said for delays within
    that range ([delays_fit]). *)
Definition backoff (delay : time) (attempt : Z) : result time :=
  if (1024 <=? attempt)%Z
  then Raise (OverflowError "int too large to convert to float")
  else Ok (delay * 2 ^ attempt)%Z.

Module MoonrakerClient.

Section Client.

Variable config : BridgeConfig.

(** [self.rate_limiter = RateLimiter(max_requests=20, time_window=1.0)];
    the two parameters are never assigned again. *)
Definition rate_limiter (w : world) : RateLimiter.t :=
  RateLimiter.mk 20 second (rate_requests w).

Definition acquire : M world unit := fun w =>
  let '(r, (rl, c)) := RateLimiter.acquire (rate_limiter w, clock w) in
  (r, World.set_clock (World.set_rate_requests w (RateLimiter.requests rl)) c).

(** [self.base_url] *)
Definition base_url : str :=
  "http://" ++ moonraker_host config ++ ":"
  ++ str_of_int (moonraker_port config).

(** [test_handler.log_command] *)
Definition log_command : M world unit :=
  Eff.modify (fun w => World.set_command_count w (S (command_count w))).

(** One pass through the [session.get] / [session.post] of the [try]. *)
Definition http_attempt (method endpoint : str) (data : option json)
  : M world http_outcome := fun w =>
  (Ok (http_oracle w (List.length (http_log w))),
   World.set_http_log w (http_log w ++ [(method, endpoint, data)])).

(** [except (aiohttp.ClientError, asyncio.TimeoutError)] *)
Definition is_transient (e : exn) : bool :=
  match e with
  | ClientError _ | TimeoutError _ => true
  | _ => false
  end.

(** The [for attempt in range(self.config.max_retries)] loop, with
    [left] passes to go. *)
Fixpoint attempts (method endpoint : str) (data : option json)
         (left : nat) (attempt : Z) : M world json :=
  match left with
  | 0 => Eff.ret (Json.error "Max retries exceeded")
  | S left' =>
      let verb := Py.upper method in
      if Py.eqs verb "GET" || Py.eqs verb "POST" then
        out <- http_attempt verb endpoint
                 (if Py.eqs verb "GET" then None else data) ;;
        match out with
        | Responds body => Eff.ret body
        | Fails e =>
            if is_transient e then
              if (attempt <? max_retries config - 1)%Z then
                delay <- World.eval (backoff (retry_delay config) attempt) ;;
                World.sleep delay ;;;
                attempts method endpoint data left' (attempt + 1)%Z
              else Eff.raise e
            else Eff.raise e
        end
      else attempts method endpoint data left' (attempt + 1)%Z
  end.

(** [_make_request].  The URL is [urljoin(self.base_url, endpoint)],
    formed after the limiter and outside every [try]: [urljoin] raises
    [ValueError] for some texts.  The URL is a function of the endpoint and
    the logs keep the endpoint; [request_log] records the call itself. *)
Definition _make_request (method endpoint : str) (data : option json)
  : M world json :=
  acquire ;;;
  Eff.modify (fun w => World.set_request_log w
                         (request_log w ++ [(method, endpoint)])) ;;;
  w <- Eff.get ;;
  url <- World.eval (urljoin w base_url endpoint) ;;
  attempts method endpoint data (Z.to_nat (max_retries config)) 0%Z.

(** [except Exception as e: ... return {"error": str(e)}] *)
Definition as_error (e : exn) : M world json :=
  Eff.ret (Json.error (exn_str e)).

(** [send_gcode]: the body of its [try], then the method. *)
Definition send_gcode_try (gcode : str) : M world json :=
  let sanitized_gcode := SecurityValidator.sanitize_gcode gcode in
  match sanitized_gcode with
  | [] => Eff.ret (Json.error "Invalid or empty G-code")
  | _ =>
      if test_mode config then
        log_command ;;;
        Eff.ret (JDict [("result" : str, JStr "ok");
                        ("test_mode" : str, JBool true)])
      else
        _make_request "POST" "/printer/gcode/script"
          (Some (JDict [("script" : str, JStr sanitized_gcode)]))
  end.

Definition send_gcode (gcode : str) : M world json :=
  Eff.try_except (send_gcode_try gcode) as_error.

(** [get_printer_status] *)
Definition get_printer_status_try : M world json :=
  if test_mode config then
    Eff.ret
      (JDict
         [("result" : str,
           JDict
             [("status" : str,
               JDict
                 [("extruder" : str,
                   JDict [("temperature" : str, JNum 250 (-1));
                          ("target" : str, JNum 0 (-1))]);
                  ("heater_bed" : str,
                   JDict [("temperature" : str, JNum 240 (-1));
                          ("target" : str, JNum 0 (-1))])])]);
          ("test_mode" : str, JBool true)])
  else
    _make_request "GET"
      "/printer/objects/query?extruder&heater_bed&fan&toolhead&print_stats"
      None.

Definition get_printer_status : M world json :=
  Eff.try_except get_printer_status_try as_error.

(** [get_printer_info] *)
Definition get_printer_info_try : M world json :=
  _make_request "GET" "/printer/info" None.

Definition get_printer_info : M world json :=
  Eff.try_except get_printer_info_try as_error.

(** [start_print] *)
Definition start_print_try (filename : str) : M world json :=
  if negb (SecurityValidator.validate_filename filename) then
    Eff.ret (Json.error "Invalid filename - potential security risk")
  else
    _make_request "POST" "/printer/print/start"
      (Some (JDict [("filename" : str, JStr filename)])).

Definition start_print (filename : str) : M world json :=
  Eff.try_except (start_print_try filename) as_error.

(** [pause_print] *)
Definition pause_print_try : M world json :=
  _make_request "POST" "/printer/print/pause" None.

Definition pause_print : M world json :=
  Eff.try_except pause_print_try as_error.

(** [resume_print] *)
Definition resume_print_try : M world json :=
  _make_request "POST" "/printer/print/resume" None.

Definition resume_print : M world json :=
  Eff.try_except resume_print_try as_error.

(** [cancel_print] *)
Definition cancel_print_try : M world json :=
  _make_request "POST" "/printer/print/cancel" None.

Definition cancel_print : M world json :=
  Eff.try_except cancel_print_try as_error.

(** [start]: the connection manager makes its session and its background
    task, which has a state of its own ([ConnectionManager]); then the
    first request. *)
Definition start : M world unit :=
  Eff.try_except (get_printer_info ;;; Eff.ret tt) (fun _ => Eff.ret tt).

(** The seven domain operations, as one family. *)
Inductive operation : Type :=
| SendGcode (gcode : str)
| GetPrinterStatus
| GetPrinterInfo
| StartPrint (filename : str)
| PausePrint
| ResumePrint
| CancelPrint.

Definition try_body (op : operation) : M world json :=
  match op with
  | SendGcode gcode => send_gcode_try gcode
  | GetPrinterStatus => get_printer_status_try
  | GetPrinterInfo => get_printer_info_try
  | StartPrint filename => start_print_try filename
  | PausePrint => pause_print_try
  | ResumePrint => resume_print_try
  | CancelPrint => cancel_print_try
  end.

Definition perform (op : operation) : M world json :=
  match op with
  | SendGcode gcode => send_gcode gcode
  | GetPrinterStatus => get_printer_status
  | GetPrinterInfo => get_printer_info
  | StartPrint filename => start_print filename
  | PausePrint => pause_print
  | ResumePrint => resume_print
  | CancelPrint => cancel_print
  end.

End Client.

End MoonrakerClient.

(* ================================================================== *)
(** * GCodeTranslator *)
(* ================================================================== *)

Module GCodeTranslator.

(** The value side of the [translations] dictionary: a plain string or a
    callable on the match object. *)
Inductive action : Type :=
| Static (text : str)
| Transform (f : Re.match_obj -> str).

(** [m.group(n)] inside an f-string. *)
Definition group (m : Re.match_obj) (n : nat) : str :=
  match Re.group m n with
  | Some text => text
  | None => "None"
  end.

(** [self.translations], in the order the dictionary was written. *)
Definition translations : list (str * action) :=
  [ ("M420\s+S1" : str, Static "BED_MESH_PROFILE LOAD=default");
    ("M420\s+S0" : str, Static "BED_MESH_CLEAR");
    ("G29" : str, Static "BED_MESH_CALIBRATE");
    ("M421\s+I(\d+)\s+J(\d+)\s+Z([+-]?\d*\.?\d+)" : str,
     Transform (fun m =>
       "BED_MESH_CALIBRATE MESH_MIN=" ++ group m 1 ++ "," ++ group m 2
       ++ " MESH_MAX=" ++ group m 1 ++ "," ++ group m 2));
    ("M303\s+E0\s+C8\s+U1" : str, Static "PID_CALIBRATE HEATER=extruder");
    ("M303\s+E-1\s+C8\s+U1" : str, Static "PID_CALIBRATE HEATER=heater_bed");
    ("M280\s+P0\s+S10" : str, Static "BLTOUCH_DEBUG COMMAND=pin_down");
    ("M280\s+P0\s+S90" : str, Static "BLTOUCH_DEBUG COMMAND=pin_up");
    ("M280\s+P0\s+S160" : str, Static "BLTOUCH_DEBUG COMMAND=reset");
    ("M401" : str, Static "PROBE_CALIBRATE");
    ("M48" : str, Static "PROBE_ACCURACY");
    ("M701" : str, Static "LOAD_FILAMENT");
    ("M702" : str, Static "UNLOAD_FILAMENT");
    ("M500" : str, Static "SAVE_CONFIG");
    ("M503" : str, Static "# Settings saved in printer.cfg");
    ("M851\s+Z([+-]?\d*\.?\d+)" : str,
     Transform (fun m =>
       "SET_GCODE_OFFSET Z=" ++ group m 1 ++ " MOVE=1")) ].

Definition passthrough_patterns : list str :=
  [ "G[01]\s+.*" : str; "G28.*" : str; "G9[01]" : str; "G92.*" : str;
    "M10[4-9].*" : str; "M11[45].*" : str; "M1[89]0.*" : str;
    "M220.*" : str; "M221.*" : str; "M[23][0-9].*" : str ].

(** [callable(replacement)] and the two ways of answering. *)
Definition apply_action (replacement : action) (m : Re.match_obj) : str :=
  match replacement with
  | Transform f => f m
  | Static text => text
  end.

(** [for pattern, replacement in self.translations.items()]: the first
    pattern that matches answers; a pattern that raises is skipped. *)
Fixpoint scan (rules : list (str * action)) (gcode : str) : option str :=
  match rules with
  | [] => None
  | (pattern, replacement) :: rest =>
      match Re.match_ pattern gcode with
      | Ok (Some m) => Some (apply_action replacement m)
      | Ok None => scan rest gcode
      | Raise _ => scan rest gcode
      end
  end.

(** [for pattern in passthrough_patterns] *)
Fixpoint passes (patterns : list str) (gcode : str) : bool :=
  match patterns with
  | [] => false
  | pattern :: rest =>
      match Re.match_ pattern gcode with
      | Ok (Some _) => true
      | _ => passes rest gcode
      end
  end.

(** [name in self.available_macros] *)
Definition known (name : str) (macros : list str) : bool :=
  existsb (Py.eqs name) macros.

(** [self.available_macros.add(name)] *)
Definition add (macros : list str) (name : str) : list str :=
  if known name macros then macros else macros ++ [name].

(** The body of the [try] after the request: the names it will add, in
    the order of the keys, unless one of the lookups raises first. *)
Definition macro_names (response : json) : result (list str) :=
  c1 <-? Json.contains "result" response ;;
  if negb c1 then Ok [] else
  r <-? Json.getitem response "result" ;;
  c2 <-? Json.contains "status" r ;;
  if negb c2 then Ok [] else
  status <-? Json.getitem r "status" ;;
  c3 <-? Json.contains "configfile" status ;;
  if negb c3 then Ok [] else
  configfile <-? Json.getitem status "configfile" ;;
  config <-? Json.getitem configfile "settings" ;;
  keys <-? Json.keys config ;;
  Ok (map (fun key => Py.upper (Py.replace "gcode_macro " "" key))
          (filter (Py.startswith "gcode_macro ") keys)).

Section Translator.

Variable config : BridgeConfig.

(** [check_available_macros].  The lock is free whenever a call arrives,
    one call running at a time, so taking it is only the second look at
    the flag. *)
Definition check_available_macros : M world unit := fun w =>
  if macros_checked w then (Ok tt, w)
  else if macros_checked w then (Ok tt, w)
  else
    Eff.try_finally
      (Eff.try_except
         (response <- MoonrakerClient._make_request config "GET"
                        "/printer/objects/query?configfile" None ;;
          names <- World.eval (macro_names response) ;;
          Eff.modify (fun w =>
            World.set_available_macros w
              (fold_left add names (available_macros w))))
         (fun _ => Eff.ret tt))
      (Eff.modify (fun w => World.set_macros_checked w true))
      w.

(** [translate_gcode] *)
Definition translate_gcode (gcode : str) : M world (option str) :=
  match gcode, Py.strip gcode with
  | [], _ | _, [] => Eff.ret None
  | _, _ =>
      let gcode := Py.strip gcode in
      check_available_macros ;;;
      w <- Eff.get ;;
      if Py.eqs (Py.upper gcode) "M701" then
        if known "LOAD_FILAMENT" (available_macros w)
        then Eff.ret (Some ("LOAD_FILAMENT" : str))
        else Eff.ret (Some ("TFT_LOAD_FILAMENT" : str))
      else if Py.eqs (Py.upper gcode) "M702" then
        if known "UNLOAD_FILAMENT" (available_macros w)
        then Eff.ret (Some ("UNLOAD_FILAMENT" : str))
        else Eff.ret (Some ("TFT_UNLOAD_FILAMENT" : str))
      else
        match scan translations gcode with
        | Some translated => Eff.ret (Some translated)
        | None =>
            if passes passthrough_patterns gcode then Eff.ret (Some gcode)
            else if Py.startswith "M115" (Py.upper gcode) then Eff.ret None
            else if Py.startswith "M105" (Py.upper gcode) then Eff.ret None
            else Eff.ret None
        end
  end.

End Translator.

End GCodeTranslator.

(* ================================================================== *)
(** * TFTMoonrakerBridge *)
(* ================================================================== *)

Definition __version__ : str := "2.3.4".

Module TFTMoonrakerBridge.

Section Bridge.

Variable config : BridgeConfig.

(** Two functions of the Python runtime, as they act on a decoded JSON
    value: [format(v, ".1f")], which raises on a value that is not a
    number, and [repr(v)]. *)
Variable format_1f : json -> result str.
Variable repr : json -> str.

(** [str(v)]: a string is its own text. *)
Definition py_str (v : json) : str :=
  match v with
  | JStr s => s
  | _ => repr v
  end.

Definition write_line (data : str) : M world bool :=
  World.on_tft (TFTSerial.write_line data).

(** [handle_m115] *)
Definition handle_m115 : M world unit :=
  Eff.try_except
    (let response :=
       "FIRMWARE_NAME:Klipper FIRMWARE_VERSION:v0.11.0 PROTOCOL_VERSION:1.0 MACHINE_TYPE:TFT_Bridge BRIDGE_VERSION:"
       ++ __version__ in
     write_line response ;;;
     write_line "ok" ;;;
     Eff.ret tt)
    (fun _ => Eff.ret tt).

Definition no_temperature : str := "ok T:0.0 /0.0 B:0.0 /0.0".

(** One entry of [temp_parts]. *)
Definition temp_part (label : str) (heater : json) : result str :=
  temperature <-? Json.get heater "temperature" (JNum 0 0) ;;
  shown <-? format_1f temperature ;;
  target <-? Json.get heater "target" (JNum 0 0) ;;
  shown_target <-? format_1f target ;;
  Ok (label ++ ":" ++ shown ++ " /" ++ shown_target).

(** The line that [handle_m105] writes for a status, unless an
    expression on the way raises. *)
Definition temperature_line (status : json) : result str :=
  c1 <-? Json.contains "result" status ;;
  c2 <-? (if c1 then
            r <-? Json.getitem status "result" ;;
            Json.contains "status" r
          else Ok false) ;;
  if c2 then
    r <-? Json.getitem status "result" ;;
    printer_status <-? Json.getitem r "status" ;;
    has_extruder <-? Json.contains "extruder" printer_status ;;
    parts1 <-? (if has_extruder then
                  ext <-? Json.getitem printer_status "extruder" ;;
                  part <-? temp_part "T" ext ;;
                  Ok [part]
                else Ok []) ;;
    has_bed <-? Json.contains "heater_bed" printer_status ;;
    parts2 <-? (if has_bed then
                  bed <-? Json.getitem printer_status "heater_bed" ;;
                  part <-? temp_part "B" bed ;;
                  Ok [part]
                else Ok []) ;;
    match parts1 ++ parts2 with
    | [] => Ok no_temperature
    | temp_parts => Ok ("ok " ++ Py.join " " temp_parts)
    end
  else Ok no_temperature.

(** [handle_m105] *)
Definition handle_m105 : M world unit :=
  Eff.try_except
    (status <- MoonrakerClient.get_printer_status config ;;
     response <- World.eval (temperature_line status) ;;
     write_line response ;;;
     Eff.ret tt)
    (fun _ => write_line no_temperature ;;; Eff.ret tt).

(** What [process_gcode] does with a translation. *)
Definition forward (translated : str) : M world unit :=
  Eff.try_except
    (response <- MoonrakerClient.send_gcode config translated ;;
     failed <- World.eval (Json.contains "error" response) ;;
     if failed then
       message <- World.eval (Json.getitem response "error") ;;
       write_line ("!! " ++ py_str message) ;;;
       Eff.ret tt
     else
       write_line "ok" ;;;
       Eff.ret tt)
    (fun _ => write_line "ok" ;;; Eff.ret tt).

(** The body of the outer [try] of [process_gcode]. *)
Definition dispatch (gcode : str) : M world unit :=
  let gcode := Py.strip gcode in
  match gcode with
  | [] => Eff.ret tt
  | _ =>
      if Py.startswith "M115" (Py.upper gcode) then
        (if test_mode config then MoonrakerClient.log_command
         else Eff.ret tt) ;;;
        handle_m115
      else if Py.startswith "M105" (Py.upper gcode) then
        (if test_mode config then MoonrakerClient.log_command
         else Eff.ret tt) ;;;
        handle_m105
      else
        translated <- GCodeTranslator.translate_gcode config gcode ;;
        match translated with
        | Some ((_ :: _) as command) => forward command
        | _ => write_line "ok" ;;; Eff.ret tt
        end
  end.

(** The outer [try ... except Exception] of [process_gcode] around a body,
    with the acknowledgement that its handler tries: a failure of the body
    leads to the acknowledgement, and a failure of the acknowledgement is
    dropped by the bare [except]. *)
Definition guarded_by (ack body : M world unit) : M world unit :=
  Eff.try_except body
    (fun _ => Eff.try_except ack (fun _ => Eff.ret tt)).

Definition guarded (body : M world unit) : M world unit :=
  guarded_by (write_line "ok" ;;; Eff.ret tt) body.

(** [process_gcode] *)
Definition process_gcode (gcode : str) : M world unit :=
  guarded (dispatch gcode).

(** One pass of the main loop of [run]: poll the link when it is up and
    process the line, if there is one. *)
Definition main_iteration : M world unit :=
  w <- Eff.get ;;
  if TFTSerial.connected (tft w) then
    line <- World.on_tft TFTSerial.read_line ;;
    match line with
    | Some ((_ :: _) as gcode) => process_gcode gcode
    | _ => Eff.ret tt
    end
  else Eff.ret tt.

(** One report of [send_periodic_updates], when its interval is over. *)
Definition periodic_update : M world unit :=
  w <- Eff.get ;;
  if TFTSerial.connected (tft w) then handle_m105 else Eff.ret tt.

(** The turns that the event loop hands out to the two tasks, in some
    order. *)
Inductive turn : Type :=
| MainLoop
| PeriodicUpdate.

Fixpoint run_turns (turns : list turn) : M world unit :=
  match turns with
  | [] => Eff.ret tt
  | MainLoop :: rest => main_iteration ;;; run_turns rest
  | PeriodicUpdate :: rest => periodic_update ;;; run_turns rest
  end.

(** [cleanup]: the link is closed; stopping the client reaches nothing
    that the world holds. *)
Definition cleanup : M world unit :=
  Eff.try_except
    (Eff.modify (fun w => World.set_tft w (TFTSerial.close (tft w))))
    (fun _ => Eff.ret tt).

(** [run], for the turns that the loops take until the shutdown: the client
    is started, the loops run, and the cleanup follows whatever they did. *)
Definition run (turns : list turn) : M world bool :=
  Eff.try_except
    (MoonrakerClient.start config ;;;
     Eff.try_finally
       (Eff.try_except (run_turns turns) (fun _ => Eff.ret tt))
       cleanup ;;;
     Eff.ret true)
    (fun _ => Eff.ret false).

End Bridge.

End TFTMoonrakerBridge.

(* ================================================================== *)
(** * Vocabulary of the statements *)
(* ================================================================== *)

(** A computation that ends with a value from every state. *)
Definition returns {S A} (m : M S A) : Prop :=
  forall s, exists a, fst (m s) = Ok a.

(** A relation between the state before and the state after that a
    computation respects, whether it returns or raises. *)
Definition keeps {S} (R : S -> S -> Prop) {A} (m : M S A) : Prop :=
  forall s, R s (snd (m s)).

(** The forms of name that the validator turns away.  A parent-directory
    segment is a piece equal to [..] between forward slashes; an absolute
    path starts at the root; the one separator that the validator looks for
    inside a name is the backslash. *)
Definition has_parent_segment (name : str) : Prop :=
  In (".." : str) (Py.split "/" name).

Definition is_absolute (name : str) : Prop :=
  Py.startswith "/" name = true.

Definition has_foreign_separator (name : str) : Prop :=
  In "\"%char name.

Definition rejected_form (name : str) : Prop :=
  name = [] \/ has_parent_segment name \/ is_absolute name
  \/ has_foreign_separator name \/ 255 < Py.len name.

(** The allow-list in the words of the specification: letters, digits,
    whitespace and the five punctuation marks. *)
Definition allow_list_as_claimed (c : ascii) : bool :=
  Py.isalnum c || Py.isspace c
  || Py.eqc c "."%char || Py.eqc c "-"%char || Py.eqc c "+"%char
  || Py.eqc c "="%char || Py.eqc c ":"%char.

(** The allow-list that the pattern denotes: the word class of [re] also
    holds the underscore. *)
Definition allow_list (c : ascii) : bool :=
  Py.isalnum c || Py.eqc c "_"%char || Py.isspace c
  || Py.eqc c "."%char || Py.eqc c "-"%char || Py.eqc c "+"%char
  || Py.eqc c "="%char || Py.eqc c ":"%char.

(** The steps of [acquire] in the words of the specification: drop every
    timestamp older than [now - W]; if the window then holds [N] entries,
    wait until the oldest leaves the window and drop it; record the time at
    which the entry is recorded, that is the clock after the wait. *)
Definition acquire_as_claimed : M RateLimiter.state unit := fun '(self, clock) =>
  let W := RateLimiter.time_window self in
  let N := RateLimiter.max_requests self in
  let now := clock in
  let q := filter (fun t => negb (t <? now - W)%Z) (RateLimiter.requests self) in
  match q with
  | oldest :: rest =>
      if (Z.of_nat (List.length q) =? N)%Z then
        let wait := (W - (now - oldest))%Z in
        let clock' := (clock + Z.max 0 wait)%Z in
        (Ok tt, (RateLimiter.set_requests self (rest ++ [clock']), clock'))
      else (Ok tt, (RateLimiter.set_requests self (q ++ [clock]), clock))
  | [] => (Ok tt, (RateLimiter.set_requests self [clock], clock))
  end.

(** The steps as amended: a full window is one that holds [N] entries or
    more, and the wait and the second eviction happen when the wait is
    positive.  Which timestamp is recorded after a wait is left open: it is
    the parameter [stamp].  Without a wait the call takes no time and the
    timestamp is that of the call. *)
Definition acquire_as_amended (stamp : time) : M RateLimiter.state unit :=
  fun '(self, clock) =>
  let W := RateLimiter.time_window self in
  let N := RateLimiter.max_requests self in
  let now := clock in
  let q := filter (fun t => negb (t <? now - W)%Z) (RateLimiter.requests self) in
  match q with
  | oldest :: rest =>
      if (N <=? Z.of_nat (List.length q))%Z then
        let wait := (W - (now - oldest))%Z in
        if (0 <? wait)%Z then
          (Ok tt, (RateLimiter.set_requests self (rest ++ [stamp]),
                   (clock + wait)%Z))
        else (Ok tt, (RateLimiter.set_requests self (q ++ [now]), clock))
      else (Ok tt, (RateLimiter.set_requests self (q ++ [now]), clock))
  | [] => (Ok tt, (RateLimiter.set_requests self [now], clock))
  end.

(** The deque is in arrival order: timestamps never decrease. *)
Fixpoint ascending (q : list time) : Prop :=
  match q with
  | [] => True
  | t :: q' => (forall u, In u q' -> (t <= u)%Z) /\ ascending q'
  end.

(** What no request ever touches: the device link, the translator's
    registry, the test counter and the behaviour of the host. *)
Definition network_frame (w w' : world) : Prop :=
  tft w' = tft w
  /\ available_macros w' = available_macros w
  /\ macros_checked w' = macros_checked w
  /\ command_count w' = command_count w
  /\ http_oracle w' = http_oracle w
  /\ urljoin w' = urljoin w.

(** A [urljoin] that joins every pair of texts. *)
Definition plain_urljoin (base url : str) : result str := Ok (base ++ url).

Definition offline_config : BridgeConfig :=
  mkConfig "/dev/ttyS0" 115200 "localhost" 7125 "INFO" (5 * second)
           0 second false false.

Definition idle_link : TFTSerial.t :=
  TFTSerial.mk
    (Some (TFTSerial.mkPort [] (fun _ => TFTSerial.TxDone) 0 []))
    true [] [].

Definition unreachable_host : world :=
  mkWorld 0 [] (fun _ => Fails (ClientError "Cannot connect to host"))
          [] [] 0 [] false idle_link plain_urljoin.

Definition retrying_config : BridgeConfig :=
  mkConfig "/dev/ttyS0" 115200 "localhost" 7125 "INFO" (5 * second)
           3 second false false.

Definition configfile_query : str * str :=
  ("GET" : str, "/printer/objects/query?configfile" : str).

(** The answer of [translate_gcode] as a function of the text and of the
    registry as it stands after the check. *)
Definition translation_of (macros : list str) (gcode : str) : option str :=
  match gcode, Py.strip gcode with
  | [], _ | _, [] => None
  | _, _ =>
      let gcode := Py.strip gcode in
      if Py.eqs (Py.upper gcode) "M701" then
        Some (if GCodeTranslator.known "LOAD_FILAMENT" macros
              then "LOAD_FILAMENT" : str else "TFT_LOAD_FILAMENT" : str)
      else if Py.eqs (Py.upper gcode) "M702" then
        Some (if GCodeTranslator.known "UNLOAD_FILAMENT" macros
              then "UNLOAD_FILAMENT" : str else "TFT_UNLOAD_FILAMENT" : str)
      else
        match GCodeTranslator.scan GCodeTranslator.translations gcode with
        | Some translated => Some translated
        | None =>
            if GCodeTranslator.passes GCodeTranslator.passthrough_patterns gcode
            then Some gcode else None
        end
  end.

(** A rule matches a command when its pattern does. *)
Definition rule_matches (rule : str * GCodeTranslator.action) (gcode : str) : Prop :=
  exists m, Re.match_ (fst rule) gcode = Ok (Some m).

(** A command that is neither of the two filament commands. *)
Definition not_filament (gcode : str) : Prop :=
  Py.eqs (Py.upper gcode) "M701" = false
  /\ Py.eqs (Py.upper gcode) "M702" = false.

Definition is_configfile_query (q : str * str) : bool :=
  Py.eqs (snd q) "/printer/objects/query?configfile".

(** How many times the configuration was asked for so far. *)
Definition config_queries (w : world) : nat :=
  List.length (filter is_configfile_query (request_log w)).

(** What every step of the bridge respects: the configuration is asked for
    at most once, while the registry is unchecked; once checked, the flag,
    the registry and the count stay as they are. *)
Definition registry_step (w w' : world) : Prop :=
  config_queries w <= config_queries w'
  /\ (macros_checked w = true ->
      macros_checked w' = true
      /\ available_macros w' = available_macros w
      /\ config_queries w' = config_queries w)
  /\ (macros_checked w = false ->
      config_queries w' + (if macros_checked w' then 0 else 1)
      <= config_queries w + 1).

Definition keeps_registry {A} (m : M world A) : Prop :=
  keeps registry_step m.

(** Everything that reached the device so far. *)
Definition wire_of (link : TFTSerial.t) : str :=
  match TFTSerial.serial link with
  | Some p => TFTSerial.wire p
  | None => []
  end.

(** The link is up and the port will take the next write. *)
Definition link_accepts (link : TFTSerial.t) : bool :=
  match TFTSerial.serial link with
  | Some p =>
      TFTSerial.connected link
      && match TFTSerial.tx_oracle p (TFTSerial.tx_count p) with
         | TFTSerial.TxDone => true
         | TFTSerial.TxFail _ => false
         end
  | None => false
  end.

(** The commands answered outside the table: the two local queries and the
    two filament commands. *)
Definition special_handler (gcode : str) : bool :=
  Py.startswith "M115" (Py.upper gcode)
  || Py.startswith "M105" (Py.upper gcode)
  || Py.eqs (Py.upper gcode) "M701"
  || Py.eqs (Py.upper gcode) "M702".

(** A command line that no special handler, no translation rule and no
    passthrough pattern takes. *)
Definition unrecognized (line : str) : Prop :=
  let gcode := Py.strip line in
  gcode <> []
  /\ special_handler gcode = false
  /\ (forall rule, In rule GCodeTranslator.translations ->
                   ~ rule_matches rule gcode)
  /\ (forall p, In p GCodeTranslator.passthrough_patterns ->
                forall m, Re.match_ p gcode <> Ok (Some m)).

(** The two ends of the filament fallback: with no macro known, [M701]
    becomes the bridge's own macro; with [LOAD_FILAMENT] in the host's
    configuration, it becomes that one. *)
Definition host_with_macros : world :=
  mkWorld 0 []
    (fun _ =>
       Responds
         (JDict
            [("result" : str,
              JDict
                [("status" : str,
                  JDict
                    [("configfile" : str,
                      JDict
                        [("settings" : str,
                          JDict
                            [("printer" : str, JDict []);
                             ("gcode_macro load_filament" : str, JDict []);
                             ("gcode_macro park" : str, JDict [])])])])])]))
    [] [] 0 [] false idle_link plain_urljoin.

(** The deque of a limiter in arrival order and not ahead of the clock. *)
Definition in_order (s : RateLimiter.state) : Prop :=
  ascending (RateLimiter.requests (fst s))
  /\ forall t, In t (RateLimiter.requests (fst s)) -> (t <= snd s)%Z.

(** A caller that reaches the limiter at time [t]: the clock is at [t], or
    later when the previous caller was still waiting. *)
Definition arrive (t : time) : M RateLimiter.state unit :=
  fun '(self, clock) => RateLimiter.acquire (self, Z.max clock t).

Fixpoint arrivals (ts : list time) : M RateLimiter.state unit :=
  match ts with
  | [] => Eff.ret tt
  | t :: rest => arrive t ;;; arrivals rest
  end.

(** The entry that one HTTP attempt of a request leaves in the log. *)
Definition attempt_entry (method endpoint : str) (data : option json)
  : str * str * option json :=
  (Py.upper method, endpoint,
   if Py.eqs (Py.upper method) "GET" then None else data).

(** The two verbs that [_make_request] knows. *)
Definition supported (method : str) : bool :=
  Py.eqs (Py.upper method) "GET" || Py.eqs (Py.upper method) "POST".



(** The entry that [send_gcode] leaves in the log for a script. *)
Definition script_entry (script : str) : str * str * option json :=
  ("POST" : str, "/printer/gcode/script" : str,
   Some (JDict [("script" : str, JStr script)])).

(** The entry that [start_print] leaves in the log for a file. *)
Definition start_entry (filename : str) : str * str * option json :=
  ("POST" : str, "/printer/print/start" : str,
   Some (JDict [("filename" : str, JStr filename)])).

Definition test_config : BridgeConfig :=
  mkConfig "/dev/ttyS0" 115200 "localhost" 7125 "INFO" (5 * second)
           3 second true false.

(** The names that a configuration registers: one for each key with the
    macro prefix, the prefix removed and the rest in capitals. *)
Definition registered_names (settings : list (str * json)) : list str :=
  map (fun key => Py.upper (Py.replace "gcode_macro " "" key))
      (filter (Py.startswith "gcode_macro ") (map fst settings)).

(** The answer of the host carries a configuration with these settings. *)
Definition carries_settings (body settings : list (str * json)) : Prop :=
  exists result status configfile,
    Json.lookup "result" body = Some (JDict result)
    /\ Json.lookup "status" result = Some (JDict status)
    /\ Json.lookup "configfile" status = Some (JDict configfile)
    /\ Json.lookup "settings" configfile = Some (JDict settings).

(** The number of line terminators in a text. *)
Definition terminators (s : str) : nat :=
  List.length (filter (fun c => Py.eqc c "010") s).

(** The lines that a run of reads returned, in order. *)
Definition returned (lines : list (option str)) : list str :=
  flat_map (fun line => match line with
                        | Some l => [l]
                        | None => []
                        end) lines.

(** The complete lines of a stream: every piece but the unfinished last
    one, trimmed, the blank ones left out. *)
Definition complete_lines (stream : str) : list str :=
  filter (fun l => match l with
                   | [] => false
                   | _ :: _ => true
                   end)
         (map Py.strip (removelast (Py.split "010" stream))).

(** What follows the last terminator of a stream. *)
Definition unfinished (stream : str) : str :=
  last (Py.split "010" stream) [].

(** The link after the bridge has called [write_line] with each of these
    texts in turn. *)
Definition written (replies : list str) (link : TFTSerial.t) : TFTSerial.t :=
  fold_left (fun l reply => snd (TFTSerial.write_line reply l)) replies link.

(** An acknowledgement or an error report, as the display reads them. *)
Definition is_reply (text : str) : bool :=
  Py.startswith "ok" text || Py.startswith "!! " text.

(** The line that answers [M115]. *)
Definition firmware_line : str :=
  "FIRMWARE_NAME:Klipper FIRMWARE_VERSION:v0.11.0 PROTOCOL_VERSION:1.0 MACHINE_TYPE:TFT_Bridge BRIDGE_VERSION:2.3.4".

(** The two queries that the bridge makes of its own accord. *)
Definition config_entry : str * str * option json :=
  ("GET" : str, "/printer/objects/query?configfile" : str, None).

Definition status_entry : str * str * option json :=
  ("GET" : str,
   "/printer/objects/query?extruder&heater_bed&fan&toolhead&print_stats" : str,
   None).

(** A script as [send_gcode] lets it through. *)
Definition clean_script (script : str) : Prop :=
  script <> [] /\ Py.len script <= 1000
  /\ Forall (fun c => allow_list c = true) script.

(** The HTTP attempts that serving the display can lead to: the query of
    the configuration and, outside test mode, the query of the status and
    the post of a clean script. *)
Definition bridge_traffic (config : BridgeConfig)
           (entry : str * str * option json) : Prop :=
  entry = config_entry
  \/ (test_mode config = false
      /\ (entry = status_entry
          \/ exists script, entry = script_entry script /\ clean_script script)).

Definition traffic_step (config : BridgeConfig) (w w' : world) : Prop :=
  exists l, http_log w' = http_log w ++ l /\ Forall (bridge_traffic config) l.

(** A host that answers every request, behind a bridge whose registry is
    loaded. *)
Definition ready_host : world :=
  mkWorld 0 [] (fun _ => Responds (JDict [("result" : str, JStr "ok")]))
          [] [] 0 [] true idle_link plain_urljoin.

(** The reply of [process_gcode] to a command that was forwarded, from the
    answer of the host. *)
Definition reply_to (repr : json -> str) (body : list (str * json)) : str :=
  match Json.lookup "error" body with
  | Some message => "!! " ++ TFTMoonrakerBridge.py_str repr message
  | None => "ok"
  end.

(** The host fails every attempt. *)
Definition host_down (w : world) : Prop :=
  forall k, exists e, http_oracle w k = Fails e.

(* ================================================================== *)
(** * BridgeConfig.validate *)
(* ================================================================== *)

Module BridgeConfig.

Definition set_timeout (self : BridgeConfig) (x : pyfloat) : BridgeConfig :=
  mkConfig (serial_port self) (baud_rate self) (moonraker_host self)
           (moonraker_port self) (log_level self) x (max_retries self)
           (retry_delay self) (test_mode self) (standalone_mode self).

Definition set_max_retries (self : BridgeConfig) (x : Z) : BridgeConfig :=
  mkConfig (serial_port self) (baud_rate self) (moonraker_host self)
           (moonraker_port self) (log_level self) (timeout self) x
           (retry_delay self) (test_mode self) (standalone_mode self).

Definition set_retry_delay (self : BridgeConfig) (x : time) : BridgeConfig :=
  mkConfig (serial_port self) (baud_rate self) (moonraker_host self)
           (moonraker_port self) (log_level self) (timeout self)
           (max_retries self) x (test_mode self) (standalone_mode self).

Definition valid_baud_rates : list Z :=
  [9600; 19200; 38400; 57600; 115200; 230400; 250000; 460800; 921600]%Z.

(** [validate], which [__post_init__] calls on every new configuration:
    the configuration as the call leaves it, or the error raised. *)
Definition validate (self : BridgeConfig) : result BridgeConfig :=
  if standalone_mode self then
    let self := if PyFloat.le0 (timeout self)
                then set_timeout self (5 * second)%Z else self in
    let self := if (max_retries self <? 0)%Z
                then set_max_retries self 5%Z else self in
    let self := if (retry_delay self <? 0)%Z
                then set_retry_delay self second else self in
    Ok self
  else
    match serial_port self with
    | [] => Raise (ValueError "Serial port cannot be empty")
    | _ :: _ =>
        if negb (existsb (Z.eqb (baud_rate self)) valid_baud_rates) then
          Raise (ValueError ("Invalid baud rate: " ++ str_of_int (baud_rate self)
                             ++ ". Must be one of "
                             ++ str_of_ints valid_baud_rates))
        else
          match moonraker_host self with
          | [] => Raise (ValueError "Moonraker host cannot be empty")
          | _ :: _ =>
              if negb ((1 <=? moonraker_port self)%Z
                       && (moonraker_port self <=? 65535)%Z) then
                Raise (ValueError ("Invalid port: "
                                   ++ str_of_int (moonraker_port self)
                                   ++ ". Must be 1-65535"))
              else if PyFloat.le0 (timeout self) then
                Raise (ValueError "Timeout must be positive")
              else if (max_retries self <? 0)%Z then
                Raise (ValueError "Max retries must be non-negative")
              else if (retry_delay self <? 0)%Z then
                Raise (ValueError "Retry delay must be non-negative")
              else Ok self
          end
    end.

End BridgeConfig.

(** A configuration that passes the checks made outside standalone
    mode. *)
Definition well_formed (c : BridgeConfig) : Prop :=
  serial_port c <> []
  /\ In (baud_rate c) BridgeConfig.valid_baud_rates
  /\ moonraker_host c <> []
  /\ (1 <= moonraker_port c <= 65535)%Z.

(** The three numbers as [validate] leaves them: the timeout is NaN or
    above zero, the retry count and the retry delay are not negative. *)
Definition usable (c : BridgeConfig) : Prop :=
  (timeout c = NaN \/ PyFloat.positive (timeout c))
  /\ (0 <= max_retries c)%Z /\ (0 <= retry_delay c)%Z.

(** A standalone configuration with nothing right. *)
Definition careless_config : BridgeConfig :=
  mkConfig "" 0 "" 0 "" 0 (-1) (-1) false true.

(* ================================================================== *)
(** * ConnectionManager *)
(* ================================================================== *)

Module ConnectionManager.

(** How one [session.ws_connect] ends. *)
Inductive ws_outcome : Type :=
| WsOpens
| WsFails (e : exn).

Record t : Type := mk {
  session_open : bool;             (* self.session and not self.session.closed *)
  websocket_open : bool;           (* self.websocket and not self.websocket.closed *)
  connected : bool;
  ws_oracle : nat -> ws_outcome;   (* how the k-th ws_connect ends *)
  ws_count : nat;                  (* calls of ws_connect so far *)
  clock : time
}.

Definition set_session_open (self : t) (x : bool) : t :=
  mk x (websocket_open self) (connected self) (ws_oracle self)
     (ws_count self) (clock self).
Definition set_websocket_open (self : t) (x : bool) : t :=
  mk (session_open self) x (connected self) (ws_oracle self)
     (ws_count self) (clock self).
Definition set_connected (self : t) (x : bool) : t :=
  mk (session_open self) (websocket_open self) x (ws_oracle self)
     (ws_count self) (clock self).
Definition set_ws_count (self : t) (x : nat) : t :=
  mk (session_open self) (websocket_open self) (connected self)
     (ws_oracle self) x (clock self).
Definition set_clock (self : t) (x : time) : t :=
  mk (session_open self) (websocket_open self) (connected self)
     (ws_oracle self) (ws_count self) x.

(** [await asyncio.sleep(d)]: a delay that is not positive is no delay. *)
Definition sleep (d : time) : M t unit :=
  fun self => (Ok tt, set_clock self (clock self + Z.max 0 d)%Z).

(** A pure Python expression, which may raise. *)
Definition eval {A} (r : result A) : M t A := fun self => (r, self).

(** [create_session]: an open session is closed and a new one made; making
    a session reaches nothing outside the process. *)
Definition create_session : M t unit :=
  Eff.modify (fun self => set_session_open self true).

(** [self.session.ws_connect(ws_url)] *)
Definition ws_connect : M t ws_outcome := fun self =>
  (Ok (ws_oracle self (ws_count self)), set_ws_count self (S (ws_count self))).

Section Manager.

Variable config : BridgeConfig.

(** The [for attempt in range(self.config.max_retries)] loop of
    [connect_websocket], with [left] passes to go, and what follows it.
    The delay is computed in the [except] block, so what its computation
    raises leaves the function. *)
Fixpoint connect_attempts (left : nat) (attempt : Z) : M t bool :=
  match left with
  | 0 =>
      Eff.modify (fun self => set_connected self false) ;;;
      Eff.ret false
  | S left' =>
      self <- Eff.get ;;
      (if negb (session_open self) then create_session else Eff.ret tt) ;;;
      out <- ws_connect ;;
      match out with
      | WsOpens =>
          Eff.modify (fun self =>
            set_connected (set_websocket_open self true) true) ;;;
          Eff.ret true
      | WsFails _ =>
          (if (attempt <? max_retries config - 1)%Z
           then delay <- eval (backoff (retry_delay config) attempt) ;;
                sleep delay
           else Eff.ret tt) ;;;
          connect_attempts left' (attempt + 1)%Z
      end
  end.

(** [connect_websocket] *)
Definition connect_websocket : M t bool :=
  connect_attempts (Z.to_nat (max_retries config)) 0%Z.

End Manager.

End ConnectionManager.

(** The websocket endpoint refuses every connection. *)
Definition ws_down (self : ConnectionManager.t) : Prop :=
  forall k, exists e,
    ConnectionManager.ws_oracle self k = ConnectionManager.WsFails e.

Definition fresh_manager (oracle : nat -> ConnectionManager.ws_outcome)
  : ConnectionManager.t :=
  ConnectionManager.mk false false false oracle 0 0.

(* ================================================================== *)
(** * TFTSerial.connect *)
(* ================================================================== *)

(** What [connect] finds behind the configured path. *)
Record device : Type := mkDevice {
  path_exists : bool;               (* os.path.exists(self.config.serial_port) *)
  probe : option exn;               (* what the test open raises, if anything *)
  opening : TFTSerial.port + exn    (* the port that the open gives, or what
                                       it raises *)
}.

(** [connect] *)
Definition connect (config : BridgeConfig) (dev : device)
  : M TFTSerial.t bool := fun self =>
  if negb (path_exists dev) then
    if standalone_mode config then (Ok false, self) else (Ok false, self)
  else
    match probe dev with
    | Some (SerialException _) => (Ok false, self)
    | Some _ => (Ok false, TFTSerial.set_connected self false)
    | None =>
        match opening dev with
        | inl p =>
            (Ok true, TFTSerial.set_connected (TFTSerial.set_serial self p) true)
        | inr _ => (Ok false, TFTSerial.set_connected self false)
        end
    end.

(** A link that went down in the middle of a line. *)
Definition interrupted_link : TFTSerial.t :=
  TFTSerial.mk None false "G2" [].

(** A device that is there again, with one line waiting. *)
Definition device_back : device :=
  mkDevice true None
    (inl (TFTSerial.mkPort [TFTSerial.RxData ("M105" ++ ["010"%char])]
            (fun _ => TFTSerial.TxDone) 0 [])).

(** [urljoin] forms a URL from the base of the client and the endpoint. *)
Definition url_forms (config : BridgeConfig) (w : world) (endpoint : str)
  : Prop :=
  exists url, urljoin w (MoonrakerClient.base_url config) endpoint = Ok url.

(** Every body that the host answers with is a JSON object. *)
Definition answers_objects (w : world) : Prop :=
  forall k v, http_oracle w k = Responds v -> Json.is_dict v = true.

(** [urljoin] as [urllib.parse] has it on a network location with an
    opening bracket and no closing one; every other pair of texts is joined
    (how is of no account here). *)
Definition bracket_urljoin (base url : str) : result str :=
  if Py.startswith "//[" url && negb (Py.contains "]" url)
  then Raise (ValueError "Invalid IPv6 URL")
  else Ok (base ++ url).

Definition bracket_world : world :=
  mkWorld 0 [] (fun _ => Fails (ClientError "Cannot connect to host"))
          [] [] 0 [] false idle_link bracket_urljoin.

(** A host that answers every request with a JSON array. *)
Definition list_host : world :=
  mkWorld 0 [] (fun _ => Responds (JList [JStr "a"]))
          [] [] 0 [] false idle_link plain_urljoin.

(** The world as a call of [_make_request] has it when the URL is formed:
    the limiter is passed and the call is recorded. *)
Definition recorded (method endpoint : str) (w : world) : world :=
  World.set_request_log (snd (MoonrakerClient.acquire w))
                        (request_log w ++ [(method, endpoint)]).


(** The configuration of [--timeout nan]. *)
Definition nan_config : BridgeConfig :=
  mkConfig "/dev/ttyS0" 115200 "localhost" 7125 "INFO" NaN
           3 second false false.

(** The forms of name in the words of the claim: a name of a single
    segment holds no path separator at all, forward or backward. *)
Definition has_separator (name : str) : Prop :=
  In "/"%char name \/ In "\"%char name.

Definition rejected_form_as_claimed (name : str) : Prop :=
  name = [] \/ has_parent_segment name \/ is_absolute name
  \/ has_separator name \/ 255 < Py.len name.

(** A text on which [Py.upper] is [str.upper]: it holds neither the micro
    sign nor the y with diaeresis, whose capitals lie above 255. *)
Definition upper_exact (s : str) : Prop :=
  Forall (fun c => Py.code c <> 181 /\ Py.code c <> 255) s.

(** The query that [start] makes. *)
Definition info_entry : str * str * option json :=
  ("GET" : str, "/printer/info" : str, None).

(** Every delay that the retry loops of a configuration can compute is in
    the range of a float: the longest, after try [max_retries - 2] or after
    try 1023, whichever comes first, is below [2 ** 1024] seconds.  Beyond
    that range the product is [inf], a sleep that has no end. *)
Definition delays_fit (config : BridgeConfig) : Prop :=
  (retry_delay config * 2 ^ Z.min (max_retries config - 2) 1023
   < second * 2 ^ 1024)%Z.

(* ================================================================== *)
(** * Theorems *)
(* ================================================================== *)

Unset Implicit Arguments.

(** ** Facts about Python strings *)

Section StringFacts.

Variable p : ascii -> bool.

Lemma dropwhile_Forall (P : ascii -> Prop) (s : str) :
  Forall P s -> Forall P (Py.dropwhile p s).
Proof.
  induction 1 as [|c s Hc Hs IH]; simpl; [constructor|].
  destruct (p c); [exact IH | constructor; assumption].
Qed.

Lemma dropwhile_length (s : str) :
  List.length (Py.dropwhile p s) <= List.length s.
Proof.
  induction s as [|c s IH]; simpl; [lia|].
  destruct (p c); simpl; lia.
Qed.

Lemma dropwhile_idem (s : str) :
  Py.dropwhile p (Py.dropwhile p s) = Py.dropwhile p s.
Proof.
  induction s as [|c s IH]; simpl; [reflexivity|].
  destruct (p c) eqn:E; [exact IH | simpl; rewrite E; reflexivity].
Qed.

Lemma dropwhile_keeps_last (l : str) (c : ascii) :
  p c = false -> exists l', Py.dropwhile p (l ++ [c]) = l' ++ [c].
Proof.
  intros Hc. induction l as [|x l IH]; simpl.
  - rewrite Hc. exists []. reflexivity.
  - destruct (p x); [exact IH | exists (x :: l); reflexivity].
Qed.

Lemma dropwhile_head (s : str) :
  match Py.dropwhile p s with
  | [] => True
  | c :: _ => p c = false
  end.
Proof.
  induction s as [|x s IH]; simpl; [exact I|].
  destruct (p x) eqn:E; [exact IH | exact E].
Qed.

Lemma dropwhile_fixed (c : ascii) (s : str) :
  p c = false -> Py.dropwhile p (c :: s) = c :: s.
Proof. intros H; simpl; rewrite H; reflexivity. Qed.

End StringFacts.

Lemma strip_Forall (P : ascii -> Prop) (s : str) :
  Forall P s -> Forall P (Py.strip s).
Proof.
  intros H. unfold Py.strip, Py.rstrip, Py.lstrip.
  apply Forall_rev, dropwhile_Forall, Forall_rev, dropwhile_Forall, H.
Qed.

Lemma strip_length (s : str) : Py.len (Py.strip s) <= Py.len s.
Proof.
  unfold Py.len, Py.strip, Py.rstrip, Py.lstrip.
  rewrite length_rev.
  etransitivity; [apply dropwhile_length|].
  rewrite length_rev. apply dropwhile_length.
Qed.

Lemma rstrip_idem (s : str) : Py.rstrip (Py.rstrip s) = Py.rstrip s.
Proof.
  unfold Py.rstrip. rewrite rev_involutive, dropwhile_idem. reflexivity.
Qed.

(** Stripping the right end never uncovers whitespace at the left end. *)
Lemma lstrip_rstrip_lstrip (s : str) :
  Py.lstrip (Py.rstrip (Py.lstrip s)) = Py.rstrip (Py.lstrip s).
Proof.
  unfold Py.lstrip at 2 3.
  pose proof (dropwhile_head Py.isspace s) as Hh.
  destruct (Py.dropwhile Py.isspace s) as [|c t]; [reflexivity|].
  unfold Py.rstrip. simpl rev.
  destruct (dropwhile_keeps_last Py.isspace (rev t) c Hh) as [l' Hl'].
  rewrite Hl', rev_app_distr. simpl.
  unfold Py.lstrip. apply dropwhile_fixed, Hh.
Qed.

Lemma strip_idem (s : str) : Py.strip (Py.strip s) = Py.strip s.
Proof.
  unfold Py.strip. rewrite lstrip_rstrip_lstrip. apply rstrip_idem.
Qed.

Lemma filter_all (f : ascii -> bool) (s : str) :
  Forall (fun c => f c = true) s -> filter f s = s.
Proof.
  induction 1 as [|c s Hc Hs IH]; simpl; [reflexivity|].
  rewrite Hc, IH. reflexivity.
Qed.

Lemma filter_Forall (f : ascii -> bool) (s : str) :
  Forall (fun c => f c = true) (filter f s).
Proof.
  induction s as [|c s IH]; simpl; [constructor|].
  destruct (f c) eqn:E; [constructor; assumption | exact IH].
Qed.

Lemma eqc_true (a b : ascii) : Py.eqc a b = true <-> a = b.
Proof. apply Ascii.eqb_eq. Qed.

Lemma startswith_app (q s : str) :
  Py.startswith q s = true <-> exists t, s = q ++ t.
Proof.
  revert s. induction q as [|x q IH]; intros s; simpl.
  - split; [intros _; exists s; reflexivity | reflexivity].
  - destruct s as [|y s].
    + split; [discriminate | intros [t Ht]; discriminate].
    + rewrite andb_true_iff, eqc_true, IH. split.
      * intros [-> [t ->]]. exists t. reflexivity.
      * intros [t Ht]. injection Ht as -> ->. split; [reflexivity | eauto].
  Qed.

Lemma split_nonempty (sep : ascii) (s : str) : Py.split sep s <> [].
Proof.
  destruct s as [|c s]; simpl; [discriminate|].
  destruct (Py.eqc c sep); [discriminate|].
  destruct (Py.split sep s); discriminate.
Qed.

(** The first piece of a split is a prefix of the text. *)
Lemma split_head_prefix (sep : ascii) (s l : str) (ls : list str) :
  Py.split sep s = l :: ls -> Py.startswith l s = true.
Proof.
  revert l ls. induction s as [|c s IH]; intros l ls; simpl.
  - intros [= <- <-]. reflexivity.
  - destruct (Py.eqc c sep).
    + intros [= <- <-]. reflexivity.
    + destruct (Py.split sep s) as [|l0 ls0] eqn:E.
      * intros [= <- <-]. simpl. unfold Py.eqc. rewrite Ascii.eqb_refl.
        destruct s; reflexivity.
      * intros [= <- <-]. simpl. unfold Py.eqc at 1. rewrite Ascii.eqb_refl.
        simpl. eapply IH. reflexivity.
Qed.

(** A piece of a split occurs in the text. *)
Lemma split_In_contains (sep : ascii) (s piece : str) :
  In piece (Py.split sep s) -> Py.contains piece s = true.
Proof.
  induction s as [|c s IH]; simpl.
  - intros [<- | []]. reflexivity.
  - destruct (Py.eqc c sep) eqn:Ec.
    + intros [<- | Hin]; [reflexivity|].
      rewrite (IH Hin). apply orb_true_r.
    + destruct (Py.split sep s) as [|l0 ls0] eqn:E.
      * exfalso. exact (split_nonempty _ _ E).
      * intros [<- | Hin].
        -- assert (Hp : Py.startswith (c :: l0) (c :: s) = true).
           { simpl. unfold Py.eqc. rewrite Ascii.eqb_refl. simpl.
             eapply split_head_prefix. exact E. }
           rewrite Hp. reflexivity.
        -- rewrite IH; [apply orb_true_r | right; exact Hin].
Qed.

(** ** SecurityValidator.validate_filename *)

Lemma contains_char (c : ascii) (s : str) :
  In c s -> Py.contains [c] s = true.
Proof.
  induction s as [|x s IH]; simpl; [intros []|].
  intros [-> | Hin].
  - unfold Py.eqc. rewrite Ascii.eqb_refl. reflexivity.
  - rewrite (IH Hin). apply orb_true_r.
Qed.

(** C3, as amended. [validate_filename] answers [False] for the empty
    name, for a name with a parent-directory segment, for an absolute path,
    for a name with a backslash and for a name of more than 255 characters;
    it rejects [../../etc/passwd] and [/abs/path.gcode] and accepts
    [job.gcode]. *)
Theorem validate_filename_rejects :
  (forall name : str,
      rejected_form name -> SecurityValidator.validate_filename name = false)
  /\ SecurityValidator.validate_filename "../../etc/passwd" = false
  /\ SecurityValidator.validate_filename "/abs/path.gcode" = false
  /\ SecurityValidator.validate_filename "job.gcode" = true.
Proof.
  split; [|repeat split; reflexivity].
  intros name H. unfold SecurityValidator.validate_filename.
  destruct name as [|c name]; [reflexivity|].
  destruct H as [H | [H | [H | [H | H]]]].
  - discriminate.
  - apply split_In_contains in H. change (".." : str) with (list_ascii_of_string "..") in H.
    rewrite H. reflexivity.
  - unfold is_absolute in H. rewrite H, orb_true_r. reflexivity.
  - apply contains_char in H.
    change (Py.contains "\" (c :: name)) with (Py.contains ["\"%char] (c :: name)).
    rewrite H, orb_true_r. reflexivity.
  - destruct (_ || _ || _); [reflexivity|].
    destruct (SecurityValidator.isabs _); [reflexivity|].
    apply Nat.ltb_lt in H. rewrite H. reflexivity.
Qed.

Lemma validate_filename_rejects_witness :
  rejected_form "gcodes\..\printer.cfg"
  /\ SecurityValidator.validate_filename "gcodes\..\printer.cfg" = false.
Proof.
  assert (H : rejected_form "gcodes\..\printer.cfg").
  { right; right; right; left. unfold has_foreign_separator. simpl. tauto. }
  split; [exact H | exact (proj1 validate_filename_rejects _ H)].
Defined.

(** The validator accepts exactly the names that have none of its rejected
    shapes; in particular a forward slash inside a name is let through, so
    a file in a sub-directory is a valid name. *)
Lemma validate_filename_accepts (name : str) :
  SecurityValidator.validate_filename name = true <->
  name <> [] /\ Py.contains ".." name = false
  /\ Py.startswith "/" name = false /\ Py.contains "\" name = false
  /\ Py.len name <= 255.
Proof.
  unfold SecurityValidator.validate_filename, SecurityValidator.isabs.
  destruct name as [|c name].
  - split; [discriminate | intros [H _]; congruence].
  - destruct (Py.contains ".." (c :: name)) eqn:E1;
    destruct (Py.startswith "/" (c :: name)) eqn:E2;
    destruct (Py.contains "\" (c :: name)) eqn:E3;
    cbn [orb];
    try (split; [discriminate | intros (_ & ? & ? & ? & _); congruence]).
    destruct (255 <? Py.len (c :: name)) eqn:E4.
    + apply Nat.ltb_lt in E4.
      split; [discriminate | intros (_ & _ & _ & _ & ?); lia].
    + apply Nat.ltb_ge in E4.
      split; [intros _; repeat split; try discriminate; assumption | reflexivity].
Qed.

Example validate_filename_subdirectory :
  SecurityValidator.validate_filename "calibration/cube.gcode" = true.
Proof. reflexivity. Qed.

(** C3, as stated, fails: a name of two segments holds a path separator,
    which a single segment has not, and the validator accepts it. *)
Lemma validate_filename_accepts_separator :
  rejected_form_as_claimed "calibration/cube.gcode"
  /\ SecurityValidator.validate_filename "calibration/cube.gcode" = true.
Proof.
  split; [|reflexivity].
  right; right; right; left. left. simpl. tauto.
Qed.

(** ** SecurityValidator.sanitize_gcode *)

Lemma kept_allow_list (c : ascii) : SecurityValidator.kept c = allow_list c.
Proof.
  unfold SecurityValidator.kept, allow_list, Py.isword.
  replace (Py.code c =? 95) with (Py.eqc c "_"%char); [reflexivity|].
  unfold Py.eqc, Py.code.
  destruct (Ascii.eqb c "_") eqn:E.
  - apply Ascii.eqb_eq in E. subst. reflexivity.
  - symmetry. apply Nat.eqb_neq. intros H.
    apply Ascii.eqb_neq in E. apply E.
    rewrite <- (ascii_nat_embedding c), H. reflexivity.
Qed.

Lemma sanitize_gcode_unfold (gcode : str) :
  SecurityValidator.sanitize_gcode gcode =
  Py.prefix 1000 (filter SecurityValidator.kept (Py.strip gcode)).
Proof.
  unfold SecurityValidator.sanitize_gcode, SecurityValidator.re_sub_unsafe.
  destruct gcode as [|c g]; [reflexivity|].
  cbv zeta. destruct (1000 <? _) eqn:E; [reflexivity|].
  apply Nat.ltb_ge in E. unfold Py.prefix.
  symmetry. apply firstn_all2. exact E.
Qed.

Lemma sanitize_gcode_kept (gcode : str) :
  Forall (fun c => SecurityValidator.kept c = true)
         (SecurityValidator.sanitize_gcode gcode).
Proof.
  rewrite sanitize_gcode_unfold. unfold Py.prefix.
  apply Forall_forall. intros c Hc.
  assert (Hin : In c (filter SecurityValidator.kept (Py.strip gcode))).
  { rewrite <- (firstn_skipn 1000). apply in_or_app. left. exact Hc. }
  apply filter_In in Hin. tauto.
Qed.

Lemma sanitize_gcode_length (gcode : str) :
  Py.len (SecurityValidator.sanitize_gcode gcode) <= 1000.
Proof.
  rewrite sanitize_gcode_unfold. unfold Py.len, Py.prefix.
  apply firstn_le_length.
Qed.

(** C4, as the code has it.  The output of [sanitize_gcode] is the stripped
    input with every character outside the allow-list removed, cut to its
    first 1000 characters; the allow-list is letters, digits, the
    underscore, whitespace and [. - + = :]; the output has at most 1000
    characters and the empty input gives the empty output. *)
Theorem sanitize_gcode_allow_list (gcode : str) :
  SecurityValidator.sanitize_gcode gcode =
    Py.prefix 1000 (filter allow_list (Py.strip gcode))
  /\ Forall (fun c => allow_list c = true)
            (SecurityValidator.sanitize_gcode gcode)
  /\ Py.len (SecurityValidator.sanitize_gcode gcode) <= 1000
  /\ SecurityValidator.sanitize_gcode "" = "".
Proof.
  repeat split.
  - rewrite sanitize_gcode_unfold. f_equal.
    apply filter_ext. exact kept_allow_list.
  - eapply Forall_impl; [|apply sanitize_gcode_kept].
    intros c Hc. rewrite <- kept_allow_list. exact Hc.
  - apply sanitize_gcode_length.
Qed.

(** C4, as stated, fails on the underscore: it is neither a letter, a digit,
    whitespace nor one of the five marks, and [sanitize_gcode] keeps it.  The
    input is one of the translator's own targets. *)
Lemma sanitize_gcode_keeps_underscore :
  SecurityValidator.sanitize_gcode "BED_MESH_CLEAR" = "BED_MESH_CLEAR"
  /\ ~ Forall (fun c => allow_list_as_claimed c = true)
              (SecurityValidator.sanitize_gcode "BED_MESH_CLEAR").
Proof.
  split; [reflexivity|].
  intros H. rewrite Forall_forall in H.
  specialize (H "_"%char). cbv in H.
  assert (E : false = true) by (apply H; tauto).
  discriminate E.
Qed.

(** C5, as the code has it.  A second pass of [sanitize_gcode] only strips
    the whitespace that the first pass left at the two ends, a third pass
    changes nothing more, and the output has at most 1000 characters. *)
Theorem sanitize_gcode_twice (x : str) :
  SecurityValidator.sanitize_gcode (SecurityValidator.sanitize_gcode x)
    = Py.strip (SecurityValidator.sanitize_gcode x)
  /\ SecurityValidator.sanitize_gcode
       (SecurityValidator.sanitize_gcode (SecurityValidator.sanitize_gcode x))
     = SecurityValidator.sanitize_gcode (SecurityValidator.sanitize_gcode x)
  /\ Py.len (SecurityValidator.sanitize_gcode x) <= 1000.
Proof.
  assert (step : forall y : str,
             Forall (fun c => SecurityValidator.kept c = true) y ->
             Py.len y <= 1000 ->
             SecurityValidator.sanitize_gcode y = Py.strip y).
  { intros y Hk Hl. rewrite sanitize_gcode_unfold.
    rewrite filter_all by (apply strip_Forall; exact Hk).
    unfold Py.prefix. apply firstn_all2.
    pose proof (strip_length y). unfold Py.len in *. lia. }
  pose proof (sanitize_gcode_kept x) as Hk.
  pose proof (sanitize_gcode_length x) as Hl.
  split; [|split]; [apply step; assumption | | exact Hl].
  rewrite (step _ Hk Hl).
  rewrite step.
  - apply strip_idem.
  - apply strip_Forall. exact Hk.
  - pose proof (strip_length (SecurityValidator.sanitize_gcode x)). lia.
Qed.

(** C5, as stated, fails: removing a character can uncover whitespace that
    the strip, done before the removal, no longer sees.  The last input is
    the translator's own answer to [M503]. *)
Lemma sanitize_gcode_not_idempotent :
  SecurityValidator.sanitize_gcode "! a" = " a"
  /\ SecurityValidator.sanitize_gcode (SecurityValidator.sanitize_gcode "! a")
     = "a"
  /\ SecurityValidator.sanitize_gcode (SecurityValidator.sanitize_gcode "! a")
     <> SecurityValidator.sanitize_gcode "! a"
  /\ SecurityValidator.sanitize_gcode
       (SecurityValidator.sanitize_gcode "# Settings saved in printer.cfg")
     <> SecurityValidator.sanitize_gcode "# Settings saved in printer.cfg".
Proof.
  repeat split; try reflexivity; cbv; discriminate.
Qed.

Example sanitize_demo :
  SecurityValidator.sanitize_gcode "G1 X10; rm -rf /" = "G1 X10 rm -rf ".
Proof. reflexivity. Qed.

(** ** RateLimiter.acquire *)

Lemma filter_all_Z (f : Z -> bool) (q : list Z) :
  (forall u, In u q -> f u = true) -> filter f q = q.
Proof.
  induction q as [|t q IH]; simpl; intros H; [reflexivity|].
  rewrite (H t) by (left; reflexivity).
  rewrite IH; [reflexivity | intros u Hu; apply H; right; exact Hu].
Qed.

Lemma evict_old_filter (bound : time) (q : list time) :
  ascending q ->
  RateLimiter.evict_old bound q = filter (fun t => negb (t <? bound)%Z) q.
Proof.
  induction q as [|t q IH]; simpl; [reflexivity|].
  intros [Hle Hq]. destruct (t <? bound)%Z eqn:E; simpl.
  - apply IH, Hq.
  - f_equal. symmetry. apply filter_all_Z. intros u Hu.
    apply Z.ltb_ge in E. specialize (Hle u Hu).
    apply negb_true_iff, Z.ltb_ge. lia.
Qed.

(** C6, as amended.  With a positive capacity and the deque in arrival
    order, [acquire] drops every timestamp older than [now - W]; if the
    window then holds [N] entries or more it computes the wait until the
    oldest leaves the window and, when that wait is positive, sleeps for it
    and drops the oldest; at the end it records one timestamp, taken between
    the entry of the call and its end.  The call never raises, and the clock
    never goes back. *)
Theorem acquire_steps (self : RateLimiter.t) (clock : time) :
  (0 < RateLimiter.max_requests self)%Z ->
  ascending (RateLimiter.requests self) ->
  exists stamp self' clock',
    RateLimiter.acquire (self, clock) = acquire_as_amended stamp (self, clock)
    /\ RateLimiter.acquire (self, clock) = (Ok tt, (self', clock'))
    /\ (clock <= stamp <= clock')%Z
    /\ (exists q, RateLimiter.requests self' = q ++ [stamp]).
Proof.
  intros HN Hasc. exists clock.
  unfold RateLimiter.acquire, acquire_as_amended.
  cbv zeta. rewrite (evict_old_filter _ _ Hasc).
  destruct (filter (fun t => negb (t <? clock - RateLimiter.time_window self)%Z)
                   (RateLimiter.requests self)) as [|oldest rest].
  - cbn [List.length Z.of_nat].
    assert (E : (RateLimiter.max_requests self <=? 0)%Z = false)
      by (apply Z.leb_gt; lia).
    rewrite E. eexists _, _. split; [reflexivity|]. split; [reflexivity|].
    simpl. split; [lia | exists []; reflexivity].
  - destruct (_ <=? _)%Z.
    + destruct (0 <? _)%Z eqn:Ew.
      * eexists _, _. split; [reflexivity|]. split; [reflexivity|].
        simpl. apply Z.ltb_lt in Ew.
        split; [lia | exists rest; reflexivity].
      * eexists _, _. split; [reflexivity|]. split; [reflexivity|].
        cbn [RateLimiter.requests RateLimiter.set_requests].
        split; [lia | exists (oldest :: rest); reflexivity].
    + eexists _, _. split; [reflexivity|]. split; [reflexivity|].
      cbn [RateLimiter.requests RateLimiter.set_requests].
      split; [lia | exists (oldest :: rest); reflexivity].
Qed.

Lemma acquire_steps_witness :
  exists stamp self' clock',
    RateLimiter.acquire (RateLimiter.mk 2 1000 [100; 200]%Z, 700%Z)
    = acquire_as_amended stamp (RateLimiter.mk 2 1000 [100; 200]%Z, 700%Z)
    /\ RateLimiter.acquire (RateLimiter.mk 2 1000 [100; 200]%Z, 700%Z)
       = (Ok tt, (self', clock'))
    /\ (700 <= stamp <= clock')%Z
    /\ (exists q, RateLimiter.requests self' = q ++ [stamp]).
Proof.
  apply (acquire_steps (RateLimiter.mk 2 1000 [100; 200]%Z) 700%Z).
  - simpl. lia.
  - simpl. split; [intros u [<- | []]; lia | split; [intros u [] | exact I]].
Defined.

(** C6, as stated, fails at the edges of the window.  When the oldest entry
    sits exactly on the edge, the wait is zero and nothing is evicted:
    capacity 1, window 1000, one request at time 0 and a call at 1000 leave
    both entries in the deque, where the claim has the oldest evicted.  And
    a window that holds more than [N] entries counts as full. *)
Lemma acquire_zero_wait_keeps_oldest :
  RateLimiter.acquire (RateLimiter.mk 1 1000 [0%Z], 1000%Z)
    = (Ok tt, (RateLimiter.mk 1 1000 [0; 1000]%Z, 1000%Z))
  /\ acquire_as_claimed (RateLimiter.mk 1 1000 [0%Z], 1000%Z)
    = (Ok tt, (RateLimiter.mk 1 1000 [1000%Z], 1000%Z))
  /\ RateLimiter.acquire (RateLimiter.mk 1 1000 [0%Z], 1000%Z)
     <> acquire_as_claimed (RateLimiter.mk 1 1000 [0%Z], 1000%Z)
  /\ RateLimiter.acquire (RateLimiter.mk 1 1000 [1000; 1000]%Z, 1500%Z)
     = (Ok tt, (RateLimiter.mk 1 1000 [1000; 1500]%Z, 2000%Z))
  /\ acquire_as_claimed (RateLimiter.mk 1 1000 [1000; 1000]%Z, 1500%Z)
     = (Ok tt, (RateLimiter.mk 1 1000 [1000; 1000; 1500]%Z, 1500%Z)).
Proof.
  repeat split; try reflexivity.
  cbv. discriminate.
Qed.

(** After a wait the entry that [acquire] appends is [now], read on entry:
    with capacity 1, window 1000 and one request at time 0, a call entered
    at 500 sleeps until 1000 and records 500, where the path without a wait
    records the time of admission. *)
Example acquire_records_entry_time :
  RateLimiter.acquire (RateLimiter.mk 1 1000 [0%Z], 500%Z)
  = (Ok tt, (RateLimiter.mk 1 1000 [500%Z], 1000%Z)).
Proof. reflexivity. Qed.

(** What the early timestamp costs: the entry of a caller that waited looks
    older than the request it stands for, so the next caller is let through
    sooner.  Capacity 1, window 1000: the second request goes out at 1000 and
    the third at 1100. *)
Example acquire_early_admission :
  let rl0 := RateLimiter.mk 1 1000 [] in
  match RateLimiter.acquire (rl0, 0%Z) with
  | (Ok _, (rl1, _)) =>
      match RateLimiter.acquire (rl1, 100%Z) with
      | (Ok _, (rl2, t2)) =>
          match RateLimiter.acquire (rl2, t2) with
          | (Ok _, (_, t3)) => t2 = 1000%Z /\ t3 = 1100%Z
          | _ => False
          end
      | _ => False
      end
  | _ => False
  end.
Proof. cbv. split; reflexivity. Qed.

(** A capacity of zero makes [acquire] index an empty deque. *)
Example acquire_zero_capacity :
  fst (RateLimiter.acquire (RateLimiter.mk 0 1000 [], 0%Z))
  = Raise (IndexError "deque index out of range").
Proof. reflexivity. Qed.

(** ** Regular expressions: the patterns of the source, read and run *)

Example compile_M421 :
  Re.compile "M421\s+I(\d+)\s+J(\d+)\s+Z([+-]?\d*\.?\d+)" =
  Some [Re.Atom (Re.Lit "M") Re.One; Re.Atom (Re.Lit "4") Re.One;
        Re.Atom (Re.Lit "2") Re.One; Re.Atom (Re.Lit "1") Re.One;
        Re.Atom Re.Space Re.Plus; Re.Atom (Re.Lit "I") Re.One;
        Re.Open; Re.Atom Re.Digit Re.Plus; Re.Close;
        Re.Atom Re.Space Re.Plus; Re.Atom (Re.Lit "J") Re.One;
        Re.Open; Re.Atom Re.Digit Re.Plus; Re.Close;
        Re.Atom Re.Space Re.Plus; Re.Atom (Re.Lit "Z") Re.One;
        Re.Open; Re.Atom (Re.OneOf [("+", "+"); ("-", "-")]%char) Re.Opt;
        Re.Atom Re.Digit Re.Star; Re.Atom (Re.Lit ".") Re.Opt;
        Re.Atom Re.Digit Re.Plus; Re.Close].
Proof. reflexivity. Qed.

Example match_M421 :
  Re.match_ "M421\s+I(\d+)\s+J(\d+)\s+Z([+-]?\d*\.?\d+)" "m421  i10 J5 Z-.25 ; x"
  = Ok (Some [(3, "-.25" : str); (2, "5" : str); (1, "10" : str)]).
Proof. reflexivity. Qed.

Example match_backtracks :
  Re.match_ "M851\s+Z([+-]?\d*\.?\d+)" "M851 Z12"
  = Ok (Some [(1, "12" : str)]).
Proof. reflexivity. Qed.

(** ** TFTSerial.read_line *)

(** The framing example: the two chunks [G28\nG1 X] and [10\n] give [G28]
    and then [G1 X10], and leave the buffer empty. *)
Example read_line_split_chunk :
  let '(lines, self) :=
    TFTSerial.read_lines 2
      (TFTSerial.fed [ "G28" ++ ["010"%char] ++ "G1 X" ; "10" ++ ["010"%char] ]) in
  lines = [Some ("G28" : str); Some ("G1 X10" : str)]
  /\ TFTSerial._read_buffer self = [].
Proof. vm_compute. split; reflexivity. Qed.

Lemma split_last_no_sep (sep : ascii) (s : str) :
  ~ In sep (last (Py.split sep s) []).
Proof.
  induction s as [|c s IH]; simpl; [tauto|].
  destruct (Py.eqc c sep) eqn:E.
  - pose proof (split_nonempty sep s) as Hne.
    destruct (Py.split sep s) as [|l ls]; [congruence | exact IH].
  - pose proof (split_nonempty sep s) as Hne.
    destruct (Py.split sep s) as [|l ls]; [congruence|].
    destruct ls as [|l' ls'].
    + simpl in *. intros [H | H]; [|exact (IH H)].
      subst c. unfold Py.eqc in E. rewrite Ascii.eqb_refl in E. discriminate.
    + exact IH.
Qed.

Lemma contains_char_false (c : ascii) (s : str) :
  Py.contains [c] s = false -> ~ In c s.
Proof.
  intros H Hin. apply contains_char in Hin. congruence.
Qed.

(** Between reads the buffer holds at most one unfinished fragment: it
    never contains a line terminator. *)
Lemma read_line_buffer_fragment (self self' : TFTSerial.t) (r : result (option str)) :
  ~ In "010"%char (TFTSerial._read_buffer self) ->
  TFTSerial.read_line self = (r, self') ->
  ~ In "010"%char (TFTSerial._read_buffer self').
Proof.
  intros Hb. unfold TFTSerial.read_line.
  destruct (TFTSerial.serial self) as [p|]; [|intros [= <- <-]; exact Hb].
  destruct (negb (TFTSerial.connected self)); [intros [= <- <-]; exact Hb|].
  destruct (TFTSerial.poll p) as [[|data|e] p'].
  - intros [= <- <-]. exact Hb.
  - cbn [TFTSerial._read_buffer TFTSerial.set_serial].
    unfold TFTSerial.extract.
    destruct (Py.contains _ _) eqn:E.
    + intros [= <- <-]. simpl. apply split_last_no_sep.
    + intros [= <- <-]. simpl. apply contains_char_false. exact E.
  - destruct e; intros [= <- <-]; exact Hb.
Qed.

(** [read_line] never raises. *)
Lemma read_line_returns (self : TFTSerial.t) :
  exists line self', TFTSerial.read_line self = (Ok line, self').
Proof.
  unfold TFTSerial.read_line.
  destruct (TFTSerial.serial self) as [p|]; [|eauto].
  destruct (negb (TFTSerial.connected self)); [eauto|].
  destruct (TFTSerial.poll p) as [[|data|e] p']; [eauto | | destruct e; eauto].
  destruct (TFTSerial.extract _). eauto.
Qed.

(** C2.  [read_line] on a buffer with two terminators keeps only what
    follows the last one: the chunk [M105\nM114\nG1] gives [M105], leaves
    [G1] in the buffer, and [M114] is returned by no later read.  A first
    line that is blank takes the complete line behind it along. *)
Theorem read_line_drops_buffered_lines :
  (let '(lines, self) :=
     TFTSerial.read_lines 3
       (TFTSerial.fed [ "M105" ++ ["010"%char] ++ "M114" ++ ["010"%char] ++ "G1";
                        " X5" ++ ["010"%char] ]) in
   lines = [Some ("M105" : str); Some ("G1 X5" : str); None]
   /\ TFTSerial._read_buffer self = [])
  /\ (let '(lines, self) :=
        TFTSerial.read_lines 2
          (TFTSerial.fed [ ["010"%char] ++ "G28" ++ ["010"%char] ]) in
      lines = [None; None] /\ TFTSerial._read_buffer self = []).
Proof. vm_compute. repeat split; reflexivity. Qed.

(** ** Reasoning about effects *)

Section EffectFacts.

Context {S : Type}.

Lemma returns_ret {A} (a : A) : returns (Eff.ret (S := S) a).
Proof. intros s. exists a. reflexivity. Qed.

Lemma returns_get : returns (Eff.get (S := S)).
Proof. intros s. exists s. reflexivity. Qed.

Lemma returns_modify (f : S -> S) : returns (Eff.modify f).
Proof. intros s. exists tt. reflexivity. Qed.

Lemma returns_bind {A B} (m : M S A) (k : A -> M S B) :
  returns m -> (forall a, returns (k a)) -> returns (Eff.bind m k).
Proof.
  intros Hm Hk s. unfold Eff.bind.
  destruct (Hm s) as [a Ha]. destruct (m s) as [r s1]. simpl in Ha. subst r.
  apply Hk.
Qed.

(** A handler that returns makes the whole [try] return, whatever the
    body does. *)
Lemma returns_try_except {A} (m : M S A) (h : exn -> M S A) :
  (forall e, returns (h e)) -> returns (Eff.try_except m h).
Proof.
  intros Hh s. unfold Eff.try_except.
  destruct (m s) as [[a|e] s1]; [exists a; reflexivity | apply Hh].
Qed.

Lemma returns_try_finally {A} (m : M S A) (f : M S unit) :
  returns m -> returns f -> returns (Eff.try_finally m f).
Proof.
  intros Hm Hf s. unfold Eff.try_finally.
  destruct (Hm s) as [a Ha]. destruct (m s) as [r s1]. simpl in Ha. subst r.
  destruct (Hf s1) as [u Hu]. destruct (f s1) as [r2 s2]. simpl in Hu.
  subst r2. exists a. reflexivity.
Qed.

(** A relation between the state before and the state after that a
    computation respects, whether it returns or raises. *)
Section Keeps.

Variable R : S -> S -> Prop.
Hypothesis R_refl : forall s, R s s.
Hypothesis R_trans : forall a b c, R a b -> R b c -> R a c.

Lemma keeps_ret {A} (a : A) : keeps R (Eff.ret a).
Proof. intros s. apply R_refl. Qed.

Lemma keeps_raise {A} (e : exn) : keeps R (Eff.raise (A := A) e).
Proof. intros s. apply R_refl. Qed.

Lemma keeps_get : keeps R (Eff.get (S := S)).
Proof. intros s. apply R_refl. Qed.

Lemma keeps_modify (f : S -> S) :
  (forall s, R s (f s)) -> keeps R (Eff.modify f).
Proof. intros H s. apply H. Qed.

Lemma keeps_bind {A B} (m : M S A) (k : A -> M S B) :
  keeps R m -> (forall a, keeps R (k a)) -> keeps R (Eff.bind m k).
Proof.
  intros Hm Hk s. unfold Eff.bind.
  specialize (Hm s). destruct (m s) as [[a|e] s1]; simpl in *.
  - eapply R_trans; [exact Hm | apply Hk].
  - exact Hm.
Qed.

Lemma keeps_try_except {A} (m : M S A) (h : exn -> M S A) :
  keeps R m -> (forall e, keeps R (h e)) -> keeps R (Eff.try_except m h).
Proof.
  intros Hm Hh s. unfold Eff.try_except.
  specialize (Hm s). destruct (m s) as [[a|e] s1]; simpl in *.
  - exact Hm.
  - eapply R_trans; [exact Hm | apply Hh].
Qed.

Lemma keeps_try_finally {A} (m : M S A) (f : M S unit) :
  keeps R m -> keeps R f -> keeps R (Eff.try_finally m f).
Proof.
  intros Hm Hf s. unfold Eff.try_finally.
  specialize (Hm s). destruct (m s) as [r s1]. simpl in Hm.
  specialize (Hf s1). destruct (f s1) as [[u|e] s2]; simpl in *;
    eapply R_trans; eassumption.
Qed.

End Keeps.

End EffectFacts.

Lemma returns_eval {A} (r : result A) :
  (exists a, r = Ok a) -> returns (World.eval r).
Proof. intros [a ->] w. exists a. reflexivity. Qed.

Lemma returns_sleep (d : time) : returns (World.sleep d).
Proof. intros w. exists tt. reflexivity. Qed.

(** ** TFTSerial.write_line *)

Lemma write_line_returns (data : str) : returns (TFTSerial.write_line data).
Proof.
  intros self. unfold TFTSerial.write_line.
  cbv zeta. cbn [TFTSerial.serial TFTSerial.log_write_call TFTSerial.connected].
  destruct (TFTSerial.serial self) as [p|]; [|simpl; eauto].
  destruct (negb (TFTSerial.connected self)); [simpl; eauto|].
  cbv beta iota.
  match goal with
  | |- context [TFTSerial.transmit p ?l] =>
      destruct (TFTSerial.transmit p l) as [[|e] p']; [simpl; eauto|]
  end.
  destruct e; simpl; eauto.
Qed.

(** Every call of [write_line] is one more entry of the call log. *)
Lemma write_line_logged (data : str) (self : TFTSerial.t) :
  TFTSerial.write_calls (snd (TFTSerial.write_line data self))
  = TFTSerial.write_calls self ++ [data].
Proof.
  unfold TFTSerial.write_line.
  cbv zeta. cbn [TFTSerial.serial TFTSerial.log_write_call TFTSerial.connected].
  destruct (TFTSerial.serial self) as [p|]; [|reflexivity].
  destruct (negb (TFTSerial.connected self)); [reflexivity|].
  cbv beta iota.
  match goal with
  | |- context [TFTSerial.transmit p ?l] =>
      destruct (TFTSerial.transmit p l) as [[|e] p']; [reflexivity|]
  end.
  destruct e; reflexivity.
Qed.

(** On a link that is up, a write that the port accepts puts the text and
    its terminator on the wire. *)
Lemma write_line_on_wire (data : str) (self : TFTSerial.t) (p : TFTSerial.port) :
  TFTSerial.serial self = Some p ->
  TFTSerial.connected self = true ->
  TFTSerial.tx_oracle p (TFTSerial.tx_count p) = TFTSerial.TxDone ->
  Py.len data <= 1000 ->
  exists self' p',
    TFTSerial.write_line data self = (Ok true, self')
    /\ TFTSerial.serial self' = Some p'
    /\ TFTSerial.wire p' = TFTSerial.wire p ++ data ++ ["010"%char]
    /\ TFTSerial.connected self' = true.
Proof.
  intros Hs Hc Ho Hl. unfold TFTSerial.write_line.
  cbv zeta. cbn [TFTSerial.serial TFTSerial.log_write_call TFTSerial.connected].
  rewrite Hs, Hc. cbn [negb]. cbv beta iota.
  assert (E : (1000 <? Py.len data) = false) by (apply Nat.ltb_ge; exact Hl).
  rewrite E. unfold TFTSerial.transmit. rewrite Ho.
  eexists _, _. split; [reflexivity|]. simpl. auto.
Qed.

(** ** MoonrakerClient._make_request *)

Lemma bind_ok_inv {S A B} (m : M S A) (k : A -> M S B) (s s2 : S) (b : B) :
  Eff.bind m k s = (Ok b, s2) ->
  exists a s1, m s = (Ok a, s1) /\ k a s1 = (Ok b, s2).
Proof.
  unfold Eff.bind. destruct (m s) as [[a|e] s1]; [eauto | discriminate].
Qed.

(** With a positive capacity the limiter never raises. *)
Lemma limiter_acquire_returns (self : RateLimiter.t) (clock : time) :
  (0 < RateLimiter.max_requests self)%Z ->
  exists q clock',
    RateLimiter.acquire (self, clock)
    = (Ok tt, (RateLimiter.set_requests self q, clock')).
Proof.
  intros HN. unfold RateLimiter.acquire. cbv zeta.
  destruct (RateLimiter.evict_old _ _) as [|oldest rest].
  - cbn [List.length Z.of_nat].
    assert (E : (RateLimiter.max_requests self <=? 0)%Z = false)
      by (apply Z.leb_gt; lia).
    rewrite E. eauto.
  - destruct (_ <=? _)%Z; [|eauto].
    destruct (0 <? _)%Z; eauto.
Qed.

(** The client's call of the limiter returns and touches nothing but the
    clock and the deque. *)
Lemma client_acquire_spec (w : world) :
  exists q c,
    MoonrakerClient.acquire w
    = (Ok tt, World.set_clock (World.set_rate_requests w q) c).
Proof.
  unfold MoonrakerClient.acquire.
  destruct (limiter_acquire_returns (MoonrakerClient.rate_limiter w) (clock w))
    as (q & c & E).
  { simpl. lia. }
  rewrite E. simpl. eauto.
Qed.

Lemma network_frame_refl (w : world) : network_frame w w.
Proof. repeat split. Qed.

Lemma network_frame_trans (a b c : world) :
  network_frame a b -> network_frame b c -> network_frame a c.
Proof.
  unfold network_frame. intros (?&?&?&?&?&?) (?&?&?&?&?&?).
  repeat split; congruence.
Qed.

Ltac frame_now := unfold network_frame; simpl; repeat split; reflexivity.

(** One pass of the retry loop, written out on the state. *)
Lemma attempts_step (config : BridgeConfig) (method endpoint : str)
      (data : option json) (left : nat) (attempt : Z) (w : world) :
  MoonrakerClient.attempts config method endpoint data (S left) attempt w =
  let verb := Py.upper method in
  if Py.eqs verb "GET" || Py.eqs verb "POST" then
    let w1 := World.set_http_log w
                (http_log w ++
                 [(verb, endpoint, if Py.eqs verb "GET" then None else data)]) in
    match http_oracle w (List.length (http_log w)) with
    | Responds body => (Ok body, w1)
    | Fails e =>
        if MoonrakerClient.is_transient e
           && (attempt <? max_retries config - 1)%Z
        then
          if (1024 <=? attempt)%Z
          then (Raise (OverflowError "int too large to convert to float"), w1)
          else MoonrakerClient.attempts config method endpoint data left
                 (attempt + 1)%Z
                 (World.set_clock w1
                    (clock w1 + Z.max 0 (retry_delay config * 2 ^ attempt))%Z)
        else (Raise e, w1)
    end
  else MoonrakerClient.attempts config method endpoint data left
         (attempt + 1)%Z w.
Proof.
  cbn [MoonrakerClient.attempts]. cbv zeta.
  destruct (Py.eqs (Py.upper method) "GET" || Py.eqs (Py.upper method) "POST");
    [|reflexivity].
  unfold Eff.bind, MoonrakerClient.http_attempt.
  destruct (http_oracle w (List.length (http_log w))) as [body|e];
    [reflexivity|].
  destruct (MoonrakerClient.is_transient e);
    [destruct (attempt <? max_retries config - 1)%Z|]; try reflexivity.
  unfold World.eval, backoff. cbn [andb].
  destruct (1024 <=? attempt)%Z; reflexivity.
Qed.

Lemma attempts_frame (config : BridgeConfig) (method endpoint : str)
      (data : option json) (left : nat) :
  forall (attempt : Z) (w : world),
    let w' := snd (MoonrakerClient.attempts config method endpoint data
                     left attempt w) in
    network_frame w w'
    /\ request_log w' = request_log w
    /\ exists l, http_log w' = http_log w ++ l
                 /\ List.length l <= left.
Proof.
  induction left as [|left IH]; intros attempt w; cbn zeta.
  - simpl. split; [apply network_frame_refl|]. split; [reflexivity|].
    exists []. rewrite app_nil_r. split; [reflexivity | simpl; lia].
  - rewrite attempts_step. cbv zeta.
    destruct (Py.eqs (Py.upper method) "GET" || Py.eqs (Py.upper method) "POST").
    + destruct (http_oracle w (List.length (http_log w))) as [body|e].
      * simpl. split; [frame_now|]. split; [reflexivity|].
        eexists. split; [reflexivity | simpl; lia].
      * destruct (MoonrakerClient.is_transient e && _).
        -- destruct (1024 <=? attempt)%Z.
           { simpl. split; [frame_now|]. split; [reflexivity|].
             eexists. split; [reflexivity | simpl; lia]. }
           match goal with
           | |- context [MoonrakerClient.attempts _ _ _ _ left ?a ?w2] =>
               specialize (IH a w2); cbn zeta in IH;
               destruct IH as (Hf & Hr & l & Hl & Hn)
           end.
           split; [|split].
           ++ eapply network_frame_trans; [|exact Hf]. frame_now.
           ++ rewrite Hr. reflexivity.
           ++ eexists. rewrite Hl. simpl.
              rewrite <- app_assoc. split; [reflexivity|].
              rewrite length_app. simpl. lia.
        -- simpl. split; [frame_now|]. split; [reflexivity|].
           eexists. split; [reflexivity | simpl; lia].
    + specialize (IH (attempt + 1)%Z w). cbn zeta in IH.
      destruct IH as (Hf & Hr & l & Hl & Hn).
      split; [exact Hf|]. split; [exact Hr|].
      exists l. split; [exact Hl | lia].
Qed.

(** What [attempts] returns is a body that the host answered with, or the
    dictionary that follows the loop. *)
Lemma attempts_value (config : BridgeConfig) (method endpoint : str)
      (data : option json) (left : nat) :
  forall (attempt : Z) (w w' : world) (v : json),
    MoonrakerClient.attempts config method endpoint data left attempt w
    = (Ok v, w') ->
    v = Json.error "Max retries exceeded"
    \/ exists k, http_oracle w k = Responds v.
Proof.
  induction left as [|left IH]; intros attempt w w' v.
  - simpl. intros [= <- <-]. left. reflexivity.
  - rewrite attempts_step. cbv zeta.
    destruct (Py.eqs (Py.upper method) "GET" || Py.eqs (Py.upper method) "POST").
    + destruct (http_oracle w (List.length (http_log w))) as [body|e] eqn:Eo.
      * intros [= <- <-]. right. eexists. exact Eo.
      * destruct (MoonrakerClient.is_transient e && _); [|discriminate].
        destruct (1024 <=? attempt)%Z; [discriminate|].
        intros H. apply IH in H. exact H.
    + apply IH.
Qed.

(** [_make_request], after the limiter: the call is recorded, the URL is
    formed, and the loop runs when it could be. *)
Lemma make_request_unfold (config : BridgeConfig) (method endpoint : str)
      (data : option json) (w : world) :
  exists q c,
    MoonrakerClient.acquire w
    = (Ok tt, World.set_clock (World.set_rate_requests w q) c)
    /\ MoonrakerClient._make_request config method endpoint data w
       = match urljoin w (MoonrakerClient.base_url config) endpoint with
         | Ok _ =>
             MoonrakerClient.attempts config method endpoint data
               (Z.to_nat (max_retries config)) 0%Z
               (World.set_request_log
                  (World.set_clock (World.set_rate_requests w q) c)
                  (request_log w ++ [(method, endpoint)]))
         | Raise e =>
             (Raise e,
              World.set_request_log
                (World.set_clock (World.set_rate_requests w q) c)
                (request_log w ++ [(method, endpoint)]))
         end.
Proof.
  destruct (client_acquire_spec w) as (q & c & E).
  exists q, c. split; [exact E|].
  unfold MoonrakerClient._make_request, Eff.bind.
  rewrite E. unfold Eff.modify, Eff.get, World.eval.
  cbn [urljoin World.set_request_log World.set_clock World.set_rate_requests].
  destruct (urljoin w (MoonrakerClient.base_url config) endpoint);
    reflexivity.
Qed.

Lemma make_request_frame (config : BridgeConfig) (method endpoint : str)
      (data : option json) (w : world) :
  let w' := snd (MoonrakerClient._make_request config method endpoint data w) in
  network_frame w w'
  /\ request_log w' = request_log w ++ [(method, endpoint)].
Proof.
  cbn zeta.
  destruct (make_request_unfold config method endpoint data w)
    as (q & c & _ & E).
  rewrite E.
  destruct (urljoin w (MoonrakerClient.base_url config) endpoint) as [url|e].
  - match goal with
    | |- context [MoonrakerClient.attempts ?cf ?m ?e ?d ?n ?a ?w0] =>
        destruct (attempts_frame cf m e d n a w0) as (Hf & Hr & _)
    end.
    split.
    + eapply network_frame_trans; [|exact Hf]. frame_now.
    + rewrite Hr. reflexivity.
  - split; [frame_now | reflexivity].
Qed.

Lemma make_request_value (config : BridgeConfig) (method endpoint : str)
      (data : option json) (w w' : world) (v : json) :
  MoonrakerClient._make_request config method endpoint data w = (Ok v, w') ->
  v = Json.error "Max retries exceeded"
  \/ exists k, http_oracle w k = Responds v.
Proof.
  destruct (make_request_unfold config method endpoint data w)
    as (q & c & _ & E).
  rewrite E.
  destruct (urljoin w (MoonrakerClient.base_url config) endpoint) as [url|e];
    [|discriminate].
  intros H. apply attempts_value in H. exact H.
Qed.

(** C10.  With [max_retries = 0] the loop of [_make_request] has no pass:
    for every method, endpoint and body, and from every state, the log of
    HTTP attempts is as it was, and when [urljoin] forms a URL from the
    endpoint the call returns [{"error": "Max retries exceeded"}]. *)
Theorem make_request_no_retries (config : BridgeConfig)
        (method endpoint : str) (data : option json) (w : world) :
  max_retries config = 0%Z ->
  http_log (snd (MoonrakerClient._make_request config method endpoint data w))
  = http_log w
  /\ (url_forms config w endpoint ->
      fst (MoonrakerClient._make_request config method endpoint data w)
      = Ok (JDict [("error" : str, JStr "Max retries exceeded")])).
Proof.
  intros H0.
  destruct (make_request_unfold config method endpoint data w)
    as (q & c & _ & E).
  rewrite E, H0. split.
  - destruct (urljoin w (MoonrakerClient.base_url config) endpoint);
      reflexivity.
  - intros [url ->]. reflexivity.
Qed.

Lemma make_request_no_retries_witness :
  http_log (snd (MoonrakerClient._make_request offline_config "GET"
                   "/printer/info" None unreachable_host))
  = http_log unreachable_host
  /\ fst (MoonrakerClient._make_request offline_config "GET" "/printer/info"
            None unreachable_host)
     = Ok (JDict [("error" : str, JStr "Max retries exceeded")]).
Proof.
  destruct (make_request_no_retries offline_config "GET" "/printer/info"
              None unreachable_host eq_refl) as (Hlog & Hres).
  split; [exact Hlog|]. apply Hres. eexists. reflexivity.
Defined.

(** The claim as written fails at an endpoint that [urljoin] turns away:
    with [max_retries = 0] and the endpoint [//[], the call raises
    [ValueError] where the claim has it return the dictionary. *)
Lemma make_request_invalid_url :
  max_retries offline_config = 0%Z
  /\ fst (MoonrakerClient._make_request offline_config "GET" "//[" None
            bracket_world)
     = Raise (ValueError "Invalid IPv6 URL").
Proof. vm_compute. split; reflexivity. Qed.

(** ** MoonrakerClient: the domain operations *)

(** The shape shared by the seven methods: a body under
    [except Exception as e: return {"error": str(e)}]. *)
Lemma try_as_error (body : M world json) (w : world) :
  exists v w',
    Eff.try_except body MoonrakerClient.as_error w = (Ok v, w')
    /\ match body w with
       | (Raise e, w1) => v = Json.error (exn_str e) /\ w' = w1
       | (Ok v0, w1) => v = v0 /\ w' = w1
       end.
Proof.
  unfold Eff.try_except.
  destruct (body w) as [[v|e] w1]; [eauto|].
  unfold MoonrakerClient.as_error, Eff.ret. eauto.
Qed.

(** What the body of an operation returns is a dictionary of its own or
    what [_make_request] returned. *)
Lemma try_body_value (config : BridgeConfig) (op : MoonrakerClient.operation)
      (w w1 : world) (v : json) :
  MoonrakerClient.try_body config op w = (Ok v, w1) ->
  Json.is_dict v = true \/ exists k, http_oracle w k = Responds v.
Proof.
  assert (Hreq : forall m e d,
             MoonrakerClient._make_request config m e d w = (Ok v, w1) ->
             Json.is_dict v = true \/ exists k, http_oracle w k = Responds v).
  { intros m e d H. apply make_request_value in H.
    destruct H as [-> | H]; [left; reflexivity | right; exact H]. }
  destruct op as [gcode| | |filename| | |]; simpl; try (apply Hreq).
  - unfold MoonrakerClient.send_gcode_try. cbv zeta.
    destruct (SecurityValidator.sanitize_gcode gcode) as [|c g].
    + intros [= <- <-]. left. reflexivity.
    + destruct (test_mode config); [|apply Hreq].
      intros [= <- <-]. left. reflexivity.
  - unfold MoonrakerClient.get_printer_status_try.
    destruct (test_mode config); [|apply Hreq].
    intros [= <- <-]. left. reflexivity.
  - unfold MoonrakerClient.start_print_try.
    destruct (negb _); [|apply Hreq].
    intros [= <- <-]. left. reflexivity.
Qed.

Lemma perform_try_body (config : BridgeConfig) (op : MoonrakerClient.operation) :
  MoonrakerClient.perform config op
  = Eff.try_except (MoonrakerClient.try_body config op)
                   MoonrakerClient.as_error.
Proof. destruct op; reflexivity. Qed.

(** When every attempt fails with a connection error, the retry loop ends
    by raising the last of them, after as many attempts as it was given,
    as long as every delay has a float. *)
Lemma attempts_exhausted (config : BridgeConfig) (endpoint message : str)
      (left : nat) :
  forall (attempt : Z) (w : world),
    (forall k, http_oracle w k = Fails (ClientError message)) ->
    (attempt + Z.of_nat (S left) = max_retries config)%Z ->
    (max_retries config <= 1025)%Z ->
    exists w',
      MoonrakerClient.attempts config "GET" endpoint None (S left) attempt w
      = (Raise (ClientError message), w')
      /\ List.length (http_log w') = List.length (http_log w) + S left.
Proof.
  induction left as [|left IH]; intros attempt w Hall Hsum Hmax;
    rewrite attempts_step; cbv zeta;
    change (Py.eqs (Py.upper "GET") "GET" || Py.eqs (Py.upper "GET") "POST")
      with true; cbv iota; rewrite Hall; cbn [MoonrakerClient.is_transient andb].
  - assert (E : (attempt <? max_retries config - 1)%Z = false)
      by (apply Z.ltb_ge; lia).
    rewrite E. eexists. split; [reflexivity|].
    simpl. rewrite length_app. simpl. lia.
  - assert (E : (attempt <? max_retries config - 1)%Z = true)
      by (apply Z.ltb_lt; lia).
    assert (E2 : (1024 <=? attempt)%Z = false) by (apply Z.leb_gt; lia).
    rewrite E, E2.
    match goal with
    | |- context [MoonrakerClient.attempts _ _ _ _ (S left) ?a ?w2] =>
        destruct (IH a w2) as (w' & Hw' & Hlen)
    end.
    + intros k. simpl. apply Hall.
    + lia.
    + exact Hmax.
    + exists w'. split; [exact Hw'|].
      rewrite Hlen. simpl. rewrite length_app. simpl. lia.
Qed.

(** C9.  Each of the seven domain operations returns from every state and
    never raises: it returns what its body returned, or, when its body
    raised [e], the dictionary [{"error": str(e)}].  What it returns is a
    dictionary whenever the host answers with JSON objects.  When every
    attempt fails with a connection error and the retries run out, with
    delays in the range of a float, the dictionary carries the last
    error. *)
Theorem domain_operations_never_raise (config : BridgeConfig)
        (op : MoonrakerClient.operation) (w : world) :
  (exists v w',
      MoonrakerClient.perform config op w = (Ok v, w')
      /\ match MoonrakerClient.try_body config op w with
         | (Raise e, w1) =>
             v = JDict [("error" : str, JStr (exn_str e))] /\ w' = w1
         | (Ok v0, w1) => v = v0 /\ w' = w1
         end
      /\ (answers_objects w -> exists d, v = JDict d))
  /\ (forall message,
        (0 < max_retries config <= 1025)%Z ->
        delays_fit config ->
        url_forms config w "/printer/info" ->
        (forall k, http_oracle w k = Fails (ClientError message)) ->
        fst (MoonrakerClient.perform config MoonrakerClient.GetPrinterInfo w)
        = Ok (JDict [("error" : str, JStr message)])).
Proof.
  split.
  - rewrite perform_try_body.
    destruct (try_as_error (MoonrakerClient.try_body config op) w)
      as (v & w' & E & H).
    exists v, w'. split; [exact E|]. split; [exact H|].
    intros Hobj.
    assert (Hd : Json.is_dict v = true).
    { pose proof (try_body_value config op w) as Hv.
      destruct (MoonrakerClient.try_body config op w) as [[v0|e] w1].
      - destruct H as [-> _].
        destruct (Hv w1 v0 eq_refl) as [Hd | [k Hk]]; [exact Hd|].
        exact (Hobj k v0 Hk).
      - destruct H as [-> _]. reflexivity. }
    destruct v; try discriminate Hd. eexists. reflexivity.
  - intros message Hpos _ [url Hurl] Hall.
    cbn [MoonrakerClient.perform].
    unfold MoonrakerClient.get_printer_info, Eff.try_except,
      MoonrakerClient.get_printer_info_try.
    destruct (make_request_unfold config "GET" "/printer/info" None w)
      as (q & c & _ & E).
    rewrite E, Hurl.
    destruct (Z.to_nat (max_retries config)) as [|left] eqn:En; [lia|].
    match goal with
    | |- context [MoonrakerClient.attempts _ _ _ _ (S left) ?a ?w2] =>
        destruct (attempts_exhausted config "/printer/info" message left a w2)
          as (w' & Hw' & _)
    end.
    + intros k. simpl. apply Hall.
    + lia.
    + lia.
    + rewrite Hw'. reflexivity.
Qed.

Lemma domain_operations_never_raise_witness :
  fst (MoonrakerClient.perform retrying_config MoonrakerClient.GetPrinterInfo
         unreachable_host)
  = Ok (JDict [("error" : str, JStr "Cannot connect to host")]).
Proof.
  apply (proj2 (domain_operations_never_raise retrying_config
                  MoonrakerClient.GetPrinterInfo unreachable_host)).
  - simpl. lia.
  - vm_compute. reflexivity.
  - eexists. reflexivity.
  - intros k. reflexivity.
Defined.

(** The claim as written fails when the host answers with a JSON value
    that is not an object: [get_printer_info] hands the array on as it
    came. *)
Lemma get_printer_info_returns_list :
  fst (MoonrakerClient.perform retrying_config MoonrakerClient.GetPrinterInfo
         list_host)
  = Ok (JList [JStr "a"])
  /\ Json.is_dict (JList [JStr "a"]) = false.
Proof. vm_compute. split; reflexivity. Qed.

Example send_gcode_retries_then_reports :
  let '(r, w) := MoonrakerClient.send_gcode retrying_config "G28"
                   unreachable_host in
  r = Ok (JDict [("error" : str, JStr "Cannot connect to host")])
  /\ List.length (http_log w) = 3
  /\ clock w = (3 * second)%Z.
Proof. vm_compute. repeat split; reflexivity. Qed.

(** ** GCodeTranslator.check_available_macros *)

(** One call, from any state. *)
Lemma check_available_macros_spec (config : BridgeConfig) (w : world) :
  exists w',
    GCodeTranslator.check_available_macros config w = (Ok tt, w')
    /\ macros_checked w' = true
    /\ tft w' = tft w
    /\ command_count w' = command_count w
    /\ http_oracle w' = http_oracle w
    /\ (macros_checked w = true -> w' = w)
    /\ (macros_checked w = false ->
        request_log w' = request_log w ++ [configfile_query]
        /\ forall e w1,
             MoonrakerClient._make_request config "GET"
               "/printer/objects/query?configfile" None w = (Raise e, w1) ->
             available_macros w' = available_macros w).
Proof.
  unfold GCodeTranslator.check_available_macros.
  destruct (macros_checked w) eqn:Hc.
  - exists w. repeat split; auto; discriminate.
  - unfold Eff.try_finally, Eff.try_except, Eff.bind, Eff.modify, Eff.ret,
      World.eval.
    pose proof (make_request_frame config "GET"
                  "/printer/objects/query?configfile" None w) as Hf.
    cbn zeta in Hf.
    destruct (MoonrakerClient._make_request config "GET"
                "/printer/objects/query?configfile" None w) as [[v|e] w1].
    + simpl in Hf. destruct Hf as ((Ht & Ha & Hm & Hcc & Ho & Hu) & Hr).
      destruct (GCodeTranslator.macro_names v) as [names|e'];
        eexists; (split; [reflexivity|]); simpl;
        repeat split; auto; try discriminate.
    + simpl in Hf. destruct Hf as ((Ht & Ha & Hm & Hcc & Ho & Hu) & Hr).
      eexists; (split; [reflexivity|]); simpl;
        repeat split; auto; discriminate.
Qed.

Lemma check_available_macros_returns (config : BridgeConfig) :
  returns (GCodeTranslator.check_available_macros config).
Proof.
  intros w. destruct (check_available_macros_spec config w) as (w' & E & _).
  rewrite E. exists tt. reflexivity.
Qed.

(** ** GCodeTranslator.translate_gcode *)

Lemma translate_gcode_spec (config : BridgeConfig) (gcode : str) (w : world) :
  exists w',
    GCodeTranslator.translate_gcode config gcode w
    = (Ok (translation_of (available_macros w') gcode), w')
    /\ tft w' = tft w
    /\ command_count w' = command_count w
    /\ http_oracle w' = http_oracle w.
Proof.
  unfold GCodeTranslator.translate_gcode, translation_of.
  destruct gcode as [|c g]; [exists w; auto|].
  destruct (Py.strip (c :: g)) as [|c' g'] eqn:Es; [exists w; auto|].
  cbv zeta. unfold Eff.bind, Eff.get.
  destruct (check_available_macros_spec config w)
    as (w' & E & _ & Ht & Hc & Ho & _).
  rewrite E. exists w'. split; [|auto].
  destruct (Py.eqs (Py.upper (c' :: g')) "M701");
    [destruct (GCodeTranslator.known _ _); reflexivity|].
  destruct (Py.eqs (Py.upper (c' :: g')) "M702");
    [destruct (GCodeTranslator.known _ _); reflexivity|].
  destruct (GCodeTranslator.scan _ _); [reflexivity|].
  destruct (GCodeTranslator.passes _ _); [reflexivity|].
  destruct (Py.startswith "M115" _); [reflexivity|].
  destruct (Py.startswith "M105" _); reflexivity.
Qed.

(** The scan answers with the first rule that matches, whatever follows it
    in the table. *)
Lemma scan_first_match (before after : list (str * GCodeTranslator.action))
      (pattern : str) (replacement : GCodeTranslator.action)
      (gcode : str) (m : Re.match_obj) :
  (forall rule, In rule before -> ~ rule_matches rule gcode) ->
  Re.match_ pattern gcode = Ok (Some m) ->
  GCodeTranslator.scan (before ++ (pattern, replacement) :: after) gcode
  = Some (GCodeTranslator.apply_action replacement m).
Proof.
  intros Hnone Hm. induction before as [|[p a] before IH]; simpl.
  - rewrite Hm. reflexivity.
  - assert (Hp : ~ rule_matches (p, a) gcode) by (apply Hnone; left; reflexivity).
    assert (IH' := IH (fun r Hr => Hnone r (or_intror Hr))).
    destruct (Re.match_ p gcode) as [[m'|]|e] eqn:E; [|exact IH'|exact IH'].
    exfalso. apply Hp. exists m'. exact E.
Qed.

Lemma scan_no_match (rules : list (str * GCodeTranslator.action)) (gcode : str) :
  (forall rule, In rule rules -> ~ rule_matches rule gcode) ->
  GCodeTranslator.scan rules gcode = None.
Proof.
  intros Hnone. induction rules as [|[p a] rules IH]; simpl; [reflexivity|].
  assert (Hp : ~ rule_matches (p, a) gcode) by (apply Hnone; left; reflexivity).
  assert (IH' := IH (fun r Hr => Hnone r (or_intror Hr))).
  destruct (Re.match_ p gcode) as [[m'|]|e] eqn:E; [|exact IH'|exact IH'].
  exfalso. apply Hp. exists m'. exact E.
Qed.

Lemma passes_no_match (patterns : list str) (gcode : str) :
  (forall p, In p patterns ->
             forall m, Re.match_ p gcode <> Ok (Some m)) ->
  GCodeTranslator.passes patterns gcode = false.
Proof.
  intros Hnone. induction patterns as [|p patterns IH]; simpl; [reflexivity|].
  assert (Hp := Hnone p (or_introl eq_refl)).
  assert (IH' := IH (fun r Hr => Hnone r (or_intror Hr))).
  destruct (Re.match_ p gcode) as [[m'|]|e] eqn:E; [|exact IH'|exact IH'].
  exfalso. exact (Hp m' eq_refl).
Qed.

(** C8.  [translate_gcode] answers a command other than the two filament
    commands with the first rule of the table whose pattern matches: the
    rule's text, or its transform applied to the groups of the match.
    From every state [M420 S1] gives [BED_MESH_PROFILE LOAD=default] and
    [M421 I10 J5 Z0.1] gives
    [BED_MESH_CALIBRATE MESH_MIN=10,5 MESH_MAX=10,5]. *)
Theorem translate_gcode_first_match (config : BridgeConfig) (w : world) :
  (forall gcode before pattern replacement after m,
      Py.strip gcode = gcode ->
      gcode <> [] ->
      not_filament gcode ->
      GCodeTranslator.translations = before ++ (pattern, replacement) :: after ->
      (forall rule, In rule before -> ~ rule_matches rule gcode) ->
      Re.match_ pattern gcode = Ok (Some m) ->
      fst (GCodeTranslator.translate_gcode config gcode w)
      = Ok (Some (GCodeTranslator.apply_action replacement m)))
  /\ fst (GCodeTranslator.translate_gcode config "M420 S1" w)
     = Ok (Some ("BED_MESH_PROFILE LOAD=default" : str))
  /\ fst (GCodeTranslator.translate_gcode config "M421 I10 J5 Z0.1" w)
     = Ok (Some ("BED_MESH_CALIBRATE MESH_MIN=10,5 MESH_MAX=10,5" : str)).
Proof.
  split; [|split].
  - intros gcode before pattern replacement after m Hs Hne [H1 H2] Ht Hb Hm.
    destruct (translate_gcode_spec config gcode w) as (w' & E & _).
    rewrite E. simpl. f_equal.
    destruct gcode as [|c g]; [congruence|].
    unfold translation_of. rewrite !Hs. cbv zeta.
    rewrite H1, H2, Ht.
    rewrite (scan_first_match before after pattern replacement (c :: g) m Hb Hm).
    reflexivity.
  - destruct (translate_gcode_spec config "M420 S1" w) as (w' & E & _).
    rewrite E. reflexivity.
  - destruct (translate_gcode_spec config "M421 I10 J5 Z0.1" w) as (w' & E & _).
    rewrite E. reflexivity.
Qed.

Lemma translate_gcode_first_match_witness :
  fst (GCodeTranslator.translate_gcode offline_config "G29 P1" unreachable_host)
  = Ok (Some ("BED_MESH_CALIBRATE" : str)).
Proof.
  apply (proj1 (translate_gcode_first_match offline_config unreachable_host)
           "G29 P1"
           (firstn 2 GCodeTranslator.translations)
           "G29" (GCodeTranslator.Static "BED_MESH_CALIBRATE")
           (skipn 3 GCodeTranslator.translations)
           []).
  - reflexivity.
  - discriminate.
  - split; reflexivity.
  - reflexivity.
  - intros rule [<- | [<- | []]]; intros [m H]; vm_compute in H; discriminate H.
  - reflexivity.
Defined.

(** ** The registry over the life of the bridge *)

Lemma registry_step_refl (w : world) : registry_step w w.
Proof.
  unfold registry_step. split; [lia|]. split; [auto|].
  intros ->. lia.
Qed.

Lemma registry_step_trans (a b c : world) :
  registry_step a b -> registry_step b c -> registry_step a c.
Proof.
  unfold registry_step. intros (Hab & Ha1 & Ha0) (Hbc & Hb1 & Hb0).
  split; [lia|]. split.
  - intros Ha. destruct (Ha1 Ha) as (Hb & Hm & Hq).
    destruct (Hb1 Hb) as (Hc & Hm' & Hq'). repeat split; congruence.
  - intros Ha. specialize (Ha0 Ha).
    destruct (macros_checked b) eqn:Eb.
    + destruct (Hb1 eq_refl) as (Hc & _ & Hq). rewrite Hc. lia.
    + specialize (Hb0 eq_refl). lia.
Qed.

(** A state that differs only outside the translator and the request log. *)
Lemma registry_step_same (w w' : world) :
  macros_checked w' = macros_checked w ->
  available_macros w' = available_macros w ->
  request_log w' = request_log w ->
  registry_step w w'.
Proof.
  intros Hc Hm Hr. unfold registry_step, config_queries.
  rewrite Hr, Hc. split; [lia|]. split; [auto|]. intros ->. lia.
Qed.

Lemma keeps_registry_on_tft {A} (m : M TFTSerial.t A) :
  keeps_registry (World.on_tft m).
Proof.
  intros w. unfold World.on_tft. destruct (m (tft w)) as [r t'].
  apply registry_step_same; reflexivity.
Qed.

Lemma keeps_registry_eval {A} (r : result A) : keeps_registry (World.eval r).
Proof. intros w. apply registry_step_refl. Qed.

Lemma keeps_registry_log_command : keeps_registry MoonrakerClient.log_command.
Proof. intros w. apply registry_step_same; reflexivity. Qed.

Ltac keeps_registry_tac :=
  unfold keeps_registry;
  repeat lazymatch goal with
    | |- keeps _ (Eff.ret _) =>
        apply (keeps_ret registry_step registry_step_refl)
    | |- keeps _ (Eff.raise _) =>
        apply (keeps_raise registry_step registry_step_refl)
    | |- keeps _ Eff.get =>
        apply (keeps_get registry_step registry_step_refl)
    | |- keeps _ (Eff.bind _ _) =>
        apply (keeps_bind registry_step registry_step_trans); [|intros]
    | |- keeps _ (Eff.try_except _ _) =>
        apply (keeps_try_except registry_step registry_step_trans); [|intros]
    | |- keeps _ (Eff.try_finally _ _) =>
        apply (keeps_try_finally registry_step registry_step_trans)
    | |- keeps _ (World.on_tft _) => apply keeps_registry_on_tft
    | |- keeps _ (TFTMoonrakerBridge.write_line _) =>
        apply keeps_registry_on_tft
    | |- keeps _ (World.eval _) => apply keeps_registry_eval
    | |- keeps _ MoonrakerClient.log_command =>
        apply keeps_registry_log_command
    | |- keeps _ (MoonrakerClient.as_error _) =>
        apply (keeps_ret registry_step registry_step_refl)
    | |- keeps _ (if ?b then _ else _) => destruct b
    | |- keeps _ (match ?x with _ => _ end) => destruct x
    end.

Lemma filter_snoc {A} (f : A -> bool) (l : list A) (x : A) :
  filter f (l ++ [x]) = filter f l ++ (if f x then [x] else []).
Proof.
  induction l as [|y l IH]; simpl; [destruct (f x); reflexivity|].
  rewrite IH. destruct (f y); reflexivity.
Qed.

(** A request for anything but the configuration. *)
Lemma keeps_registry_make_request (config : BridgeConfig)
      (method endpoint : str) (data : option json) :
  is_configfile_query (method, endpoint) = false ->
  keeps_registry (MoonrakerClient._make_request config method endpoint data).
Proof.
  intros Hq w.
  destruct (make_request_frame config method endpoint data w)
    as ((_ & Ha & Hm & _) & Hr).
  unfold registry_step, config_queries. rewrite Hr, Hm, Ha, filter_snoc, Hq.
  rewrite app_nil_r. split; [lia|]. split; [auto|]. intros ->. lia.
Qed.

Lemma keeps_registry_check (config : BridgeConfig) :
  keeps_registry (GCodeTranslator.check_available_macros config).
Proof.
  intros w.
  destruct (check_available_macros_spec config w)
    as (w' & E & Hc & _ & _ & _ & Hsame & Hfirst).
  rewrite E. simpl.
  destruct (macros_checked w) eqn:Ew.
  - rewrite (Hsame eq_refl). apply registry_step_refl.
  - destruct (Hfirst eq_refl) as (Hr & _).
    unfold registry_step, config_queries.
    rewrite Hr, Hc, Ew, filter_snoc. simpl. rewrite length_app. simpl.
    split; [lia|]. split; [discriminate|]. intros _. lia.
Qed.

Lemma keeps_registry_translate (config : BridgeConfig) (gcode : str) :
  keeps_registry (GCodeTranslator.translate_gcode config gcode).
Proof.
  unfold GCodeTranslator.translate_gcode. cbv zeta.
  keeps_registry_tac. apply keeps_registry_check.
Qed.

Lemma keeps_registry_try_body (config : BridgeConfig)
      (op : MoonrakerClient.operation) :
  keeps_registry (MoonrakerClient.try_body config op).
Proof.
  destruct op as [gcode| | |filename| | |]; simpl;
    try (apply keeps_registry_make_request; reflexivity).
  - unfold MoonrakerClient.send_gcode_try. cbv zeta.
    destruct (SecurityValidator.sanitize_gcode gcode); [keeps_registry_tac|].
    destruct (test_mode config); [keeps_registry_tac|].
    apply keeps_registry_make_request; reflexivity.
  - unfold MoonrakerClient.get_printer_status_try.
    destruct (test_mode config); [keeps_registry_tac|].
    apply keeps_registry_make_request; reflexivity.
  - unfold MoonrakerClient.start_print_try.
    destruct (negb _); [keeps_registry_tac|].
    apply keeps_registry_make_request; reflexivity.
Qed.

(** ** TFTMoonrakerBridge: the life of the bridge *)

Section BridgeFacts.

Variable config : BridgeConfig.
Variable format_1f : json -> result str.
Variable repr : json -> str.

Let process_gcode := TFTMoonrakerBridge.process_gcode config format_1f repr.
Let handle_m105 := TFTMoonrakerBridge.handle_m105 config format_1f.
Let dispatch := TFTMoonrakerBridge.dispatch config format_1f repr.
Let run_turns := TFTMoonrakerBridge.run_turns config format_1f repr.

Lemma keeps_registry_handle_m105 : keeps_registry handle_m105.
Proof.
  subst handle_m105.
  unfold TFTMoonrakerBridge.handle_m105, MoonrakerClient.get_printer_status.
  keeps_registry_tac.
  apply (keeps_registry_try_body config MoonrakerClient.GetPrinterStatus).
Qed.

Lemma keeps_registry_handle_m115 :
  keeps_registry TFTMoonrakerBridge.handle_m115.
Proof. unfold TFTMoonrakerBridge.handle_m115. cbv zeta. keeps_registry_tac. Qed.

Lemma keeps_registry_forward (translated : str) :
  keeps_registry (TFTMoonrakerBridge.forward config repr translated).
Proof.
  unfold TFTMoonrakerBridge.forward, MoonrakerClient.send_gcode.
  keeps_registry_tac.
  apply (keeps_registry_try_body config (MoonrakerClient.SendGcode translated)).
Qed.

Lemma keeps_registry_dispatch (gcode : str) : keeps_registry (dispatch gcode).
Proof.
  subst dispatch. unfold TFTMoonrakerBridge.dispatch. cbv zeta.
  keeps_registry_tac;
    first [ apply keeps_registry_handle_m115
          | apply keeps_registry_handle_m105
          | apply keeps_registry_translate
          | apply keeps_registry_forward ].
Qed.

Lemma keeps_registry_process_gcode (gcode : str) :
  keeps_registry (process_gcode gcode).
Proof.
  subst process_gcode.
  unfold TFTMoonrakerBridge.process_gcode, TFTMoonrakerBridge.guarded,
    TFTMoonrakerBridge.guarded_by.
  keeps_registry_tac. apply keeps_registry_dispatch.
Qed.

Lemma keeps_registry_run_turns (turns : list TFTMoonrakerBridge.turn) :
  keeps_registry (run_turns turns).
Proof.
  subst run_turns.
  induction turns as [|[|] turns IH]; cbn [TFTMoonrakerBridge.run_turns];
    keeps_registry_tac; try exact IH.
  - unfold TFTMoonrakerBridge.main_iteration. keeps_registry_tac.
    apply keeps_registry_process_gcode.
  - unfold TFTMoonrakerBridge.periodic_update. keeps_registry_tac.
    apply keeps_registry_handle_m105.
Qed.

End BridgeFacts.

(** C7.  A call of [check_available_macros] returns with [macros_checked]
    set; a first call asks the host for the configuration once, and leaves
    the registry as it was when that request raised; a call on a checked
    registry returns at once and changes nothing.  Over any run of the main
    loop and of the periodic reports the configuration is asked for at most
    once, and a checked registry stays checked, with the same names and no
    further query. *)
Theorem macro_registry_single_load (config : BridgeConfig) :
  (forall w, exists w',
      GCodeTranslator.check_available_macros config w = (Ok tt, w')
      /\ macros_checked w' = true
      /\ (macros_checked w = false ->
          config_queries w' = config_queries w + 1
          /\ forall e w1,
               MoonrakerClient._make_request config "GET"
                 "/printer/objects/query?configfile" None w = (Raise e, w1) ->
               available_macros w' = available_macros w))
  /\ (forall w, macros_checked w = true ->
        GCodeTranslator.check_available_macros config w = (Ok tt, w))
  /\ (forall format_1f repr turns w,
        let w' := snd (TFTMoonrakerBridge.run_turns config format_1f repr
                         turns w) in
        config_queries w' <= config_queries w + 1
        /\ (macros_checked w = true ->
            macros_checked w' = true
            /\ available_macros w' = available_macros w
            /\ config_queries w' = config_queries w)).
Proof.
  split; [|split].
  - intros w.
    destruct (check_available_macros_spec config w)
      as (w' & E & Hc & _ & _ & _ & _ & Hfirst).
    exists w'. split; [exact E|]. split; [exact Hc|].
    intros Hw. destruct (Hfirst Hw) as (Hr & Hraise).
    split; [|exact Hraise].
    unfold config_queries. rewrite Hr, filter_snoc. simpl.
    rewrite length_app. reflexivity.
  - intros w Hw.
    destruct (check_available_macros_spec config w)
      as (w' & E & _ & _ & _ & _ & Hsame & _).
    rewrite E, (Hsame Hw). reflexivity.
  - intros format_1f repr turns w. cbn zeta.
    destruct (keeps_registry_run_turns config format_1f repr turns w)
      as (Hle & H1 & H0).
    split; [|exact H1].
    destruct (macros_checked w) eqn:Ew.
    + destruct (H1 eq_refl) as (_ & _ & Hq). lia.
    + specialize (H0 eq_refl).
      destruct (macros_checked (snd _)); lia.
Qed.

Lemma macro_registry_single_load_witness :
  let w1 := snd (GCodeTranslator.check_available_macros retrying_config
                   unreachable_host) in
  macros_checked w1 = true
  /\ available_macros w1 = []
  /\ GCodeTranslator.check_available_macros retrying_config w1 = (Ok tt, w1).
Proof.
  cbn zeta.
  assert (H : macros_checked
                (snd (GCodeTranslator.check_available_macros retrying_config
                        unreachable_host)) = true) by reflexivity.
  split; [exact H|]. split; [reflexivity|].
  exact (proj1 (proj2 (macro_registry_single_load retrying_config)) _ H).
Defined.

(** ** TFTMoonrakerBridge.process_gcode *)

Lemma write_line_wire (data : str) (link : TFTSerial.t) :
  Py.len data <= 1000 ->
  wire_of (snd (TFTSerial.write_line data link))
  = if link_accepts link then wire_of link ++ data ++ ["010"%char]
    else wire_of link.
Proof.
  intros Hl. destruct link as [[p|] up buffer calls]; [|reflexivity].
  unfold TFTSerial.write_line, wire_of, link_accepts. simpl.
  destruct up; [|reflexivity]. simpl.
  assert (E : (1000 <? Py.len data) = false) by (apply Nat.ltb_ge; exact Hl).
  rewrite E. unfold TFTSerial.transmit.
  destruct (TFTSerial.tx_oracle p (TFTSerial.tx_count p)) as [|e];
    [reflexivity|].
  destruct e; reflexivity.
Qed.

Lemma unrecognized_translation (macros : list str) (line : str) :
  unrecognized line ->
  translation_of macros (Py.strip line) = None.
Proof.
  unfold unrecognized. cbv zeta. intros (Hne & Hsp & Hrules & Hpass).
  assert (Hs : Py.strip (Py.strip line) = Py.strip line) by apply strip_idem.
  destruct (Py.strip line) as [|c g] eqn:Es; [congruence|].
  unfold translation_of. rewrite !Hs. cbv zeta.
  unfold special_handler in Hsp.
  apply orb_false_elim in Hsp. destruct Hsp as [Hsp H702].
  apply orb_false_elim in Hsp. destruct Hsp as [Hsp H701].
  rewrite H701, H702.
  rewrite (scan_no_match _ _ Hrules), (passes_no_match _ _ Hpass).
  reflexivity.
Qed.

Section ProcessGcode.

Variable config : BridgeConfig.
Variable format_1f : json -> result str.
Variable repr : json -> str.

(** The acknowledgement, as the bridge sends it. *)
Lemma bridge_write_line (data : str) (w : world) :
  exists b,
    TFTMoonrakerBridge.write_line data w
    = (Ok b, World.set_tft w (snd (TFTSerial.write_line data (tft w)))).
Proof.
  unfold TFTMoonrakerBridge.write_line, World.on_tft.
  destruct (write_line_returns data (tft w)) as [b Hb].
  destruct (TFTSerial.write_line data (tft w)) as [r t']. simpl in Hb.
  subst r. exists b. reflexivity.
Qed.

(** The outer handler around any body: the call returns, a body that
    returned is left alone, and a body that raised is followed by one call
    of [write_line("ok")]. *)
Lemma guarded_spec (body : M world unit) (w : world) :
  exists w',
    TFTMoonrakerBridge.guarded body w = (Ok tt, w')
    /\ (forall w1, body w = (Ok tt, w1) -> w' = w1)
    /\ (forall e w1, body w = (Raise e, w1) ->
        w' = World.set_tft w1 (snd (TFTSerial.write_line "ok" (tft w1)))).
Proof.
  unfold TFTMoonrakerBridge.guarded, TFTMoonrakerBridge.guarded_by,
    Eff.try_except.
  destruct (body w) as [[[]|e] w1].
  - exists w1. split; [reflexivity|]. split; [congruence | discriminate].
  - unfold Eff.bind. destruct (bridge_write_line "ok" w1) as [b Hb].
    rewrite Hb. eexists. split; [reflexivity|].
    split; [discriminate|]. intros e' w1' [= <- <-]. reflexivity.
Qed.

Lemma returns_bridge_write_line (data : str) :
  returns (TFTMoonrakerBridge.write_line data).
Proof.
  intros w. destruct (bridge_write_line data w) as [b Hb].
  rewrite Hb. exists b. reflexivity.
Qed.

Lemma returns_translate_gcode (gcode : str) :
  returns (GCodeTranslator.translate_gcode config gcode).
Proof.
  intros w. destruct (translate_gcode_spec config gcode w) as (w' & E & _).
  rewrite E. eexists. reflexivity.
Qed.

Ltac returns_tac :=
  repeat lazymatch goal with
    | |- returns (Eff.ret _) => apply returns_ret
    | |- returns Eff.get => apply returns_get
    | |- returns (Eff.modify _) => apply returns_modify
    | |- returns (Eff.bind _ _) => apply returns_bind; [|intros]
    | |- returns (Eff.try_except _ _) => apply returns_try_except; intros
    | |- returns (TFTMoonrakerBridge.write_line _) =>
        apply returns_bridge_write_line
    | |- returns MoonrakerClient.log_command => apply returns_modify
    | |- returns (GCodeTranslator.translate_gcode _ _) =>
        apply returns_translate_gcode
    | |- returns (if ?b then _ else _) => destruct b
    | |- returns (match ?x with _ => _ end) => destruct x
    end.

(** In this model no step of the dispatch raises: each handler of the
    path has already turned its failures into a reply.  The outer handler
    of [process_gcode] is a second line of defence. *)
Lemma dispatch_returns (gcode : str) :
  returns (TFTMoonrakerBridge.dispatch config format_1f repr gcode).
Proof.
  unfold TFTMoonrakerBridge.dispatch, TFTMoonrakerBridge.handle_m115,
    TFTMoonrakerBridge.handle_m105, TFTMoonrakerBridge.forward.
  cbv zeta. returns_tac.
Qed.

(** C1.  [process_gcode] returns from every state and for every line, and
    so does its outer handler around any body and any acknowledgement
    whatever, raising or not: when the body raises, the handler calls
    [write_line("ok")] once, and a failure of that write is dropped.  For a
    line that no special handler, no rule and no passthrough pattern takes,
    [write_line] is called exactly once, with [ok]: the device receives
    [ok] and the line terminator when the link is up and takes the write,
    and nothing otherwise. *)
Theorem process_gcode_never_raises :
  (forall gcode w, exists w',
      TFTMoonrakerBridge.process_gcode config format_1f repr gcode w
      = (Ok tt, w'))
  /\ (forall ack body w, exists w',
        TFTMoonrakerBridge.guarded_by ack body w = (Ok tt, w'))
  /\ (forall body w, exists w',
        TFTMoonrakerBridge.guarded body w = (Ok tt, w')
        /\ forall e w1,
             body w = (Raise e, w1) ->
             TFTSerial.write_calls (tft w')
             = TFTSerial.write_calls (tft w1) ++ [("ok" : str)])
  /\ (forall gcode w,
        unrecognized gcode ->
        exists w',
          TFTMoonrakerBridge.process_gcode config format_1f repr gcode w
          = (Ok tt, w')
          /\ TFTSerial.write_calls (tft w')
             = TFTSerial.write_calls (tft w) ++ [("ok" : str)]
          /\ wire_of (tft w')
             = if link_accepts (tft w)
               then wire_of (tft w) ++ "ok" ++ ["010"%char]
               else wire_of (tft w)).
Proof.
  split; [|split; [|split]].
  - intros gcode w. unfold TFTMoonrakerBridge.process_gcode.
    destruct (guarded_spec (TFTMoonrakerBridge.dispatch config format_1f repr gcode) w)
      as (w' & E & _).
    exists w'. exact E.
  - intros ack body w. unfold TFTMoonrakerBridge.guarded_by, Eff.try_except.
    destruct (body w) as [[[]|e] w1]; [eexists; reflexivity|].
    destruct (ack w1) as [[[]|e'] w2]; eexists; reflexivity.
  - intros body w. destruct (guarded_spec body w) as (w' & E & _ & Hr).
    exists w'. split; [exact E|]. intros e w1 Hb.
    rewrite (Hr e w1 Hb). simpl. apply write_line_logged.
  - intros gcode w Hu.
    assert (Hd : TFTMoonrakerBridge.dispatch config format_1f repr gcode w
                 = (Ok tt, World.set_tft
                             (snd (GCodeTranslator.translate_gcode config
                                     (Py.strip gcode) w))
                             (snd (TFTSerial.write_line "ok" (tft w))))).
    { pose proof (unrecognized_translation) as Htr.
      destruct Hu as (Hne & Hsp & Hrest). 
      assert (Hu : unrecognized gcode) by (repeat split; tauto).
      unfold TFTMoonrakerBridge.dispatch. cbv zeta.
      destruct (Py.strip gcode) as [|c g] eqn:Es; [congruence|].
      unfold special_handler in Hsp.
      apply orb_false_elim in Hsp. destruct Hsp as [Hsp _].
      apply orb_false_elim in Hsp. destruct Hsp as [Hsp _].
      apply orb_false_elim in Hsp. destruct Hsp as [H115 H105].
      rewrite H115, H105.
      unfold Eff.bind at 1.
      destruct (translate_gcode_spec config (c :: g) w) as (w1 & E & Ht & _).
      rewrite E. simpl snd.
      specialize (Htr (available_macros w1) gcode Hu). rewrite Es in Htr.
      rewrite Htr. unfold Eff.bind.
      destruct (bridge_write_line "ok" w1) as [b Hb].
      rewrite Hb, Ht. reflexivity. }
    unfold TFTMoonrakerBridge.process_gcode.
    destruct (guarded_spec (TFTMoonrakerBridge.dispatch config format_1f repr gcode) w)
      as (w' & E & Hok & _).
    exists w'. split; [exact E|].
    rewrite (Hok _ Hd). simpl. split.
    + apply write_line_logged.
    + apply write_line_wire. simpl. lia.
Qed.

End ProcessGcode.

Lemma unrecognized_M999 : unrecognized "M999".
Proof.
  unfold unrecognized. cbv zeta.
  change (Py.strip "M999") with (list_ascii_of_string "M999").
  split; [discriminate|]. split; [reflexivity|]. split.
  - intros rule Hin [m Hm]. simpl in Hin.
    repeat (destruct Hin as [<- | Hin]; [vm_compute in Hm; discriminate Hm|]).
    exact Hin.
  - intros p Hin m Hm. simpl in Hin.
    repeat (destruct Hin as [<- | Hin]; [vm_compute in Hm; discriminate Hm|]).
    exact Hin.
Qed.

Lemma process_gcode_never_raises_witness :
  unrecognized "M999"
  /\ exists w',
       TFTMoonrakerBridge.process_gcode offline_config
         (fun _ => Raise (TypeError "unsupported format string"))
         (fun _ => []) "M999" unreachable_host
       = (Ok tt, w')
       /\ TFTSerial.write_calls (tft w') = [("ok" : str)]
       /\ wire_of (tft w') = "ok" ++ ["010"%char].
Proof.
  split; [exact unrecognized_M999|].
  destruct (proj2 (proj2 (proj2 (process_gcode_never_raises offline_config
                            (fun _ => Raise (TypeError "unsupported format string"))
                            (fun _ => []))))
              "M999" unreachable_host unrecognized_M999)
    as (w' & E & Hc & Hw).
  exists w'. split; [exact E|]. split; [exact Hc | exact Hw].
Defined.

Example translate_M701_fallback :
  fst (GCodeTranslator.translate_gcode retrying_config "M701" unreachable_host)
  = Ok (Some ("TFT_LOAD_FILAMENT" : str)).
Proof. reflexivity. Qed.

Example translate_M701_macro :
  let '(r, w) := GCodeTranslator.translate_gcode retrying_config "m701 "
                   host_with_macros in
  r = Ok (Some ("LOAD_FILAMENT" : str))
  /\ available_macros w = [("LOAD_FILAMENT" : str); ("PARK" : str)].
Proof. vm_compute. split; reflexivity. Qed.

(** A translated command on its way to the host: the comma of the mesh
    command does not survive [sanitize_gcode]. *)
Example send_gcode_script :
  let '(_, w) :=
    MoonrakerClient.send_gcode retrying_config
      "BED_MESH_CALIBRATE MESH_MIN=10,5 MESH_MAX=10,5" host_with_macros in
  http_log w
  = [("POST" : str, "/printer/gcode/script" : str,
      Some (JDict [("script" : str,
                    JStr "BED_MESH_CALIBRATE MESH_MIN=105 MESH_MAX=105")]))].
Proof. vm_compute. reflexivity. Qed.

(** ** TFTSerial.read_line: one terminator in the buffer *)

Lemma split_no_sep (sep : ascii) (s : str) :
  ~ In sep s -> Py.split sep s = [s].
Proof.
  induction s as [|c s IH]; simpl; [reflexivity|].
  intros Hn. destruct (Py.eqc c sep) eqn:E.
  - apply eqc_true in E. subst. exfalso. apply Hn. left. reflexivity.
  - rewrite IH; [reflexivity | intros H; apply Hn; right; exact H].
Qed.

Lemma split_app_sep (sep : ascii) (l r : str) :
  ~ In sep l -> Py.split sep (l ++ sep :: r) = l :: Py.split sep r.
Proof.
  induction l as [|c l IH]; simpl.
  - intros _. unfold Py.eqc. rewrite Ascii.eqb_refl. reflexivity.
  - intros Hn. destruct (Py.eqc c sep) eqn:E.
    + apply eqc_true in E. subst. exfalso. apply Hn. left. reflexivity.
    + rewrite IH; [reflexivity | intros H; apply Hn; right; exact H].
Qed.

Lemma contains_char_app (c : ascii) (l r : str) :
  Py.contains [c] (l ++ c :: r) = true.
Proof. apply contains_char, in_or_app. right. left. reflexivity. Qed.

(** With a single terminator in the accumulated buffer the framing is as
    the specification has it: the trimmed text before the terminator is
    returned (nothing, when it is blank) and the text after it is kept. *)
Lemma extract_single_line (line rest : str) :
  ~ In "010"%char line ->
  ~ In "010"%char rest ->
  TFTSerial.extract (line ++ "010"%char :: rest)
  = (rest, match Py.strip line with
           | [] => None
           | _ :: _ => Some (Py.strip line)
           end).
Proof.
  intros Hl Hr. unfold TFTSerial.extract.
  rewrite contains_char_app, (split_app_sep _ _ _ Hl), (split_no_sep _ _ Hr).
  cbv zeta. simpl. destruct (Py.strip line); reflexivity.
Qed.

(** ** RateLimiter: what the window guarantees *)

(** The clock never goes back in [acquire]. *)
Lemma acquire_clock_monotone (s : RateLimiter.state) :
  (snd s <= snd (snd (RateLimiter.acquire s)))%Z.
Proof.
  destruct s as [self clock]. unfold RateLimiter.acquire. cbv zeta.
  destruct (RateLimiter.evict_old _ _) as [|oldest rest].
  - destruct (_ <=? _)%Z; simpl; lia.
  - destruct (_ <=? _)%Z; [|simpl; lia].
    destruct (0 <? _)%Z eqn:E; simpl; [apply Z.ltb_lt in E|]; lia.
Qed.

(** X1.  A caller that finds [N] entries or more left in the deque once
    the old ones are evicted leaves [acquire] exactly one window after the
    oldest entry left, or at once when that time is over: never earlier than
    one window after the oldest entry that survived the eviction. *)
Theorem acquire_full_window_waits (self : RateLimiter.t) (clock oldest : time)
        (rest : list time) :
  RateLimiter.evict_old (clock - RateLimiter.time_window self)
                        (RateLimiter.requests self) = oldest :: rest ->
  (RateLimiter.max_requests self
   <= Z.of_nat (List.length (oldest :: rest)))%Z ->
  exists self' clock',
    RateLimiter.acquire (self, clock) = (Ok tt, (self', clock'))
    /\ clock' = Z.max clock (oldest + RateLimiter.time_window self)
    /\ (oldest + RateLimiter.time_window self <= clock')%Z
    /\ (clock <= clock')%Z.
Proof.
  intros Hq Hfull.
  unfold RateLimiter.acquire. cbv zeta. rewrite Hq.
  apply Z.leb_le in Hfull. rewrite Hfull.
  destruct (0 <? _)%Z eqn:Ew.
  - apply Z.ltb_lt in Ew. eexists _, _. split; [reflexivity|].
    unfold time in *. repeat split; lia.
  - apply Z.ltb_ge in Ew. eexists _, _. split; [reflexivity|].
    unfold time in *. repeat split; lia.
Qed.

Lemma acquire_full_window_waits_witness :
  exists self' clock',
    RateLimiter.acquire (RateLimiter.mk 1 1000 [0; 900]%Z, 1500%Z)
    = (Ok tt, (self', clock'))
    /\ clock' = Z.max 1500 (900 + 1000)
    /\ (900 + 1000 <= clock')%Z /\ (1500 <= clock')%Z.
Proof.
  apply (acquire_full_window_waits (RateLimiter.mk 1 1000 [0; 900]%Z)
           1500%Z 900%Z []).
  - reflexivity.
  - simpl. lia.
Defined.

Lemma ascending_app (q : list time) (x : time) :
  ascending q -> (forall t, In t q -> (t <= x)%Z) -> ascending (q ++ [x]).
Proof.
  induction q as [|t q IH]; simpl.
  - intros _ _. split; [intros u [] | exact I].
  - intros [Hle Hq] Hx. split.
    + intros u Hu. apply in_app_or in Hu. destruct Hu as [Hu | [<- | []]].
      * apply Hle, Hu.
      * apply Hx. left. reflexivity.
    + apply IH; [exact Hq | intros u Hu; apply Hx; right; exact Hu].
Qed.

Lemma ascending_filter (f : time -> bool) (q : list time) :
  ascending q -> ascending (filter f q).
Proof.
  induction q as [|t q IH]; simpl; [auto|].
  intros [Hle Hq]. destruct (f t); simpl; [|apply IH, Hq].
  split; [|apply IH, Hq].
  intros u Hu. apply filter_In in Hu. apply Hle, Hu.
Qed.

Lemma ascending_tail (t : time) (q : list time) :
  ascending (t :: q) -> ascending q.
Proof. simpl. tauto. Qed.

(** X2.  The order of the deque is kept: from a deque in arrival order and
    not ahead of the clock, [acquire] leaves a deque in arrival order, not
    ahead of the clock, whose entries all lie in the window that ended at
    the time of entry. *)
Theorem acquire_keeps_order (self : RateLimiter.t) (clock : time) :
  (0 < RateLimiter.max_requests self)%Z ->
  (0 <= RateLimiter.time_window self)%Z ->
  in_order (self, clock) ->
  exists self' clock',
    RateLimiter.acquire (self, clock) = (Ok tt, (self', clock'))
    /\ in_order (self', clock')
    /\ forall t, In t (RateLimiter.requests self') ->
                 (clock - RateLimiter.time_window self <= t <= clock)%Z.
Proof.
  intros HN HW [Hasc Hle]. simpl in Hasc, Hle.
  pose proof (acquire_clock_monotone (self, clock)) as Hmono.
  revert Hmono. unfold RateLimiter.acquire. cbv zeta.
  rewrite (evict_old_filter _ _ Hasc).
  remember (filter (fun t => negb (t <? clock - RateLimiter.time_window self)%Z)
                   (RateLimiter.requests self)) as kept eqn:Ek.
  assert (Hq : ascending kept) by (subst kept; apply ascending_filter, Hasc).
  assert (Hin : forall t, In t kept ->
                          (clock - RateLimiter.time_window self <= t <= clock)%Z).
  { intros t Ht. subst kept. apply filter_In in Ht. destruct Ht as [Ht Hf].
    apply negb_true_iff, Z.ltb_ge in Hf. specialize (Hle t Ht). lia. }
  clear Ek.
  assert (Hkeep : forall q clock',
             ascending q ->
             (forall t, In t q ->
                        (clock - RateLimiter.time_window self <= t <= clock)%Z) ->
             (clock <= clock')%Z ->
             in_order (RateLimiter.set_requests self (q ++ [clock]), clock')
             /\ forall t, In t (RateLimiter.requests
                                  (RateLimiter.set_requests self (q ++ [clock]))) ->
                          (clock - RateLimiter.time_window self <= t <= clock)%Z).
  { intros q clock' Hqa Hqi Hc. simpl.
    assert (Hall : forall t, In t (q ++ [clock]) ->
                     (clock - RateLimiter.time_window self <= t <= clock)%Z).
    { intros t Ht. apply in_app_or in Ht. destruct Ht as [Ht | [<- | []]];
        [apply Hqi, Ht | lia]. }
    split; [|exact Hall]. split; simpl.
    - apply ascending_app; [exact Hqa|]. intros t Ht. apply Hqi in Ht. lia.
    - intros t Ht. apply Hall in Ht. lia. }
  destruct kept as [|oldest rest].
  - cbn [List.length Z.of_nat].
    assert (E : (RateLimiter.max_requests self <=? 0)%Z = false)
      by (apply Z.leb_gt; lia).
    rewrite E. intros _. eexists _, _. split; [reflexivity|].
    apply (Hkeep [] clock); [exact I | intros t [] | lia].
  - destruct (_ <=? _)%Z.
    + destruct (0 <? _)%Z eqn:Ew.
      * intros Hmono. eexists _, _. split; [reflexivity|]. simpl in Hmono.
        apply Hkeep; [apply (ascending_tail oldest), Hq | | exact Hmono].
        intros t Ht. apply Hin. right. exact Ht.
      * intros _. eexists _, _. split; [reflexivity|].
        apply Hkeep; [exact Hq | exact Hin | lia].
    + intros _. eexists _, _. split; [reflexivity|].
      apply Hkeep; [exact Hq | exact Hin | lia].
Qed.

Lemma acquire_keeps_order_witness :
  exists self' clock',
    RateLimiter.acquire (RateLimiter.mk 2 1000 [100; 200]%Z, 700%Z)
    = (Ok tt, (self', clock'))
    /\ in_order (self', clock')
    /\ forall t, In t (RateLimiter.requests self') ->
                 (700 - 1000 <= t <= 700)%Z.
Proof.
  apply (acquire_keeps_order (RateLimiter.mk 2 1000 [100; 200]%Z) 700%Z).
  - simpl. lia.
  - simpl. lia.
  - split; simpl.
    + split; [intros u [<- | []]; lia | split; [intros u [] | exact I]].
    + intros t [<- | [<- | []]]; lia.
Defined.

Lemma arrivals_after_window (N : Z) (W e1 : time) (ts : list time) :
  (0 < N)%Z ->
  forall (q : list time) (clock : time),
    ((exists r, q = e1 :: r)
     /\ (Z.of_nat (List.length q) <= N)%Z
     /\ (N + 1 <= Z.of_nat (List.length ts) + Z.of_nat (List.length q))%Z)
    \/ (e1 + W <= clock)%Z ->
    exists q' clock',
      arrivals ts (RateLimiter.mk N W q, clock)
      = (Ok tt, (RateLimiter.mk N W q', clock'))
      /\ (e1 + W <= clock')%Z.
Proof.
  intros HN. induction ts as [|t ts IH]; intros q clock Hinv.
  - destruct Hinv as [(_ & Hle & Hge) | Hlate]; [simpl in Hge; lia|].
    exists q, clock. split; [reflexivity | exact Hlate].
  - cbn [arrivals]. unfold Eff.bind, arrive. cbv beta iota.
    pose proof (acquire_clock_monotone (RateLimiter.mk N W q, Z.max clock t))
      as Hmono.
    destruct (limiter_acquire_returns (RateLimiter.mk N W q) (Z.max clock t) HN)
      as (q1 & c1 & E).
    unfold time in *. rewrite E in Hmono |- *. simpl in Hmono.
    cbn [RateLimiter.set_requests RateLimiter.max_requests
         RateLimiter.time_window].
    apply IH.
    destruct Hinv as [([r ->] & Hle & Hge) | Hlate]; [|right; lia].
    revert E. unfold RateLimiter.acquire. cbv zeta.
    cbn [RateLimiter.requests RateLimiter.time_window RateLimiter.max_requests
         RateLimiter.evict_old RateLimiter.set_requests].
    destruct (e1 <? Z.max clock t - W)%Z eqn:Eold.
    + intros _. right. apply Z.ltb_lt in Eold. lia.
    + match goal with
      | |- context [(N <=? ?x)%Z] => destruct (N <=? x)%Z eqn:Efull
      end.
      * destruct (0 <? W - (Z.max clock t - e1))%Z eqn:Ew.
        -- intros [= _ <-]. right. lia.
        -- intros [= _ <-]. right. apply Z.ltb_ge in Ew. lia.
      * intros [= <- <-]. left. apply Z.leb_gt in Efull.
        split; [exists (r ++ [Z.max clock t]); reflexivity|].
        cbn [app List.length] in *. rewrite length_app.
        cbn [List.length]. unfold time in *. lia.
Qed.

(** X3.  A burst of [N + 1] callers on an empty limiter, whenever they
    arrive: every call returns, and the last one leaves no earlier than one
    window after the first was admitted. *)
Theorem burst_takes_a_window (N : Z) (W clock t1 : time) (ts : list time) :
  (0 < N)%Z ->
  Z.of_nat (List.length ts) = N ->
  exists q' clock',
    arrivals (t1 :: ts) (RateLimiter.mk N W [], clock)
    = (Ok tt, (RateLimiter.mk N W q', clock'))
    /\ (Z.max clock t1 + W <= clock')%Z.
Proof.
  intros HN Hlen. cbn [arrivals]. unfold Eff.bind, arrive. cbv beta iota.
  assert (E : RateLimiter.acquire (RateLimiter.mk N W [], Z.max clock t1)
              = (Ok tt, (RateLimiter.mk N W [Z.max clock t1], Z.max clock t1))).
  { unfold RateLimiter.acquire. cbv zeta. simpl.
    assert (E0 : (N <=? 0)%Z = false) by (apply Z.leb_gt; lia).
    rewrite E0. reflexivity. }
  unfold time in *. rewrite E.
  apply (arrivals_after_window N W (Z.max clock t1) ts HN).
  left. split; [eexists; reflexivity|]. simpl. unfold time in *. lia.
Qed.

Lemma burst_takes_a_window_witness :
  exists q' clock',
    arrivals [0; 10; 20]%Z (RateLimiter.mk 2 1000 [], 0%Z)
    = (Ok tt, (RateLimiter.mk 2 1000 q', clock'))
    /\ (Z.max 0 0 + 1000 <= clock')%Z.
Proof.
  apply (burst_takes_a_window 2 1000 0 0 [10; 20]%Z).
  - lia.
  - reflexivity.
Defined.

(** ** MoonrakerClient._make_request: attempts and backoff *)

Lemma client_acquire_clock (w : world) :
  exists q c,
    MoonrakerClient.acquire w
    = (Ok tt, World.set_clock (World.set_rate_requests w q) c)
    /\ (clock w <= c)%Z.
Proof.
  destruct (client_acquire_spec w) as (q & c & E).
  exists q, c. split; [exact E|].
  pose proof (acquire_clock_monotone (MoonrakerClient.rate_limiter w, clock w))
    as Hm.
  apply (f_equal (fun p => clock (snd p))) in E. simpl in E.
  unfold MoonrakerClient.acquire in E.
  destruct (RateLimiter.acquire _) as [r [rl c0]]. simpl in Hm, E.
  subst c0. exact Hm.
Qed.

Lemma make_request_recorded (config : BridgeConfig) (method endpoint : str)
      (data : option json) (w : world) :
  (clock w <= clock (recorded method endpoint w))%Z
  /\ MoonrakerClient._make_request config method endpoint data w
     = match urljoin w (MoonrakerClient.base_url config) endpoint with
       | Ok _ =>
           MoonrakerClient.attempts config method endpoint data
             (Z.to_nat (max_retries config)) 0%Z (recorded method endpoint w)
       | Raise e => (Raise e, recorded method endpoint w)
       end.
Proof.
  destruct (make_request_unfold config method endpoint data w)
    as (q & c & Ea & E).
  destruct (client_acquire_clock w) as (q' & c' & Ea' & Hc).
  rewrite Ea in Ea'.
  apply (f_equal (fun p => clock (snd p))) in Ea'. simpl in Ea'.
  unfold recorded. rewrite Ea. cbn [snd]. split; [|exact E].
  simpl. rewrite Ea'. exact Hc.
Qed.

Lemma attempts_entries (config : BridgeConfig) (method endpoint : str)
      (data : option json) (left : nat) :
  forall (attempt : Z) (w : world),
    exists l,
      http_log (snd (MoonrakerClient.attempts config method endpoint data
                       left attempt w))
      = http_log w ++ l
      /\ List.length l <= left
      /\ Forall (eq (attempt_entry method endpoint data)) l.
Proof.
  induction left as [|left IH]; intros attempt w.
  - exists []. simpl. rewrite app_nil_r. auto.
  - rewrite attempts_step. cbv zeta.
    destruct (Py.eqs (Py.upper method) "GET" || Py.eqs (Py.upper method) "POST").
    + destruct (http_oracle w (List.length (http_log w))) as [body|e].
      * eexists [_]. simpl. split; [reflexivity|]. split; [lia|].
        constructor; [reflexivity | constructor].
      * destruct (MoonrakerClient.is_transient e && _).
        -- destruct (1024 <=? attempt)%Z.
           { eexists [_]. simpl. split; [reflexivity|]. split; [lia|].
             constructor; [reflexivity | constructor]. }
           match goal with
           | |- context [MoonrakerClient.attempts _ _ _ _ left ?a ?w2] =>
               destruct (IH a w2) as (l & Hl & Hn & Hall)
           end.
           exists (attempt_entry method endpoint data :: l).
           rewrite Hl. simpl. rewrite <- app_assoc.
           split; [reflexivity|]. split; [lia|].
           constructor; [reflexivity | exact Hall].
        -- eexists [_]. simpl. split; [reflexivity|]. split; [lia|].
           constructor; [reflexivity | constructor].
    + destruct (IH (attempt + 1)%Z w) as (l & Hl & Hn & Hall).
      exists l. split; [exact Hl|]. split; [lia | exact Hall].
Qed.

Lemma make_request_entries (config : BridgeConfig)
      (method endpoint : str) (data : option json) (w : world) :
  exists l,
    http_log (snd (MoonrakerClient._make_request config method endpoint data w))
    = http_log w ++ l
    /\ List.length l <= Z.to_nat (max_retries config)
    /\ Forall (eq (attempt_entry method endpoint data)) l.
Proof.
  destruct (make_request_unfold config method endpoint data w)
    as (q & c & _ & E).
  rewrite E.
  destruct (urljoin w (MoonrakerClient.base_url config) endpoint) as [url|e].
  - match goal with
    | |- context [MoonrakerClient.attempts ?cf ?m ?e ?d ?n ?a ?w0] =>
        destruct (attempts_entries cf m e d n a w0) as (l & Hl & Hn & Hall)
    end.
    exists l. split; [exact Hl|]. split; [exact Hn | exact Hall].
  - exists []. simpl. rewrite app_nil_r.
    split; [reflexivity|]. split; [lia | constructor].
Qed.

(** X4.  One call of [_make_request] makes at most [max_retries] HTTP
    attempts, each with the verb in capitals, the endpoint it was given,
    and the body only when the verb is not GET. *)
Theorem make_request_attempts_bounded (config : BridgeConfig)
        (method endpoint : str) (data : option json) (w : world) :
  exists l,
    http_log (snd (MoonrakerClient._make_request config method endpoint data w))
    = http_log w ++ l
    /\ (Z.of_nat (List.length l) <= Z.max 0 (max_retries config))%Z
    /\ Forall (eq (attempt_entry method endpoint data)) l.
Proof.
  destruct (make_request_entries config method endpoint data w)
    as (l & Hl & Hn & Hall).
  exists l. split; [exact Hl|]. split; [lia | exact Hall].
Qed.

Lemma backoff_sleep (delay : time) (attempt : Z) :
  (0 <= attempt)%Z ->
  Z.max 0 (delay * 2 ^ attempt) = (Z.max 0 delay * 2 ^ attempt)%Z.
Proof.
  intros Ha. assert (H2 : (0 < 2 ^ attempt)%Z) by (apply Z.pow_pos_nonneg; lia).
  unfold time in *.
  destruct (Z.max_spec 0 delay) as [[Hd ->] | [Hd ->]].
  - apply Z.max_r. nia.
  - rewrite Z.mul_0_l. apply Z.max_l. nia.
Qed.









Lemma attempts_unsupported (config : BridgeConfig) (method endpoint : str)
      (data : option json) (left : nat) :
  supported method = false ->
  forall (attempt : Z) (w : world),
    MoonrakerClient.attempts config method endpoint data left attempt w
    = (Ok (Json.error "Max retries exceeded"), w).
Proof.
  intros Hverb. unfold supported in Hverb.
  induction left as [|left IH]; intros attempt w; [reflexivity|].
  rewrite attempts_step. cbv zeta. rewrite Hverb. apply IH.
Qed.

(** X7.  A verb other than GET and POST reaches neither branch of the
    loop: [_make_request] passes the limiter, records the call and changes
    nothing else, so it makes no HTTP attempt and never sleeps; it answers
    [{"error": "Max retries exceeded"}], whatever the host would have said,
    unless [urljoin] raised before the loop, and then it raises the same. *)
Theorem make_request_unsupported_verb (config : BridgeConfig)
        (method endpoint : str) (data : option json) (w : world) :
  supported method = false ->
  MoonrakerClient._make_request config method endpoint data w
  = (match urljoin w (MoonrakerClient.base_url config) endpoint with
     | Ok _ => Ok (JDict [("error" : str, JStr "Max retries exceeded")])
     | Raise e => Raise e
     end,
     recorded method endpoint w).
Proof.
  intros Hverb.
  destruct (make_request_recorded config method endpoint data w) as (_ & E).
  rewrite E.
  destruct (urljoin w (MoonrakerClient.base_url config) endpoint) as [url|e];
    [|reflexivity].
  apply attempts_unsupported. exact Hverb.
Qed.

Lemma make_request_unsupported_verb_witness :
  MoonrakerClient._make_request retrying_config "DELETE" "/server/files" None
    host_with_macros
  = (match urljoin host_with_macros
             (MoonrakerClient.base_url retrying_config) "/server/files" with
     | Ok _ => Ok (JDict [("error" : str, JStr "Max retries exceeded")])
     | Raise e => Raise e
     end,
     recorded "DELETE" "/server/files" host_with_macros).
Proof.
  apply (make_request_unsupported_verb retrying_config "DELETE" "/server/files"
           None host_with_macros).
  reflexivity.
Defined.

(** ** MoonrakerClient: what the domain operations send *)

Lemma make_request_attempts_bounded_aux (config : BridgeConfig)
      (method endpoint : str) (data : option json) (w : world) :
  exists l,
    http_log (snd (MoonrakerClient._make_request config method endpoint data w))
    = http_log w ++ l
    /\ Forall (eq (attempt_entry method endpoint data)) l.
Proof.
  destruct (make_request_entries config method endpoint data w)
    as (l & Hl & _ & Hall).
  exists l. split; [exact Hl | exact Hall].
Qed.

(** X8.  Whatever text [send_gcode] is given, every HTTP attempt it makes is
    a POST of the sanitized script to the script endpoint, outside test
    mode, and that script is not empty, has at most 1000 characters and
    only characters of the allow-list. *)
Theorem send_gcode_posts_sanitized (config : BridgeConfig) (gcode : str)
        (w : world) :
  let script := SecurityValidator.sanitize_gcode gcode in
  exists l,
    http_log (snd (MoonrakerClient.send_gcode config gcode w))
    = http_log w ++ l
    /\ Forall (fun entry =>
                 entry = script_entry script
                 /\ script <> [] /\ Py.len script <= 1000
                 /\ Forall (fun c => allow_list c = true) script
                 /\ test_mode config = false) l.
Proof.
  cbv zeta.
  unfold MoonrakerClient.send_gcode, Eff.try_except,
    MoonrakerClient.send_gcode_try. cbv zeta.
  pose proof (sanitize_gcode_length gcode) as Hlen.
  pose proof (sanitize_gcode_kept gcode) as Hkept.
  destruct (SecurityValidator.sanitize_gcode gcode) as [|c s] eqn:Es.
  - exists []. simpl. rewrite app_nil_r. split; [reflexivity | constructor].
  - destruct (test_mode config) eqn:Et.
    + unfold Eff.bind, MoonrakerClient.log_command, Eff.modify, Eff.ret.
      exists []. simpl. rewrite app_nil_r. split; [reflexivity | constructor].
    + destruct (make_request_attempts_bounded_aux config "POST"
                  "/printer/gcode/script"
                  (Some (JDict [("script" : str, JStr (c :: s))])) w)
        as (l & Hl & Hall).
      exists l.
      destruct (MoonrakerClient._make_request _ _ _ _ w) as [r w1].
      simpl in Hl. split; [destruct r; exact Hl|].
      eapply Forall_impl; [|exact Hall].
      intros entry <-. split; [reflexivity|].
      split; [discriminate|]. split; [exact Hlen|]. split; [|reflexivity].
      eapply Forall_impl; [|exact Hkept].
      intros a Ha. rewrite <- kept_allow_list. exact Ha.
Qed.

Lemma filter_none (f : ascii -> bool) (s : str) :
  (forall c, In c s -> f c = false) -> filter f s = [].
Proof.
  induction s as [|c s IH]; simpl; intros H; [reflexivity|].
  rewrite (H c) by (left; reflexivity).
  apply IH. intros a Ha. apply H. right. exact Ha.
Qed.

(** X9.  A text that, once stripped, has no character of the allow-list is
    answered by [send_gcode] with the "Invalid or empty G-code" error and
    nothing else happens: no wait at the limiter, no request, no count. *)
Theorem send_gcode_nothing_to_send (config : BridgeConfig) (gcode : str)
        (w : world) :
  (forall c, In c (Py.strip gcode) -> allow_list c = false) ->
  MoonrakerClient.send_gcode config gcode w
  = (Ok (JDict [("error" : str, JStr "Invalid or empty G-code")]), w).
Proof.
  intros Hnone.
  assert (Es : SecurityValidator.sanitize_gcode gcode = []).
  { rewrite sanitize_gcode_unfold, filter_none; [reflexivity|].
    intros c Hc. rewrite kept_allow_list. apply Hnone, Hc. }
  unfold MoonrakerClient.send_gcode, Eff.try_except,
    MoonrakerClient.send_gcode_try. cbv zeta.
  rewrite Es. reflexivity.
Qed.

Lemma send_gcode_nothing_to_send_witness :
  MoonrakerClient.send_gcode retrying_config "  ;;(!)  " host_with_macros
  = (Ok (JDict [("error" : str, JStr "Invalid or empty G-code")]),
     host_with_macros).
Proof.
  apply (send_gcode_nothing_to_send retrying_config "  ;;(!)  " host_with_macros).
  intros c Hc. vm_compute in Hc.
  repeat (destruct Hc as [<- | Hc]; [reflexivity|]). destruct Hc.
Defined.

(** X10.  [start_print] never asks the host to start a file whose name
    fails the validator: for such a name it answers with the error and
    leaves everything as it was, and every HTTP attempt it makes is a POST
    of a validated name to the start endpoint. *)
Theorem start_print_only_valid_names (config : BridgeConfig) (filename : str)
        (w : world) :
  (SecurityValidator.validate_filename filename = false ->
   MoonrakerClient.start_print config filename w
   = (Ok (JDict [("error" : str,
                  JStr "Invalid filename - potential security risk")]), w))
  /\ exists l,
       http_log (snd (MoonrakerClient.start_print config filename w))
       = http_log w ++ l
       /\ Forall (fun entry =>
                    entry = start_entry filename
                    /\ SecurityValidator.validate_filename filename = true) l.
Proof.
  unfold MoonrakerClient.start_print, Eff.try_except,
    MoonrakerClient.start_print_try.
  destruct (SecurityValidator.validate_filename filename) eqn:Ev; cbn [negb].
  - split; [discriminate|].
    destruct (make_request_attempts_bounded_aux config "POST"
                "/printer/print/start"
                (Some (JDict [("filename" : str, JStr filename)])) w)
      as (l & Hl & Hall).
    exists l.
    destruct (MoonrakerClient._make_request _ _ _ _ w) as [r w1].
    simpl in Hl. split; [destruct r; exact Hl|].
    eapply Forall_impl; [|exact Hall].
    intros entry <-. split; reflexivity.
  - split; [reflexivity|].
    exists []. simpl. rewrite app_nil_r. split; [reflexivity | constructor].
Qed.

Lemma start_print_only_valid_names_witness :
  MoonrakerClient.start_print retrying_config "../printer.cfg" host_with_macros
  = (Ok (JDict [("error" : str,
                 JStr "Invalid filename - potential security risk")]),
     host_with_macros).
Proof.
  apply (proj1 (start_print_only_valid_names retrying_config "../printer.cfg"
                  host_with_macros)).
  reflexivity.
Defined.

(** ** GCodeTranslator: the two queries, and what a translation looks like *)

(** The only characters whose capital starts with [M] are [M] and [m], and
    a digit is the capital of itself alone. *)
Lemma upper_char_first (x c : ascii) (rest : str) :
  In x ["M"; "0"; "1"; "5"]%char ->
  Py.startswith [x] (Py.upper_char c ++ rest) = true ->
  Py.upper_char c = [x]
  /\ (c = x \/ (x = "M"%char /\ c = "m"%char)).
Proof.
  intros Hx.
  destruct c as [[] [] [] [] [] [] [] []];
    destruct Hx as [<- | [<- | [<- | [<- | []]]]];
    cbn; intros H; try discriminate H; auto.
Qed.

Lemma upper_prefix4 (a b c d : ascii) (g : str) :
  In a ["M"]%char -> In b ["0"; "1"]%char ->
  In c ["0"; "1"]%char -> In d ["5"]%char ->
  Py.startswith [a; b; c; d] (Py.upper g) = true ->
  exists c1 rest,
    g = c1 :: b :: c :: d :: rest
    /\ (c1 = "M"%char \/ c1 = "m"%char).
Proof.
  intros Ha Hb Hc Hd.
  assert (step : forall x p s,
             In x ["M"; "0"; "1"; "5"]%char ->
             Py.startswith (x :: p) (Py.upper s) = true ->
             exists c0 s', s = c0 :: s'
                           /\ (c0 = x \/ (x = "M"%char /\ c0 = "m"%char))
                           /\ Py.startswith p (Py.upper s') = true).
  { intros x p s Hx H. destruct s as [|c0 s']; [discriminate H|].
    unfold Py.upper in H. cbn [flat_map] in H.
    assert (H1 : Py.startswith [x] (Py.upper_char c0 ++ flat_map Py.upper_char s')
                 = true).
    { destruct (Py.upper_char c0 ++ flat_map Py.upper_char s') as [|y t];
        [discriminate H|].
      simpl in H |- *. apply andb_true_iff in H. destruct H as [H _].
      rewrite H. reflexivity. }
    destruct (upper_char_first x c0 _ Hx H1) as [Hu Hc0].
    rewrite Hu in H. simpl in H. apply andb_true_iff in H. destruct H as [_ H].
    exists c0, s'. auto. }
  intros H.
  destruct (step a [b; c; d] g) as (c1 & g1 & -> & H1 & H'); [simpl in *; tauto | exact H|].
  destruct (step b [c; d] g1) as (c2 & g2 & -> & H2 & H''); [simpl in *; tauto | exact H'|].
  destruct (step c [d] g2) as (c3 & g3 & -> & H3 & H'''); [simpl in *; tauto | exact H''|].
  destruct (step d [] g3) as (c4 & g4 & -> & H4 & _); [simpl in *; tauto | exact H'''|].
  exists c1, g4.
  destruct Ha as [<- | []].
  assert (E2 : c2 = b).
  { destruct H2 as [-> | [-> _]]; [reflexivity|].
    destruct Hb as [Hb | [Hb | []]]; discriminate Hb. }
  assert (E3 : c3 = c).
  { destruct H3 as [-> | [-> _]]; [reflexivity|].
    destruct Hc as [Hc | [Hc | []]]; discriminate Hc. }
  assert (E4 : c4 = d).
  { destruct H4 as [-> | [-> _]]; [reflexivity|].
    destruct Hd as [Hd | []]; discriminate Hd. }
  subst. split; [reflexivity|].
  destruct H1 as [-> | [_ ->]]; auto.
Qed.

(** A greedy repetition followed by something that always matches always
    matches. *)
Lemma star_always (ic : bool) (k : Re.cls)
      (rest : str -> Re.groups -> option Re.groups) :
  (forall s g, exists g', rest s g = Some g') ->
  forall s g, exists g', Re.star ic k rest s g = Some g'.
Proof.
  intros Hrest. induction s as [|c s IH]; intros g; simpl; [apply Hrest|].
  destruct (Re.accepts ic k c); [|apply Hrest].
  destruct (IH (Re.take c g)) as [g' ->]. eauto.
Qed.

Lemma query_translation (macros : list str) (c1 : ascii) (rest : str) :
  c1 = "M"%char \/ c1 = "m"%char ->
  forall t : str,
    t = "115" \/ t = "105" ->
    Py.strip (c1 :: t ++ rest) = c1 :: t ++ rest ->
    translation_of macros (c1 :: t ++ rest) = Some (c1 :: t ++ rest).
Proof.
  intros Hc t Ht Hs. unfold translation_of. rewrite !Hs. cbv zeta.
  destruct Hc as [-> | ->]; destruct Ht as [-> | ->];
    cbn [app list_ascii_of_string];
    match goal with
    | |- context [GCodeTranslator.passes _ ?cmd] =>
        assert (Hscan : GCodeTranslator.scan GCodeTranslator.translations cmd = None)
          by (vm_compute; reflexivity);
        assert (Hpass : GCodeTranslator.passes
                          GCodeTranslator.passthrough_patterns cmd = true)
          by (unfold GCodeTranslator.passes,
                GCodeTranslator.passthrough_patterns, Re.match_;
              lazy -[Re.star];
              match goal with
              | |- context [Re.star true Re.Dot ?k ?r ?g0] =>
                  destruct (star_always true Re.Dot k
                              (fun s0 gs => ex_intro _ gs eq_refl) r g0)
                    as [gs' Hgs'];
                  rewrite Hgs'; reflexivity
              end);
        rewrite Hscan, Hpass; reflexivity
    end.
Qed.

(** X11.  A command that starts with [M115] or [M105], in either case, is
    not held back by [translate_gcode]: the passthrough patterns take it,
    and the answer is the command itself, so the two branches for
    "special handling" after the passthrough loop are never reached. *)
Theorem translate_gcode_passes_queries (config : BridgeConfig) (gcode : str)
        (w : world) :
  Py.startswith "M115" (Py.upper (Py.strip gcode))
  || Py.startswith "M105" (Py.upper (Py.strip gcode)) = true ->
  fst (GCodeTranslator.translate_gcode config gcode w)
  = Ok (Some (Py.strip gcode)).
Proof.
  intros Hq.
  destruct (translate_gcode_spec config gcode w) as (w' & E & _).
  rewrite E. cbn [fst]. f_equal.
  assert (Hg : exists c1 t rest,
             Py.strip gcode = c1 :: t ++ rest
             /\ (c1 = "M"%char \/ c1 = "m"%char)
             /\ (t = list_ascii_of_string "115" \/ t = list_ascii_of_string "105")).
  { apply orb_true_iff in Hq. destruct Hq as [Hq | Hq].
    - destruct (upper_prefix4 "M" "1" "1" "5" (Py.strip gcode))
        as (c1 & rest & Hg & Hc); simpl; auto.
      exists c1, (list_ascii_of_string "115"), rest. auto.
    - destruct (upper_prefix4 "M" "1" "0" "5" (Py.strip gcode))
        as (c1 & rest & Hg & Hc); simpl; auto.
      exists c1, (list_ascii_of_string "105"), rest. auto. }
  destruct Hg as (c1 & t & rest & Hg & Hc & Ht).
  assert (Hs : Py.strip (c1 :: t ++ rest) = c1 :: t ++ rest)
    by (rewrite <- Hg; apply strip_idem).
  pose proof (query_translation (available_macros w') c1 rest Hc t Ht Hs) as Hq'.
  rewrite <- Hg in Hq'.
  assert (Hsame : translation_of (available_macros w') gcode
                  = translation_of (available_macros w') (Py.strip gcode)).
  { destruct gcode as [|c g]; [cbv in Hg; discriminate Hg|].
    unfold translation_of. rewrite !Hg, !Hs. reflexivity. }
  rewrite Hsame. exact Hq'.
Qed.

Lemma translate_gcode_passes_queries_witness :
  fst (GCodeTranslator.translate_gcode retrying_config " m105 T0 "
         unreachable_host)
  = Ok (Some (Py.strip " m105 T0 ")).
Proof.
  apply (translate_gcode_passes_queries retrying_config " m105 T0 "
           unreachable_host).
  reflexivity.
Defined.

Lemma scan_nonempty (rules : list (str * GCodeTranslator.action))
      (gcode t : str) :
  (forall rule, In rule rules ->
                forall m, GCodeTranslator.apply_action (snd rule) m <> []) ->
  GCodeTranslator.scan rules gcode = Some t ->
  t <> [].
Proof.
  induction rules as [|[pattern replacement] rules IH]; simpl;
    [discriminate|].
  intros Hall.
  assert (IH' := IH (fun r Hr => Hall r (or_intror Hr))).
  destruct (Re.match_ pattern gcode) as [[m|]|e]; try exact IH'.
  intros [= <-]. apply (Hall (pattern, replacement)). left. reflexivity.
Qed.

(** X12.  [translate_gcode] never answers with an empty text: its answer is
    either no translation at all or a command with at least one character,
    which is why the truth test of [process_gcode] on the answer tells
    exactly whether there is one. *)
Theorem translate_gcode_never_empty (config : BridgeConfig) (gcode : str)
        (w : world) :
  fst (GCodeTranslator.translate_gcode config gcode w) <> Ok (Some []).
Proof.
  destruct (translate_gcode_spec config gcode w) as (w' & E & _).
  rewrite E. cbn [fst]. unfold translation_of.
  destruct gcode as [|c g]; [discriminate|].
  destruct (Py.strip (c :: g)) as [|c' g']; [discriminate|].
  cbv zeta.
  destruct (Py.eqs _ _); [destruct (GCodeTranslator.known _ _); discriminate|].
  destruct (Py.eqs _ _); [destruct (GCodeTranslator.known _ _); discriminate|].
  destruct (GCodeTranslator.scan _ _) as [t|] eqn:Es.
  - intros [= ->].
    refine (scan_nonempty _ _ _ _ Es eq_refl).
    intros rule Hin m. simpl in Hin.
    repeat (destruct Hin as [<- | Hin]; [discriminate|]). destruct Hin.
  - destruct (GCodeTranslator.passes _ _); discriminate.
Qed.

(** ** GCodeTranslator.check_available_macros: what gets registered *)

Lemma eqs_true (a b : str) : Py.eqs a b = true <-> a = b.
Proof.
  revert b. induction a as [|x a IH]; intros [|y b]; simpl;
    try (split; [discriminate | discriminate]); [tauto|].
  rewrite andb_true_iff, eqc_true, IH. split.
  - intros [-> ->]. reflexivity.
  - intros [= -> ->]. auto.
Qed.

Lemma known_In (name : str) (macros : list str) :
  GCodeTranslator.known name macros = true <-> In name macros.
Proof.
  unfold GCodeTranslator.known. rewrite existsb_exists. split.
  - intros (x & Hx & He). apply eqs_true in He. subst. exact Hx.
  - intros H. exists name. split; [exact H | apply eqs_true; reflexivity].
Qed.

Lemma add_In (macros : list str) (name n : str) :
  In n (GCodeTranslator.add macros name) <-> In n macros \/ n = name.
Proof.
  unfold GCodeTranslator.add.
  destruct (GCodeTranslator.known name macros) eqn:E.
  - apply known_In in E. split; [auto | intros [H | ->]; assumption].
  - rewrite in_app_iff. simpl. split.
    + intros [H | [<- | []]]; auto.
    + intros [H | ->]; auto.
Qed.

Lemma add_NoDup (macros : list str) (name : str) :
  NoDup macros -> NoDup (GCodeTranslator.add macros name).
Proof.
  intros Hnd. unfold GCodeTranslator.add.
  destruct (GCodeTranslator.known name macros) eqn:E; [exact Hnd|].
  assert (Hnot : ~ In name macros).
  { intros H. apply known_In in H. congruence. }
  clear E. induction Hnd as [|x l Hx Hl IH]; simpl.
  - constructor; [intros [] | constructor].
  - constructor.
    + rewrite in_app_iff. simpl. intros [H | [<- | []]]; [exact (Hx H)|].
      apply Hnot. left. reflexivity.
    + apply IH. intros H. apply Hnot. right. exact H.
Qed.

Lemma fold_add_In (names macros : list str) (n : str) :
  In n (fold_left GCodeTranslator.add names macros)
  <-> In n macros \/ In n names.
Proof.
  revert macros. induction names as [|x names IH]; intros macros; simpl.
  - tauto.
  - rewrite IH, add_In. split.
    + intros [[H | ->] | H]; auto.
    + intros [H | [<- | H]]; auto.
Qed.

Lemma fold_add_NoDup (names macros : list str) :
  NoDup macros -> NoDup (fold_left GCodeTranslator.add names macros).
Proof.
  revert macros. induction names as [|x names IH]; intros macros H; simpl;
    [exact H|].
  apply IH, add_NoDup, H.
Qed.

Lemma macro_names_settings (body settings : list (str * json)) :
  carries_settings body settings ->
  GCodeTranslator.macro_names (JDict body) = Ok (registered_names settings).
Proof.
  intros (result & status & configfile & H1 & H2 & H3 & H4).
  unfold GCodeTranslator.macro_names, Json.contains, Json.getitem,
    Json.has_key, Json.rbind, Json.keys.
  rewrite H1. cbn [negb]. rewrite H2. cbn [negb]. rewrite H3. cbn [negb].
  rewrite H4. reflexivity.
Qed.

Lemma check_available_macros_registry (config : BridgeConfig) (w : world) :
  macros_checked w = false ->
  available_macros (snd (GCodeTranslator.check_available_macros config w))
  = match MoonrakerClient._make_request config "GET"
            "/printer/objects/query?configfile" None w with
    | (Ok response, _) =>
        match GCodeTranslator.macro_names response with
        | Ok names => fold_left GCodeTranslator.add names (available_macros w)
        | Raise _ => available_macros w
        end
    | (Raise _, _) => available_macros w
    end.
Proof.
  intros Hc. unfold GCodeTranslator.check_available_macros. rewrite Hc.
  unfold Eff.try_finally, Eff.try_except, Eff.bind, Eff.modify, Eff.ret,
    World.eval.
  pose proof (make_request_frame config "GET"
                "/printer/objects/query?configfile" None w) as Hf.
  cbn zeta in Hf.
  destruct (MoonrakerClient._make_request config "GET"
              "/printer/objects/query?configfile" None w) as [[v|e] w1];
    simpl in Hf; destruct Hf as ((_ & Ha & _) & _).
  - destruct (GCodeTranslator.macro_names v) as [names|e']; simpl;
      rewrite Ha; reflexivity.
  - simpl. exact Ha.
Qed.

(** X13.  When the host answers the configuration query with a
    configuration whose macro keys hold neither the micro sign nor the y
    with diaeresis (the two letters below 256 whose capitals lie above),
    the first [check_available_macros] adds to the registry exactly one
    name for each key of the settings that starts with the macro prefix,
    the prefix removed and the rest in capitals, and no name ends up in the
    registry twice. *)
Theorem check_available_macros_registers (config : BridgeConfig)
        (w w1 : world) (body settings : list (str * json)) :
  macros_checked w = false ->
  MoonrakerClient._make_request config "GET"
    "/printer/objects/query?configfile" None w = (Ok (JDict body), w1) ->
  carries_settings body settings ->
  (forall key, In key (map fst settings) ->
               Py.startswith "gcode_macro " key = true -> upper_exact key) ->
  let w' := snd (GCodeTranslator.check_available_macros config w) in
  (forall name,
      In name (available_macros w')
      <-> In name (available_macros w) \/ In name (registered_names settings))
  /\ (NoDup (available_macros w) -> NoDup (available_macros w')).
Proof.
  intros Hc Hreq Hset _. cbn zeta.
  rewrite (check_available_macros_registry config w Hc), Hreq,
    (macro_names_settings _ _ Hset).
  split; [intros name; apply fold_add_In | apply fold_add_NoDup].
Qed.

Lemma check_available_macros_registers_witness :
  let w' := snd (GCodeTranslator.check_available_macros retrying_config
                   host_with_macros) in
  (forall name,
      In name (available_macros w')
      <-> In name (available_macros host_with_macros)
          \/ In name (registered_names
                        [("printer" : str, JDict []);
                         ("gcode_macro load_filament" : str, JDict []);
                         ("gcode_macro park" : str, JDict [])]))
  /\ (NoDup (available_macros host_with_macros) -> NoDup (available_macros w')).
Proof.
  eapply (check_available_macros_registers retrying_config host_with_macros).
  - reflexivity.
  - vm_compute. reflexivity.
  - do 3 eexists. repeat split; reflexivity.
  - intros key Hin _. unfold upper_exact.
    simpl in Hin. destruct Hin as [<- | [<- | [<- | []]]];
      repeat constructor; simpl; discriminate.
Defined.

(** X14.  An answer without a [result] key, such as the error dictionary
    of a request that ran out of retries, leaves the registry as it was and
    still marks it checked: the bridge does not ask again. *)
Theorem check_available_macros_no_result (config : BridgeConfig)
        (w w1 : world) (body : list (str * json)) :
  macros_checked w = false ->
  MoonrakerClient._make_request config "GET"
    "/printer/objects/query?configfile" None w = (Ok (JDict body), w1) ->
  Json.lookup "result" body = None ->
  let w' := snd (GCodeTranslator.check_available_macros config w) in
  available_macros w' = available_macros w /\ macros_checked w' = true.
Proof.
  intros Hc Hreq Hno. cbn zeta. split.
  - rewrite (check_available_macros_registry config w Hc), Hreq.
    unfold GCodeTranslator.macro_names, Json.contains, Json.has_key, Json.rbind.
    rewrite Hno. reflexivity.
  - destruct (check_available_macros_spec config w) as (w' & E & H & _).
    rewrite E. exact H.
Qed.

Lemma check_available_macros_no_result_witness :
  let w' := snd (GCodeTranslator.check_available_macros offline_config
                   unreachable_host) in
  available_macros w' = available_macros unreachable_host
  /\ macros_checked w' = true.
Proof.
  eapply (check_available_macros_no_result offline_config unreachable_host).
  - reflexivity.
  - vm_compute. reflexivity.
  - reflexivity.
Defined.

(** ** TFTSerial: framing of the lines *)

Lemma terminators_none (s : str) :
  terminators s = 0 -> ~ In "010"%char s.
Proof.
  unfold terminators. induction s as [|c s IH]; simpl; [tauto|].
  destruct (Py.eqc c "010") eqn:E; simpl; [discriminate|].
  intros H [Hc | Hin]; [|exact (IH H Hin)].
  subst c. unfold Py.eqc in E. rewrite Ascii.eqb_refl in E. discriminate.
Qed.

Lemma terminators_one (s : str) :
  terminators s = 1 ->
  exists a b, s = a ++ "010"%char :: b
              /\ ~ In "010"%char a /\ ~ In "010"%char b.
Proof.
  induction s as [|c s IH]; [discriminate|].
  unfold terminators in *. simpl.
  destruct (Py.eqc c "010") eqn:E; simpl.
  - intros [= H]. apply eqc_true in E. subst c.
    exists [], s. split; [reflexivity|]. split; [tauto|].
    apply terminators_none. exact H.
  - intros H. destruct (IH H) as (a & b & -> & Ha & Hb).
    exists (c :: a), b. split; [reflexivity|]. split; [|exact Hb].
    intros [Hc | Hin]; [|exact (Ha Hin)].
    subst c. unfold Py.eqc in E. rewrite Ascii.eqb_refl in E. discriminate.
Qed.

Lemma complete_lines_cons (line rest : str) :
  ~ In "010"%char line ->
  complete_lines (line ++ "010"%char :: rest)
  = match Py.strip line with
    | [] => []
    | _ :: _ => [Py.strip line]
    end ++ complete_lines rest
  /\ unfinished (line ++ "010"%char :: rest) = unfinished rest.
Proof.
  intros Hl. unfold complete_lines, unfinished.
  rewrite (split_app_sep _ _ _ Hl).
  pose proof (split_nonempty "010" rest) as Hne.
  destruct (Py.split "010" rest) as [|x xs]; [congruence|].
  cbn [removelast map filter last].
  split; [|reflexivity].
  destruct (Py.strip line); reflexivity.
Qed.

Lemma complete_lines_none (s : str) :
  ~ In "010"%char s -> complete_lines s = [] /\ unfinished s = s.
Proof.
  intros H. unfold complete_lines, unfinished.
  rewrite (split_no_sep _ _ H). split; reflexivity.
Qed.

Lemma contains_char_absent (c : ascii) (s : str) :
  ~ In c s -> Py.contains [c] s = false.
Proof.
  induction s as [|x s IH]; simpl; [reflexivity|].
  intros Hn. destruct (Py.eqc c x) eqn:E.
  - apply eqc_true in E. subst x. exfalso. apply Hn. left. reflexivity.
  - simpl. apply IH. intros H. apply Hn. right. exact H.
Qed.

Lemma In_app_not {A} (x : A) (l r : list A) :
  ~ In x l -> ~ In x r -> ~ In x (l ++ r).
Proof. intros Hl Hr H. apply in_app_or in H. tauto. Qed.

(** X15.  On a link that is up, with chunks that carry at most one line
    terminator each, [read_line] loses nothing and invents nothing: called
    once for each chunk, it returns the complete lines of the stream made
    of the buffered fragment and the chunks, trimmed and without the blank
    ones, in order, and the buffer is left with what follows the last
    terminator. *)
Theorem read_line_reassembles (chunks : list str) :
  forall (self : TFTSerial.t) (p : TFTSerial.port),
    TFTSerial.serial self = Some p ->
    TFTSerial.connected self = true ->
    TFTSerial.incoming p = map TFTSerial.RxData chunks ->
    ~ In "010"%char (TFTSerial._read_buffer self) ->
    Forall (fun c => terminators c <= 1) chunks ->
    let stream := TFTSerial._read_buffer self ++ List.concat chunks in
    let run := TFTSerial.read_lines (List.length chunks) self in
    List.length (fst run) = List.length chunks
    /\ returned (fst run) = complete_lines stream
    /\ TFTSerial._read_buffer (snd run) = unfinished stream.
Proof.
  induction chunks as [|c chunks IH]; intros self p Hs Hc Hin Hb Hall;
    cbv zeta.
  - simpl. rewrite app_nil_r.
    destruct (complete_lines_none _ Hb) as [-> ->]. auto.
  - apply Forall_cons_iff in Hall. destruct Hall as [Hone Hall].
    cbn [List.length TFTSerial.read_lines List.concat].
    unfold TFTSerial.read_line. rewrite Hs, Hc. cbn [negb].
    unfold TFTSerial.poll. rewrite Hin. cbn [map].
    cbn [TFTSerial._read_buffer TFTSerial.set_serial].
    set (p' := TFTSerial.mkPort (map TFTSerial.RxData chunks)
                 (TFTSerial.tx_oracle p) (TFTSerial.tx_count p)
                 (TFTSerial.wire p)).
    assert (Hcases : terminators c = 0 \/ terminators c = 1) by lia.
    destruct Hcases as [H0 | H1].
    + apply terminators_none in H0.
      assert (Hbc : ~ In "010"%char (TFTSerial._read_buffer self ++ c))
        by (apply In_app_not; assumption).
      unfold TFTSerial.extract.
      rewrite (contains_char_absent _ _ Hbc).
      cbv beta iota zeta.
      specialize (IH (TFTSerial.set_read_buffer (TFTSerial.set_serial self p')
                        (TFTSerial._read_buffer self ++ c)) p'
                     eq_refl Hc eq_refl Hbc Hall).
      cbv zeta in IH. cbn [TFTSerial._read_buffer TFTSerial.set_read_buffer] in IH.
      destruct (TFTSerial.read_lines _ _) as [more self''].
      cbn [fst snd] in *. destruct IH as (IHn & IHl & IHb).
      rewrite <- app_assoc in IHl, IHb.
      split; [simpl; lia|]. split; [exact IHl | exact IHb].
    + destruct (terminators_one _ H1) as (a & b & -> & Ha & Hb').
      assert (Hba : ~ In "010"%char (TFTSerial._read_buffer self ++ a))
        by (apply In_app_not; assumption).
      rewrite app_assoc.
      rewrite (extract_single_line _ _ Hba Hb').
      specialize (IH (TFTSerial.set_read_buffer (TFTSerial.set_serial self p') b)
                     p' eq_refl Hc eq_refl Hb' Hall).
      cbv zeta in IH. cbn [TFTSerial._read_buffer TFTSerial.set_read_buffer] in IH.
      destruct (TFTSerial.read_lines _ _) as [more self''].
      cbn [fst snd] in *. destruct IH as (IHn & IHl & IHb).
      rewrite <- !app_assoc. cbn [app].
      rewrite (app_assoc (TFTSerial._read_buffer self) a).
      destruct (complete_lines_cons (TFTSerial._read_buffer self ++ a)
                  (b ++ List.concat chunks) Hba) as [-> ->].
      split; [simpl; lia|]. split; [|exact IHb].
      destruct (Py.strip (TFTSerial._read_buffer self ++ a)); simpl;
        rewrite IHl; reflexivity.
Qed.

Lemma read_line_reassembles_witness :
  let self := TFTSerial.fed [ "G28" ++ ["010"%char] ++ "G1 X" ;
                              "10" ++ ["010"%char] ++ "M1" ] in
  let run := TFTSerial.read_lines 2 self in
  List.length (fst run) = 2
  /\ returned (fst run) = complete_lines ("G28" ++ ["010"%char] ++ "G1 X10"
                                          ++ ["010"%char] ++ "M1")
  /\ TFTSerial._read_buffer (snd run)
     = unfinished ("G28" ++ ["010"%char] ++ "G1 X10" ++ ["010"%char] ++ "M1").
Proof.
  refine (read_line_reassembles
            [ "G28" ++ ["010"%char] ++ "G1 X" ; "10" ++ ["010"%char] ++ "M1" ]
            (TFTSerial.fed [ "G28" ++ ["010"%char] ++ "G1 X" ;
                             "10" ++ ["010"%char] ++ "M1" ])
            _ eq_refl eq_refl eq_refl _ _).
  - simpl. tauto.
  - repeat constructor.
Defined.

Lemma split_head_no_sep (sep : ascii) (s : str) :
  ~ In sep (hd [] (Py.split sep s)).
Proof.
  induction s as [|c s IH]; simpl; [tauto|].
  destruct (Py.eqc c sep) eqn:E; [simpl; tauto|].
  destruct (Py.split sep s) as [|l ls]; simpl in *.
  - intros [H | []]. subst c. unfold Py.eqc in E.
    rewrite Ascii.eqb_refl in E. discriminate.
  - intros [H | H]; [|exact (IH H)].
    subst c. unfold Py.eqc in E. rewrite Ascii.eqb_refl in E. discriminate.
Qed.

(** X16.  A line that [read_line] returns is never empty, holds no line
    terminator and has no blank at either end; the link was up and stays
    up, and what is left in the buffer holds no terminator. *)
Theorem read_line_line_shape (self self' : TFTSerial.t) (line : str) :
  TFTSerial.read_line self = (Ok (Some line), self') ->
  line <> []
  /\ ~ In "010"%char line
  /\ Py.strip line = line
  /\ TFTSerial.connected self = true
  /\ TFTSerial.connected self' = true
  /\ ~ In "010"%char (TFTSerial._read_buffer self').
Proof.
  unfold TFTSerial.read_line.
  destruct (TFTSerial.serial self) as [p|]; [|discriminate].
  destruct (TFTSerial.connected self) eqn:Hc; [|discriminate].
  cbn [negb].
  destruct (TFTSerial.poll p) as [[|data|e] p']; [discriminate | |].
  - cbn [TFTSerial._read_buffer TFTSerial.set_serial].
    unfold TFTSerial.extract.
    destruct (Py.contains _ _); [|discriminate].
    cbv zeta.
    match goal with
    | |- context [Py.split "010" ?b] => set (lines := Py.split "010" b)
    end.
    pose proof (split_head_no_sep "010"
                  (TFTSerial._read_buffer self ++ data)) as Hhd.
    pose proof (split_last_no_sep "010"
                  (TFTSerial._read_buffer self ++ data)) as Hlast.
    fold lines in Hhd, Hlast.
    destruct (Py.strip (hd [] lines)) as [|c first] eqn:Es; [discriminate|].
    intros [= <- <-]. rewrite <- Es.
    split; [rewrite Es; discriminate|].
    split.
    + assert (H : Forall (fun c => c <> "010"%char) (Py.strip (hd [] lines))).
      { apply strip_Forall. apply Forall_forall. intros x Hx ->. exact (Hhd Hx). }
      intros Hin. rewrite Forall_forall in H. exact (H _ Hin eq_refl).
    + split; [apply strip_idem|]. split; [reflexivity|].
      split; [exact Hc | exact Hlast].
  - destruct e; discriminate.
Qed.

Lemma read_line_line_shape_witness :
  let line : str := "M105" in
  let self' := snd (TFTSerial.read_line
                      (TFTSerial.fed [ "  M105 " ++ ["010"%char] ++ "G2" ])) in
  line <> []
  /\ ~ In "010"%char line
  /\ Py.strip line = line
  /\ TFTSerial.connected
       (TFTSerial.fed [ "  M105 " ++ ["010"%char] ++ "G2" ]) = true
  /\ TFTSerial.connected self' = true
  /\ ~ In "010"%char (TFTSerial._read_buffer self').
Proof.
  exact (read_line_line_shape
           (TFTSerial.fed [ "  M105 " ++ ["010"%char] ++ "G2" ]) _ "M105"
           eq_refl).
Defined.

(** X17.  [write_line] never raises and answers [True] exactly when the
    link is up and the port takes the write; the device then receives the
    first 1000 characters of the text and one terminator, and nothing
    otherwise.  The call never brings a link up, and the read buffer is
    not touched. *)
Theorem write_line_outcome (data : str) (link : TFTSerial.t) :
  let link' := snd (TFTSerial.write_line data link) in
  fst (TFTSerial.write_line data link) = Ok (link_accepts link)
  /\ wire_of link'
     = (if link_accepts link
        then wire_of link ++ Py.prefix 1000 data ++ ["010"%char]
        else wire_of link)
  /\ (TFTSerial.connected link' = true -> TFTSerial.connected link = true)
  /\ TFTSerial._read_buffer link' = TFTSerial._read_buffer link.
Proof.
  cbv zeta. destruct link as [[p|] up buffer calls].
  - unfold TFTSerial.write_line, wire_of, link_accepts.
    cbn [TFTSerial.serial TFTSerial.connected TFTSerial.log_write_call].
    destruct up; cbn [negb andb]; [|simpl; auto].
    assert (Hp : (if 1000 <? Py.len data then Py.prefix 1000 data else data)
                 = Py.prefix 1000 data).
    { destruct (1000 <? Py.len data) eqn:E; [reflexivity|].
      apply Nat.ltb_ge in E. unfold Py.prefix, Py.len in *.
      symmetry. apply firstn_all2. exact E. }
    cbv zeta. rewrite Hp. unfold TFTSerial.transmit.
    destruct (TFTSerial.tx_oracle p (TFTSerial.tx_count p)) as [|e].
    + simpl. auto.
    + destruct e; simpl; auto.
  - simpl. auto.
Qed.

(** ** TFTMoonrakerBridge.process_gcode: the replies *)

Lemma try_body_link (config : BridgeConfig) (op : MoonrakerClient.operation)
      (w : world) :
  tft (snd (MoonrakerClient.try_body config op w)) = tft w.
Proof.
  pose proof (fun m e d => proj1 (proj1 (make_request_frame config m e d w)))
    as Hreq.
  destruct op as [gcode| | |filename| | |]; simpl;
    unfold MoonrakerClient.send_gcode_try,
      MoonrakerClient.get_printer_status_try,
      MoonrakerClient.get_printer_info_try,
      MoonrakerClient.start_print_try, MoonrakerClient.pause_print_try,
      MoonrakerClient.resume_print_try, MoonrakerClient.cancel_print_try;
    cbv zeta; try apply Hreq.
  - destruct (SecurityValidator.sanitize_gcode gcode); [reflexivity|].
    destruct (test_mode config); [reflexivity | apply Hreq].
  - destruct (test_mode config); [reflexivity | apply Hreq].
  - destruct (negb _); [reflexivity | apply Hreq].
Qed.

Lemma perform_link (config : BridgeConfig) (op : MoonrakerClient.operation)
      (w : world) :
  exists v w1,
    MoonrakerClient.perform config op w = (Ok v, w1)
    /\ tft w1 = tft w.
Proof.
  rewrite perform_try_body.
  destruct (try_as_error (MoonrakerClient.try_body config op) w)
    as (v & w1 & E & H).
  exists v, w1. split; [exact E|].
  pose proof (try_body_link config op w) as Hl.
  destruct (MoonrakerClient.try_body config op w) as [[v0|e] w2];
    destruct H as [_ ->]; exact Hl.
Qed.

Lemma written_calls (replies : list str) (link : TFTSerial.t) :
  TFTSerial.write_calls (written replies link)
  = TFTSerial.write_calls link ++ replies.
Proof.
  revert link. induction replies as [|r replies IH]; intros link; simpl.
  - rewrite app_nil_r. reflexivity.
  - unfold written in IH. rewrite IH, write_line_logged, <- app_assoc.
    reflexivity.
Qed.

Section Replies.

Variable config : BridgeConfig.
Variable format_1f : json -> result str.
Variable repr : json -> str.

Lemma temperature_line_ok (status : json) (line : str) :
  TFTMoonrakerBridge.temperature_line format_1f status = Ok line ->
  Py.startswith "ok" line = true.
Proof.
  unfold TFTMoonrakerBridge.temperature_line, Json.rbind.
  repeat match goal with
         | |- context [match ?x with _ => _ end] =>
             lazymatch x with
             | context [match _ with _ => _ end] => fail
             | _ => destruct x
             end
         end;
    try discriminate; intros [= <-]; reflexivity.
Qed.

(** One call of the bridge's [write_line], on the state. *)
Lemma write_then_done (data : str) (w : world) :
  (TFTMoonrakerBridge.write_line data ;;; Eff.ret tt) w
  = (Ok tt, World.set_tft w (written [data] (tft w))).
Proof.
  unfold Eff.bind. destruct (bridge_write_line data w) as [b ->].
  reflexivity.
Qed.

Lemma handle_m105_reply (w : world) :
  exists reply w',
    TFTMoonrakerBridge.handle_m105 config format_1f w = (Ok tt, w')
    /\ tft w' = written [reply] (tft w)
    /\ Py.startswith "ok" reply = true.
Proof.
  unfold TFTMoonrakerBridge.handle_m105, Eff.try_except.
  unfold Eff.bind at 1.
  destruct (perform_link config MoonrakerClient.GetPrinterStatus w)
    as (status & w1 & E & Hl).
  cbn [MoonrakerClient.perform] in E. rewrite E.
  unfold Eff.bind at 1. unfold World.eval.
  destruct (TFTMoonrakerBridge.temperature_line format_1f status)
    as [line|e] eqn:Et.
  - rewrite write_then_done. exists line. eexists. split; [reflexivity|].
    simpl. rewrite Hl. split; [reflexivity|].
    eapply temperature_line_ok. exact Et.
  - rewrite write_then_done. eexists _, _. split; [reflexivity|].
    simpl. rewrite Hl. split; reflexivity.
Qed.

Lemma forward_reply (translated : str) (w : world) :
  exists reply w',
    TFTMoonrakerBridge.forward config repr translated w = (Ok tt, w')
    /\ tft w' = written [reply] (tft w)
    /\ is_reply reply = true.
Proof.
  unfold TFTMoonrakerBridge.forward, Eff.try_except.
  unfold Eff.bind at 1.
  destruct (perform_link config (MoonrakerClient.SendGcode translated) w)
    as (response & w1 & E & Hl).
  cbn [MoonrakerClient.perform] in E. rewrite E.
  unfold Eff.bind at 1. unfold World.eval.
  destruct (Json.contains "error" response) as [[|]|e].
  - unfold Eff.bind at 1.
    destruct (Json.getitem response "error") as [message|e];
      rewrite write_then_done; eexists _, _; (split; [reflexivity|]);
      simpl; rewrite Hl; split; reflexivity.
  - rewrite write_then_done. eexists _, _. split; [reflexivity|].
    simpl. rewrite Hl. split; reflexivity.
  - rewrite write_then_done. eexists _, _. split; [reflexivity|].
    simpl. rewrite Hl. split; reflexivity.
Qed.

Lemma handle_m115_reply (w : world) :
  TFTMoonrakerBridge.handle_m115 w
  = (Ok tt, World.set_tft w (written [firmware_line; ("ok" : str)] (tft w))).
Proof.
  unfold TFTMoonrakerBridge.handle_m115, Eff.try_except. cbv zeta.
  unfold Eff.bind at 1.
  destruct (bridge_write_line
              ("FIRMWARE_NAME:Klipper FIRMWARE_VERSION:v0.11.0 PROTOCOL_VERSION:1.0 MACHINE_TYPE:TFT_Bridge BRIDGE_VERSION:"
               ++ __version__) w) as [b ->].
  rewrite write_then_done. reflexivity.
Qed.

Lemma dispatch_replies (gcode : str) (w : world) :
  exists replies w',
    TFTMoonrakerBridge.dispatch config format_1f repr gcode w = (Ok tt, w')
    /\ tft w' = written replies (tft w)
    /\ match Py.strip gcode with
       | [] => replies = []
       | (_ :: _) as command =>
           if Py.startswith "M115" (Py.upper command)
           then replies = [firmware_line; ("ok" : str)]
           else exists reply, replies = [reply] /\ is_reply reply = true
       end.
Proof.
  unfold TFTMoonrakerBridge.dispatch. cbv zeta.
  destruct (Py.strip gcode) as [|c g].
  - exists [], w. repeat split.
  - cbv beta iota.
    destruct (Py.startswith "M115" (Py.upper (c :: g))).
    + unfold Eff.bind at 1.
      assert (H : exists w0,
                 (if test_mode config then MoonrakerClient.log_command
                  else Eff.ret tt) w = (Ok tt, w0) /\ tft w0 = tft w).
      { destruct (test_mode config); eexists; split; reflexivity. }
      destruct H as (w0 & -> & H0).
      rewrite handle_m115_reply. eexists _, _. split; [reflexivity|].
      cbn [tft World.set_tft]. rewrite H0. split; reflexivity.
    + destruct (Py.startswith "M105" (Py.upper (c :: g))).
      * unfold Eff.bind at 1.
        assert (H : exists w0,
                   (if test_mode config then MoonrakerClient.log_command
                    else Eff.ret tt) w = (Ok tt, w0) /\ tft w0 = tft w).
        { destruct (test_mode config); eexists; split; reflexivity. }
        destruct H as (w0 & -> & H0).
        destruct (handle_m105_reply w0) as (reply & w' & E & Hl & Hr).
        exists [reply], w'. split; [exact E|]. rewrite Hl, H0.
        split; [reflexivity|]. exists reply. split; [reflexivity|].
        unfold is_reply. rewrite Hr. reflexivity.
      * unfold Eff.bind at 1.
        destruct (translate_gcode_spec config (c :: g) w) as (w1 & E & Ht & _).
        rewrite E.
        destruct (translation_of (available_macros w1) (c :: g))
          as [[|c' command]|].
        -- rewrite write_then_done. eexists [_], _. split; [reflexivity|].
           simpl. rewrite Ht. split; [reflexivity|].
           eexists. split; reflexivity.
        -- destruct (forward_reply (c' :: command) w1)
             as (reply & w' & E' & Hl & Hr).
           exists [reply], w'. split; [exact E'|]. rewrite Hl, Ht.
           split; [reflexivity|]. exists reply. split; [reflexivity | exact Hr].
        -- rewrite write_then_done. eexists [_], _. split; [reflexivity|].
           simpl. rewrite Ht. split; [reflexivity|].
           eexists. split; reflexivity.
Qed.

(** X18.  One reply for every command.  [process_gcode] calls the link's
    [write_line] for nothing but replies: not at all for a blank line,
    twice for a command that starts with [M115] (the firmware line, then
    [ok]), and for every other command exactly once, with a text that
    starts with [ok] or with the error mark.  The link is touched in no
    other way. *)
Theorem process_gcode_replies (gcode : str) (w : world) :
  let w' := snd (TFTMoonrakerBridge.process_gcode config format_1f repr
                   gcode w) in
  exists replies,
    tft w' = written replies (tft w)
    /\ TFTSerial.write_calls (tft w')
       = TFTSerial.write_calls (tft w) ++ replies
    /\ match Py.strip gcode with
       | [] => replies = []
       | (_ :: _) as command =>
           if Py.startswith "M115" (Py.upper command)
           then replies = [firmware_line; ("ok" : str)]
           else exists reply, replies = [reply] /\ is_reply reply = true
       end.
Proof.
  cbv zeta. unfold TFTMoonrakerBridge.process_gcode.
  destruct (dispatch_replies gcode w) as (replies & w1 & E & Hl & Hshape).
  destruct (guarded_spec
              (TFTMoonrakerBridge.dispatch config format_1f repr gcode) w)
    as (w' & Eg & Hok & _).
  rewrite Eg. rewrite (Hok _ E). cbn [snd].
  exists replies. split; [exact Hl|]. split; [|exact Hshape].
  rewrite Hl. apply written_calls.
Qed.

End Replies.

(** ** The HTTP traffic of the bridge *)

Lemma traffic_step_refl (config : BridgeConfig) (w : world) :
  traffic_step config w w.
Proof. exists []. rewrite app_nil_r. split; [reflexivity | constructor]. Qed.

Lemma traffic_step_trans (config : BridgeConfig) (a b c : world) :
  traffic_step config a b -> traffic_step config b c -> traffic_step config a c.
Proof.
  intros (l1 & E1 & H1) (l2 & E2 & H2). exists (l1 ++ l2).
  rewrite E2, E1, app_assoc. split; [reflexivity|].
  apply Forall_app. split; assumption.
Qed.

Lemma traffic_step_same (config : BridgeConfig) (w w' : world) :
  http_log w' = http_log w -> traffic_step config w w'.
Proof.
  intros E. exists []. rewrite app_nil_r. split; [exact E | constructor].
Qed.

Lemma keeps_traffic_make_request (config : BridgeConfig)
      (method endpoint : str) (data : option json) :
  bridge_traffic config (attempt_entry method endpoint data) ->
  keeps (traffic_step config)
        (MoonrakerClient._make_request config method endpoint data).
Proof.
  intros Hok w.
  destruct (make_request_attempts_bounded_aux config method endpoint data w)
    as (l & Hl & Hall).
  exists l. split; [exact Hl|].
  eapply Forall_impl; [|exact Hall]. intros entry <-. exact Hok.
Qed.

Lemma keeps_traffic_on_tft (config : BridgeConfig) {A} (m : M TFTSerial.t A) :
  keeps (traffic_step config) (World.on_tft m).
Proof.
  intros w. unfold World.on_tft. destruct (m (tft w)) as [r t'].
  apply traffic_step_same. reflexivity.
Qed.

Lemma keeps_traffic_log_command (config : BridgeConfig) :
  keeps (traffic_step config) MoonrakerClient.log_command.
Proof. intros w. apply traffic_step_same. reflexivity. Qed.

Lemma keeps_traffic_eval (config : BridgeConfig) {A} (r : result A) :
  keeps (traffic_step config) (World.eval r).
Proof. intros w. apply traffic_step_refl. Qed.

Ltac keeps_traffic_tac config :=
  repeat lazymatch goal with
    | |- keeps _ (Eff.ret _) =>
        apply (keeps_ret (traffic_step config) (traffic_step_refl config))
    | |- keeps _ (Eff.raise _) =>
        apply (keeps_raise (traffic_step config) (traffic_step_refl config))
    | |- keeps _ Eff.get =>
        apply (keeps_get (traffic_step config) (traffic_step_refl config))
    | |- keeps _ (Eff.bind _ _) =>
        apply (keeps_bind (traffic_step config) (traffic_step_trans config));
        [|intros]
    | |- keeps _ (Eff.try_except _ _) =>
        apply (keeps_try_except (traffic_step config)
                 (traffic_step_trans config)); [|intros]
    | |- keeps _ (Eff.try_finally _ _) =>
        apply (keeps_try_finally (traffic_step config)
                 (traffic_step_trans config))
    | |- keeps _ (World.on_tft _) => apply keeps_traffic_on_tft
    | |- keeps _ (TFTMoonrakerBridge.write_line _) =>
        apply keeps_traffic_on_tft
    | |- keeps _ (World.eval _) => apply keeps_traffic_eval
    | |- keeps _ MoonrakerClient.log_command =>
        apply keeps_traffic_log_command
    | |- keeps _ (MoonrakerClient.as_error _) =>
        apply (keeps_ret (traffic_step config) (traffic_step_refl config))
    | |- keeps _ (if ?b then _ else _) => destruct b eqn:?
    | |- keeps _ (match ?x with _ => _ end) => destruct x eqn:?
    end.

Lemma keeps_traffic_check (config : BridgeConfig) :
  keeps (traffic_step config) (GCodeTranslator.check_available_macros config).
Proof.
  intros w. unfold GCodeTranslator.check_available_macros.
  destruct (macros_checked w); [apply traffic_step_refl|].
  refine (keeps_try_finally (traffic_step config) (traffic_step_trans config)
            _ _ _ _ w).
  - keeps_traffic_tac config;
      first [ apply keeps_traffic_make_request; left; reflexivity
            | intros w1; apply traffic_step_same; reflexivity ].
  - intros w1. apply traffic_step_same. reflexivity.
Qed.

Lemma keeps_traffic_translate (config : BridgeConfig) (gcode : str) :
  keeps (traffic_step config) (GCodeTranslator.translate_gcode config gcode).
Proof.
  unfold GCodeTranslator.translate_gcode. cbv zeta.
  keeps_traffic_tac config; apply keeps_traffic_check.
Qed.

Lemma keeps_traffic_send_gcode (config : BridgeConfig) (gcode : str) :
  keeps (traffic_step config) (MoonrakerClient.send_gcode config gcode).
Proof.
  unfold MoonrakerClient.send_gcode, MoonrakerClient.send_gcode_try.
  cbv zeta.
  pose proof (sanitize_gcode_length gcode) as Hlen.
  pose proof (sanitize_gcode_kept gcode) as Hkept.
  keeps_traffic_tac config.
  apply keeps_traffic_make_request. right. split; [assumption|]. right.
  eexists. split; [reflexivity|].
  split; [discriminate|]. split; [exact Hlen|].
  eapply Forall_impl; [|exact Hkept].
  intros x Hx. rewrite <- kept_allow_list. exact Hx.
Qed.

Lemma keeps_traffic_status (config : BridgeConfig) :
  keeps (traffic_step config) (MoonrakerClient.get_printer_status config).
Proof.
  unfold MoonrakerClient.get_printer_status,
    MoonrakerClient.get_printer_status_try.
  keeps_traffic_tac config.
  apply keeps_traffic_make_request. right. split; [assumption|]. left.
  reflexivity.
Qed.

Lemma keeps_traffic_run_turns (config : BridgeConfig)
      (format_1f : json -> result str) (repr : json -> str)
      (turns : list TFTMoonrakerBridge.turn) :
  keeps (traffic_step config)
        (TFTMoonrakerBridge.run_turns config format_1f repr turns).
Proof.
  assert (H105 : keeps (traffic_step config)
                   (TFTMoonrakerBridge.handle_m105 config format_1f)).
  { unfold TFTMoonrakerBridge.handle_m105.
    keeps_traffic_tac config. apply keeps_traffic_status. }
  induction turns as [|[|] turns IH]; cbn [TFTMoonrakerBridge.run_turns];
    keeps_traffic_tac config; try exact IH.
  - unfold TFTMoonrakerBridge.main_iteration,
      TFTMoonrakerBridge.process_gcode, TFTMoonrakerBridge.guarded,
      TFTMoonrakerBridge.guarded_by, TFTMoonrakerBridge.dispatch,
      TFTMoonrakerBridge.handle_m115, TFTMoonrakerBridge.forward.
    cbv zeta.
    keeps_traffic_tac config;
      first [ exact H105
            | apply keeps_traffic_translate
            | apply keeps_traffic_send_gcode ].
  - unfold TFTMoonrakerBridge.periodic_update.
    keeps_traffic_tac config. exact H105.
Qed.

(** [start] returns, and what it adds to the log are queries of
    [/printer/info]. *)
Lemma start_entries (config : BridgeConfig) (w : world) :
  exists w1 infos,
    MoonrakerClient.start config w = (Ok tt, w1)
    /\ http_log w1 = http_log w ++ infos
    /\ Forall (eq info_entry) infos
    /\ List.length infos <= Z.to_nat (max_retries config).
Proof.
  unfold MoonrakerClient.start, Eff.try_except, Eff.bind.
  change (MoonrakerClient.get_printer_info config)
    with (MoonrakerClient.perform config MoonrakerClient.GetPrinterInfo).
  rewrite perform_try_body.
  destruct (try_as_error
              (MoonrakerClient.try_body config MoonrakerClient.GetPrinterInfo) w)
    as (v & w1 & E & H).
  rewrite E. cbn [MoonrakerClient.try_body] in H.
  unfold MoonrakerClient.get_printer_info_try in H.
  destruct (make_request_entries config "GET" "/printer/info" None w)
    as (l & Hl & Hn & Hall).
  exists w1, l. split; [reflexivity|].
  destruct (MoonrakerClient._make_request config "GET" "/printer/info" None w)
    as [[v0|e] w2]; destruct H as [_ ->]; simpl in Hl;
    (split; [exact Hl|]); (split; [exact Hall | exact Hn]).
Qed.

(** X19.  Whatever the display sends and however the turns of the main
    loop and of the periodic report fall, [run] returns, and the requests
    that it sends through the client are these: first the queries of
    [/printer/info] that [start] makes, at most [max_retries] of them and
    in test mode too; then, from the loops, nothing but the query of the
    configuration, the query of the status and the post of a script that is
    not empty, has at most 1000 characters and only characters of the
    allow-list, and in test mode the query of the configuration alone.  No
    print is ever started, paused, resumed or cancelled from the display. *)
Theorem run_traffic (config : BridgeConfig)
        (format_1f : json -> result str) (repr : json -> str)
        (turns : list TFTMoonrakerBridge.turn) (w : world) :
  exists w' infos rest,
    TFTMoonrakerBridge.run config format_1f repr turns w = (Ok true, w')
    /\ http_log w' = http_log w ++ infos ++ rest
    /\ Forall (eq info_entry) infos
    /\ List.length infos <= Z.to_nat (max_retries config)
    /\ Forall (bridge_traffic config) rest.
Proof.
  destruct (start_entries config w) as (w1 & infos & Es & Hl & Hinfo & Hn).
  pose proof (keeps_traffic_run_turns config format_1f repr turns w1)
    as (rest & Hr & Hrest).
  unfold TFTMoonrakerBridge.run, Eff.try_except at 1.
  unfold Eff.bind at 1. rewrite Es.
  unfold Eff.bind at 1. unfold Eff.try_finally, Eff.try_except at 1.
  destruct (TFTMoonrakerBridge.run_turns config format_1f repr turns w1)
    as [[[]|e] w2]; cbn [snd] in Hr;
    unfold TFTMoonrakerBridge.cleanup, Eff.try_except, Eff.modify, Eff.ret;
    cbv beta iota;
    eexists _, infos, rest; (split; [reflexivity|]);
    cbn [http_log World.set_tft]; rewrite Hr, Hl, <- app_assoc;
    repeat split; assumption.
Qed.

(** ** From the display to the host and back *)

Lemma make_request_answered (config : BridgeConfig) (method endpoint : str)
      (data : option json) (body : json) (w : world) :
  supported method = true ->
  url_forms config w endpoint ->
  (0 < max_retries config)%Z ->
  http_oracle w (List.length (http_log w)) = Responds body ->
  exists w',
    MoonrakerClient._make_request config method endpoint data w
    = (Ok body, w')
    /\ http_log w' = http_log w ++ [attempt_entry method endpoint data]
    /\ tft w' = tft w.
Proof.
  intros Hverb [url Hurl] Hn Hok.
  pose proof (make_request_frame config method endpoint data w) as Hf.
  cbv zeta in Hf. destruct Hf as ((Ht & _) & _). revert Ht.
  destruct (make_request_unfold config method endpoint data w)
    as (q & c & _ & ->).
  rewrite Hurl.
  destruct (Z.to_nat (max_retries config)) as [|left] eqn:En; [lia|].
  rewrite attempts_step. cbv zeta. unfold supported in Hverb. rewrite Hverb.
  cbn [http_oracle http_log World.set_request_log World.set_clock
         World.set_rate_requests].
  rewrite Hok. intros Ht. eexists. split; [reflexivity|].
  split; [reflexivity | exact Ht].
Qed.

Lemma translate_gcode_checked (config : BridgeConfig) (gcode : str) (w : world) :
  macros_checked w = true ->
  GCodeTranslator.translate_gcode config gcode w
  = (Ok (translation_of (available_macros w) gcode), w).
Proof.
  intros Hc. unfold GCodeTranslator.translate_gcode, translation_of.
  destruct gcode as [|c g]; [reflexivity|].
  destruct (Py.strip (c :: g)) as [|c' g'] eqn:Es; [reflexivity|].
  cbv zeta. unfold Eff.bind, Eff.get, GCodeTranslator.check_available_macros.
  rewrite Hc.
  destruct (Py.eqs (Py.upper (c' :: g')) "M701");
    [destruct (GCodeTranslator.known _ _); reflexivity|].
  destruct (Py.eqs (Py.upper (c' :: g')) "M702");
    [destruct (GCodeTranslator.known _ _); reflexivity|].
  destruct (GCodeTranslator.scan _ _); [reflexivity|].
  destruct (GCodeTranslator.passes _ _); [reflexivity|].
  destruct (Py.startswith "M115" _); [reflexivity|].
  destruct (Py.startswith "M105" _); reflexivity.
Qed.

(** X20.  From the display to the host and back.  Outside test mode, with
    the registry loaded and a host that answers with a JSON object, a
    command that is not one of the two local queries and has a translation
    that is not sanitized away leads to exactly one HTTP attempt, the post
    of the whole sanitized translation, and to exactly one reply: the error
    of the host behind the error mark when its answer has one, and [ok]
    otherwise.  That is so whenever [urljoin] forms the URL; when it raises
    instead there is no attempt, and the one reply is its error behind the
    error mark. *)
Theorem process_gcode_end_to_end (config : BridgeConfig)
        (format_1f : json -> result str) (repr : json -> str)
        (gcode translated : str) (body : list (str * json)) (w : world) :
  test_mode config = false ->
  (0 < max_retries config)%Z ->
  macros_checked w = true ->
  Py.startswith "M115" (Py.upper (Py.strip gcode)) = false ->
  Py.startswith "M105" (Py.upper (Py.strip gcode)) = false ->
  translation_of (available_macros w) (Py.strip gcode) = Some translated ->
  SecurityValidator.sanitize_gcode translated <> [] ->
  http_oracle w (List.length (http_log w)) = Responds (JDict body) ->
  let w' := snd (TFTMoonrakerBridge.process_gcode config format_1f repr
                   gcode w) in
  match urljoin w (MoonrakerClient.base_url config) "/printer/gcode/script" with
  | Ok _ =>
      http_log w'
      = http_log w
        ++ [script_entry (SecurityValidator.sanitize_gcode translated)]
      /\ tft w' = written [reply_to repr body] (tft w)
  | Raise e =>
      http_log w' = http_log w
      /\ tft w' = written ["!! " ++ exn_str e] (tft w)
  end.
Proof.
  intros Htest Hn Hc H115 H105 Htr Hsan Hok. cbv zeta.
  assert (Hd : exists w1,
             TFTMoonrakerBridge.dispatch config format_1f repr gcode w
             = (Ok tt, w1)
             /\ match urljoin w (MoonrakerClient.base_url config)
                        "/printer/gcode/script" with
                | Ok _ =>
                    http_log w1
                    = http_log w
                      ++ [script_entry
                            (SecurityValidator.sanitize_gcode translated)]
                    /\ tft w1 = written [reply_to repr body] (tft w)
                | Raise e =>
                    http_log w1 = http_log w
                    /\ tft w1 = written ["!! " ++ exn_str e] (tft w)
                end).
  { unfold TFTMoonrakerBridge.dispatch. cbv zeta.
    destruct (Py.strip gcode) as [|c g] eqn:Es; [discriminate Htr|].
    cbv beta iota. rewrite H115, H105.
    unfold Eff.bind at 1.
    rewrite (translate_gcode_checked config (c :: g) w Hc), Htr.
    assert (Hne : translated <> []).
    { intros ->. apply Hsan. reflexivity. }
    destruct translated as [|t0 ts]; [congruence|].
    unfold TFTMoonrakerBridge.forward, Eff.try_except.
    unfold Eff.bind at 1.
    unfold MoonrakerClient.send_gcode, Eff.try_except,
      MoonrakerClient.send_gcode_try. cbv zeta.
    destruct (SecurityValidator.sanitize_gcode (t0 :: ts)) as [|s0 ss] eqn:E;
      [congruence|].
    rewrite Htest.
    destruct (urljoin w (MoonrakerClient.base_url config)
                "/printer/gcode/script") as [url|e] eqn:Eu.
    - destruct (make_request_answered config "POST" "/printer/gcode/script"
                  (Some (JDict [("script" : str, JStr (s0 :: ss))]))
                  (JDict body) w eq_refl (ex_intro _ url Eu) Hn Hok)
        as (w1 & Ereq & Hlog & Hlink).
      rewrite Ereq.
      unfold Eff.bind at 1. unfold World.eval. cbn [Json.contains].
      unfold Json.has_key, reply_to.
      destruct (Json.lookup "error" body) as [message|] eqn:El.
      + unfold Eff.bind at 1. cbn [Json.getitem]. rewrite El.
        rewrite write_then_done. eexists. split; [reflexivity|].
        cbn [http_log tft World.set_tft]. rewrite Hlink.
        split; [exact Hlog | reflexivity].
      + rewrite write_then_done. eexists. split; [reflexivity|].
        cbn [http_log tft World.set_tft]. rewrite Hlink.
        split; [exact Hlog | reflexivity].
    - destruct (make_request_recorded config "POST" "/printer/gcode/script"
                  (Some (JDict [("script" : str, JStr (s0 :: ss))])) w)
        as (_ & ->).
      rewrite Eu.
      unfold MoonrakerClient.as_error, Eff.ret.
      unfold Eff.bind at 1. unfold World.eval. cbn [Json.contains Json.error].
      unfold Json.has_key. cbn [Json.lookup].
      match goal with
      | |- context [Py.eqs ?a ?b] => change (Py.eqs a b) with true
      end.
      cbv beta iota. unfold Eff.bind at 1.
      match goal with
      | |- context [Json.getitem ?a ?b] =>
          change (Json.getitem a b) with (Ok (A:=json) (JStr (exn_str e)))
      end.
      cbv beta iota.
      change (fun s1 : world => (Ok tt, s1)) with (@Eff.ret world unit tt).
      rewrite write_then_done. eexists. split; [reflexivity|].
      destruct (make_request_unfold config "POST" "/printer/gcode/script"
                  None w) as (q & c0 & Ea & _).
      unfold recorded. rewrite Ea.
      split; reflexivity. }
  destruct Hd as (w1 & Ed & Hd).
  unfold TFTMoonrakerBridge.process_gcode.
  destruct (guarded_spec
              (TFTMoonrakerBridge.dispatch config format_1f repr gcode) w)
    as (w' & Eg & Hsame & _).
  rewrite Eg. rewrite (Hsame _ Ed). cbn [snd]. exact Hd.
Qed.

Lemma process_gcode_end_to_end_witness :
  let w' := snd (TFTMoonrakerBridge.process_gcode retrying_config
                   (fun _ => Raise (TypeError "unsupported format string"))
                   (fun _ => []) " g29 " ready_host) in
  http_log w'
  = [script_entry (SecurityValidator.sanitize_gcode "BED_MESH_CALIBRATE")]
  /\ tft w' = written [reply_to (fun _ => []) [("result" : str, JStr "ok")]]
                      (tft ready_host).
Proof.
  refine (process_gcode_end_to_end retrying_config _ (fun _ => []) " g29 "
            "BED_MESH_CALIBRATE" [("result" : str, JStr "ok")] ready_host
            eq_refl _ eq_refl _ _ _ _ eq_refl).
  - simpl. lia.
  - vm_compute. reflexivity.
  - vm_compute. reflexivity.
  - vm_compute. reflexivity.
  - vm_compute. discriminate.
Defined.



(** ** M105 while the host is down *)

Lemma attempts_host_down (config : BridgeConfig) (method endpoint : str)
      (data : option json) (left : nat) :
  forall (attempt : Z) (w : world),
    host_down w ->
    match fst (MoonrakerClient.attempts config method endpoint data
                 left attempt w) with
    | Ok v => v = Json.error "Max retries exceeded"
    | Raise _ => True
    end.
Proof.
  induction left as [|left IH]; intros attempt w Hdown; [reflexivity|].
  rewrite attempts_step. cbv zeta.
  destruct (Py.eqs (Py.upper method) "GET" || Py.eqs (Py.upper method) "POST").
  - destruct (Hdown (List.length (http_log w))) as [e ->].
    destruct (MoonrakerClient.is_transient e && _); [|exact I].
    destruct (1024 <=? attempt)%Z; [exact I|].
    apply IH. exact Hdown.
  - apply IH. exact Hdown.
Qed.

Lemma make_request_host_down (config : BridgeConfig) (method endpoint : str)
      (data : option json) (w : world) :
  host_down w ->
  match fst (MoonrakerClient._make_request config method endpoint data w) with
  | Ok v => v = Json.error "Max retries exceeded"
  | Raise _ => True
  end.
Proof.
  intros Hdown.
  destruct (make_request_unfold config method endpoint data w)
    as (q & c & _ & ->).
  destruct (urljoin w (MoonrakerClient.base_url config) endpoint) as [url|e];
    [|exact I].
  apply attempts_host_down. exact Hdown.
Qed.

(** X22.  Outside test mode, while the host fails every attempt, [M105]
    is still answered: [handle_m105] returns and calls [write_line] once,
    with the line of zero temperatures. *)
Theorem handle_m105_host_down (config : BridgeConfig)
        (format_1f : json -> result str) (w : world) :
  test_mode config = false ->
  host_down w ->
  exists w',
    TFTMoonrakerBridge.handle_m105 config format_1f w = (Ok tt, w')
    /\ tft w' = written [TFTMoonrakerBridge.no_temperature] (tft w).
Proof.
  intros Htest Hdown.
  unfold TFTMoonrakerBridge.handle_m105, Eff.try_except.
  unfold Eff.bind at 1.
  assert (Hs : exists message w1,
             MoonrakerClient.get_printer_status config w
             = (Ok (Json.error message), w1) /\ tft w1 = tft w).
  { unfold MoonrakerClient.get_printer_status, Eff.try_except,
      MoonrakerClient.get_printer_status_try. rewrite Htest.
    pose proof (make_request_host_down config "GET"
      "/printer/objects/query?extruder&heater_bed&fan&toolhead&print_stats"
      None w Hdown) as Hv.
    pose proof (make_request_frame config "GET"
      "/printer/objects/query?extruder&heater_bed&fan&toolhead&print_stats"
      None w) as Hf.
    cbv zeta in Hf. destruct Hf as ((Ht & _) & _).
    destruct (MoonrakerClient._make_request _ _ _ _ w) as [[v|e] w1];
      cbn [fst snd] in *.
    - subst v. eauto.
    - unfold MoonrakerClient.as_error, Eff.ret. eauto. }
  destruct Hs as (message & w1 & -> & Hl).
  unfold Eff.bind at 1. unfold World.eval.
  change (TFTMoonrakerBridge.temperature_line format_1f (Json.error message))
    with (Ok (A := str) TFTMoonrakerBridge.no_temperature).
  cbv beta iota. rewrite write_then_done. eexists. split; [reflexivity|].
  cbn [tft World.set_tft]. rewrite Hl. reflexivity.
Qed.

Lemma handle_m105_host_down_witness :
  exists w',
    TFTMoonrakerBridge.handle_m105 retrying_config
      (fun _ => Raise (TypeError "unsupported format string"))
      unreachable_host = (Ok tt, w')
    /\ tft w' = written [TFTMoonrakerBridge.no_temperature]
                        (tft unreachable_host).
Proof.
  apply (handle_m105_host_down retrying_config).
  - reflexivity.
  - intros k. eexists. reflexivity.
Defined.

(** ** BridgeConfig.validate *)

Example validate_baud_rate_message :
  BridgeConfig.validate
    (mkConfig "/dev/ttyS0" 12345 "localhost" 7125 "INFO" (5 * second) 5 second
              false false)
  = Raise (ValueError "Invalid baud rate: 12345. Must be one of [9600, 19200, 38400, 57600, 115200, 230400, 250000, 460800, 921600]").
Proof. vm_compute. reflexivity. Qed.

Lemma existsb_eqb_In (x : Z) (l : list Z) :
  existsb (Z.eqb x) l = true <-> In x l.
Proof.
  rewrite existsb_exists. split.
  - intros (y & Hy & E). apply Z.eqb_eq in E. subst. exact Hy.
  - intros H. exists x. split; [exact H | apply Z.eqb_refl].
Qed.

Lemma le0_false (x : pyfloat) :
  PyFloat.le0 x = false -> x = NaN \/ PyFloat.positive x.
Proof.
  destruct x as [z| | |]; simpl; intros H; try discriminate; auto.
  right. apply Z.leb_gt in H. exact H.
Qed.

(** X23.  A configuration that [validate] lets through has a timeout
    that is NaN or above zero (the test [timeout <= 0] is false for NaN, so
    a timeout read from [nan] passes), a retry count and a retry delay that
    are not negative, and is a fixed point of [validate]; outside
    standalone mode it is the one that was given, with a port name and a
    host that are not empty, a baud rate of the list and a TCP port between
    1 and 65535. *)
Theorem validate_accepts_usable (c c' : BridgeConfig) :
  BridgeConfig.validate c = Ok c' ->
  usable c'
  /\ BridgeConfig.validate c' = Ok c'
  /\ (standalone_mode c = false -> c' = c /\ well_formed c).
Proof.
  unfold BridgeConfig.validate, usable, well_formed.
  destruct c as [port baud host tcp level tmo retries delay test standalone].
  cbn [standalone_mode serial_port baud_rate moonraker_host moonraker_port
         timeout max_retries retry_delay].
  destruct standalone.
  - unfold BridgeConfig.set_timeout, BridgeConfig.set_max_retries,
      BridgeConfig.set_retry_delay. simpl.
    destruct (PyFloat.le0 tmo) eqn:Et; simpl;
      destruct (retries <? 0)%Z eqn:Er; simpl;
      destruct (delay <? 0)%Z eqn:Ed;
      simpl; intros [= <-]; repeat (progress (simpl; rewrite ?Et, ?Er, ?Ed));
      try (apply le0_false in Et); try (apply Z.ltb_ge in Er);
      try (apply Z.ltb_ge in Ed); unfold time in *;
      (split; [unfold second; repeat split;
               first [ exact Et | right; simpl; lia | lia ]|]);
      (split; [reflexivity | discriminate]).
  - destruct port as [|p0 port]; [discriminate|].
    destruct (existsb (Z.eqb baud) BridgeConfig.valid_baud_rates) eqn:Eb;
      [|discriminate].
    cbn [negb].
    destruct host as [|h0 host]; [discriminate|].
    destruct ((1 <=? tcp)%Z && (tcp <=? 65535)%Z) eqn:Ep; [|discriminate].
    cbn [negb].
    destruct (PyFloat.le0 tmo) eqn:Et; [discriminate|].
    destruct (retries <? 0)%Z eqn:Er; [discriminate|].
    destruct (delay <? 0)%Z eqn:Ed; [discriminate|].
    intros [= <-].
    cbn [standalone_mode serial_port baud_rate moonraker_host moonraker_port
           timeout max_retries retry_delay].
    rewrite Eb, Ep, Et, Er, Ed. cbn [negb].
    apply le0_false in Et. apply Z.ltb_ge in Er. apply Z.ltb_ge in Ed.
    apply andb_true_iff in Ep. destruct Ep as [Ep1 Ep2].
    apply Z.leb_le in Ep1. apply Z.leb_le in Ep2.
    apply existsb_eqb_In in Eb.
    split; [repeat split; first [exact Et | lia]|]. split; [reflexivity|].
    intros _. split; [reflexivity|].
    split; [discriminate|]. split; [exact Eb|]. split; [discriminate | lia].
Qed.

Lemma validate_accepts_usable_witness :
  usable nan_config
  /\ BridgeConfig.validate nan_config = Ok nan_config
  /\ (standalone_mode nan_config = false ->
      nan_config = nan_config /\ well_formed nan_config).
Proof.
  exact (validate_accepts_usable nan_config nan_config eq_refl).
Defined.

(** X24.  In standalone mode [validate] never raises, whatever the
    fields: an empty port name, an unknown baud rate, an empty host and a
    TCP port out of range are let through as they are, and a timeout, a
    retry count or a retry delay that passes its test is kept. *)
Theorem validate_standalone (c : BridgeConfig) :
  standalone_mode c = true ->
  exists c',
    BridgeConfig.validate c = Ok c'
    /\ serial_port c' = serial_port c
    /\ baud_rate c' = baud_rate c
    /\ moonraker_host c' = moonraker_host c
    /\ moonraker_port c' = moonraker_port c
    /\ log_level c' = log_level c
    /\ test_mode c' = test_mode c
    /\ standalone_mode c' = true
    /\ (PyFloat.le0 (timeout c) = false -> timeout c' = timeout c)
    /\ ((0 <= max_retries c)%Z -> max_retries c' = max_retries c)
    /\ ((0 <= retry_delay c)%Z -> retry_delay c' = retry_delay c).
Proof.
  intros Hs. unfold BridgeConfig.validate. rewrite Hs. cbv zeta.
  destruct c as [port baud host tcp level tmo retries delay test standalone].
  cbn [standalone_mode] in Hs. subst standalone.
  unfold BridgeConfig.set_timeout, BridgeConfig.set_max_retries,
    BridgeConfig.set_retry_delay. simpl.
  destruct (PyFloat.le0 tmo) eqn:Et; simpl;
    destruct (retries <? 0)%Z eqn:Er; simpl;
    destruct (delay <? 0)%Z eqn:Ed; simpl;
    eexists; (split; [reflexivity|]); simpl;
    try (apply Z.ltb_lt in Er); try (apply Z.ltb_ge in Er);
    try (apply Z.ltb_lt in Ed); try (apply Z.ltb_ge in Ed);
    repeat split; intros; try reflexivity; try discriminate;
    unfold time in *; lia.
Qed.

Lemma validate_standalone_witness :
  exists c',
    BridgeConfig.validate careless_config = Ok c'
    /\ serial_port c' = serial_port careless_config
    /\ baud_rate c' = baud_rate careless_config
    /\ moonraker_host c' = moonraker_host careless_config
    /\ moonraker_port c' = moonraker_port careless_config
    /\ log_level c' = log_level careless_config
    /\ test_mode c' = test_mode careless_config
    /\ standalone_mode c' = true
    /\ (PyFloat.le0 (timeout careless_config) = false ->
        timeout c' = timeout careless_config)
    /\ ((0 <= max_retries careless_config)%Z ->
        max_retries c' = max_retries careless_config)
    /\ ((0 <= retry_delay careless_config)%Z ->
        retry_delay c' = retry_delay careless_config).
Proof.
  exact (validate_standalone careless_config eq_refl).
Defined.

(** ** A validated configuration and the clock *)

Lemma validate_retry_delay (c c' : BridgeConfig) :
  BridgeConfig.validate c = Ok c' -> (0 <= retry_delay c')%Z.
Proof.
  unfold BridgeConfig.validate.
  destruct c as [port baud host tcp level tmo retries delay test standalone].
  unfold BridgeConfig.set_timeout, BridgeConfig.set_max_retries,
    BridgeConfig.set_retry_delay. simpl.
  destruct standalone.
  - destruct (PyFloat.le0 tmo); simpl; destruct (retries <? 0)%Z; simpl;
      destruct (delay <? 0)%Z eqn:Ed; simpl; intros [= <-]; simpl;
      try (apply Z.ltb_ge in Ed); unfold second, time in *; lia.
  - destruct port; [discriminate|].
    destruct (negb _); [discriminate|].
    destruct host; [discriminate|].
    destruct (negb _); [discriminate|].
    destruct (PyFloat.le0 tmo); [discriminate|].
    destruct (retries <? 0)%Z; [discriminate|].
    destruct (delay <? 0)%Z eqn:Ed; [discriminate|].
    intros [= <-]. simpl. apply Z.ltb_ge in Ed. exact Ed.
Qed.

Lemma attempts_clock (config : BridgeConfig) (method endpoint : str)
      (data : option json) (left : nat) :
  forall (attempt : Z) (w : world),
    (clock w <= clock (snd (MoonrakerClient.attempts config method endpoint
                              data left attempt w)))%Z.
Proof.
  induction left as [|left IH]; intros attempt w.
  - simpl. lia.
  - rewrite attempts_step. cbv zeta.
    destruct (Py.eqs (Py.upper method) "GET" || Py.eqs (Py.upper method) "POST").
    + destruct (http_oracle w (List.length (http_log w))) as [body|e].
      * simpl. lia.
      * destruct (MoonrakerClient.is_transient e && _); [|simpl; lia].
        destruct (1024 <=? attempt)%Z; [simpl; lia|].
        cbn [clock World.set_clock World.set_http_log].
        match goal with
        | |- context [MoonrakerClient.attempts _ _ _ _ left ?a ?w2] =>
            specialize (IH a w2)
        end.
        cbn [clock World.set_clock World.set_http_log] in IH.
        unfold time in *. lia.
    + apply IH.
Qed.

(** X25.  With a configuration that [validate] let through, a request
    never sets the clock back: the backoff delays of [_make_request] are
    never negative, so that each sleep lasts as long as it was asked to. *)
Theorem validated_request_clock (c c' : BridgeConfig) (method endpoint : str)
        (data : option json) (w : world) :
  BridgeConfig.validate c = Ok c' ->
  (clock w
   <= clock (snd (MoonrakerClient._make_request c' method endpoint data w)))%Z.
Proof.
  intros Hv.
  destruct (make_request_recorded c' method endpoint data w) as (Hc & ->).
  destruct (urljoin w (MoonrakerClient.base_url c') endpoint) as [url|e];
    [|exact Hc].
  match goal with
  | |- context [MoonrakerClient.attempts ?cf ?m ?e ?d ?n ?a ?w0] =>
      pose proof (attempts_clock cf m e d n a w0) as H
  end.
  unfold time in *. lia.
Qed.

Lemma validated_request_clock_witness :
  (clock unreachable_host
   <= clock (snd (MoonrakerClient._make_request retrying_config "GET"
                    "/printer/info" None unreachable_host)))%Z.
Proof.
  exact (validated_request_clock retrying_config retrying_config "GET"
           "/printer/info" None unreachable_host eq_refl).
Defined.

(** ** ConnectionManager.connect_websocket *)

Lemma connect_attempts_step (config : BridgeConfig) (left : nat) (attempt : Z)
      (self : ConnectionManager.t) :
  ConnectionManager.connect_attempts config (S left) attempt self =
  let self1 := ConnectionManager.set_ws_count
                 (if negb (ConnectionManager.session_open self)
                  then ConnectionManager.set_session_open self true else self)
                 (S (ConnectionManager.ws_count self)) in
  match ConnectionManager.ws_oracle self (ConnectionManager.ws_count self) with
  | ConnectionManager.WsOpens =>
      (Ok true,
       ConnectionManager.set_connected
         (ConnectionManager.set_websocket_open self1 true) true)
  | ConnectionManager.WsFails _ =>
      if (attempt <? max_retries config - 1)%Z then
        if (1024 <=? attempt)%Z
        then (Raise (OverflowError "int too large to convert to float"), self1)
        else ConnectionManager.connect_attempts config left (attempt + 1)%Z
               (ConnectionManager.set_clock self1
                  (ConnectionManager.clock self1
                   + Z.max 0 (retry_delay config * 2 ^ attempt))%Z)
      else ConnectionManager.connect_attempts config left (attempt + 1)%Z self1
  end.
Proof.
  cbn [ConnectionManager.connect_attempts]. cbv zeta.
  unfold Eff.bind, Eff.get, ConnectionManager.create_session, Eff.modify,
    Eff.ret, ConnectionManager.ws_connect, ConnectionManager.sleep,
    ConnectionManager.eval, backoff.
  destruct self as [so wo co oracle n c]. simpl.
  destruct so; simpl; destruct (oracle n); try reflexivity;
    destruct (attempt <? max_retries config - 1)%Z; try reflexivity;
    destruct (1024 <=? attempt)%Z; reflexivity.
Qed.

Lemma connect_attempts_outcome (config : BridgeConfig) (left : nat) :
  forall (attempt : Z) (self : ConnectionManager.t),
  exists r self',
    ConnectionManager.connect_attempts config left attempt self = (r, self')
    /\ match r with
       | Ok b =>
           ConnectionManager.connected self' = b
           /\ (b = true -> ConnectionManager.session_open self' = true
                           /\ ConnectionManager.websocket_open self' = true)
       | Raise e =>
           e = OverflowError "int too large to convert to float"
           /\ (1026 <= max_retries config)%Z
       end
    /\ ConnectionManager.ws_count self <= ConnectionManager.ws_count self'
    /\ ConnectionManager.ws_count self'
       <= ConnectionManager.ws_count self + left
    /\ (ConnectionManager.clock self <= ConnectionManager.clock self')%Z.
Proof.
  induction left as [|left IH]; intros attempt self.
  - eexists _, _. split; [reflexivity|]. simpl.
    repeat split; try lia; try discriminate.
  - rewrite connect_attempts_step. cbv zeta.
    destruct (ConnectionManager.ws_oracle self (ConnectionManager.ws_count self))
      as [|e].
    + eexists _, _. split; [reflexivity|].
      destruct self as [so wo co oracle n c].
      destruct so; simpl; unfold time in *; repeat split; lia.
    + destruct (attempt <? max_retries config - 1)%Z eqn:Ea.
      * destruct (1024 <=? attempt)%Z eqn:Eo.
        -- eexists _, _. split; [reflexivity|].
           apply Z.ltb_lt in Ea. apply Z.leb_le in Eo.
           destruct self as [so wo co oracle n c].
           destruct so; simpl; unfold time in *; repeat split; lia.
        -- match goal with
           | |- context [ConnectionManager.connect_attempts _ left ?a ?s] =>
               destruct (IH a s) as (r & self' & E & Hr & Hlo & Hhi & Hck)
           end.
           exists r, self'. split; [exact E|]. split; [exact Hr|].
           destruct self as [so wo co oracle n c].
           destruct so; simpl in *; unfold time in *; repeat split; lia.
      * match goal with
        | |- context [ConnectionManager.connect_attempts _ left ?a ?s] =>
            destruct (IH a s) as (r & self' & E & Hr & Hlo & Hhi & Hck)
        end.
        exists r, self'. split; [exact E|]. split; [exact Hr|].
        destruct self as [so wo co oracle n c].
        destruct so; simpl in *; unfold time in *; repeat split; lia.
Qed.

(** X26.  With delays in the range of a float, [connect_websocket]
    either returns or raises [OverflowError], and it raises only with
    [max_retries] at 1026 or more, when the delay after a failure has no
    float: with a smaller [max_retries] it never raises.  When it returns, its answer is the value of [connected] that it
    leaves behind, and an answer [True] comes with an open session and an
    open websocket.  In every case it calls [ws_connect] at most
    [max_retries] times and never sets the clock back. *)
Theorem connect_websocket_outcome (config : BridgeConfig)
        (self : ConnectionManager.t) :
  delays_fit config ->
  exists r self',
    ConnectionManager.connect_websocket config self = (r, self')
    /\ match r with
       | Ok b =>
           ConnectionManager.connected self' = b
           /\ (b = true -> ConnectionManager.session_open self' = true
                           /\ ConnectionManager.websocket_open self' = true)
       | Raise e =>
           e = OverflowError "int too large to convert to float"
           /\ (1026 <= max_retries config)%Z
       end
    /\ ConnectionManager.ws_count self <= ConnectionManager.ws_count self'
    /\ (Z.of_nat (ConnectionManager.ws_count self')
        <= Z.of_nat (ConnectionManager.ws_count self)
           + Z.max 0 (max_retries config))%Z
    /\ (ConnectionManager.clock self <= ConnectionManager.clock self')%Z.
Proof.
  intros _. unfold ConnectionManager.connect_websocket.
  destruct (connect_attempts_outcome config (Z.to_nat (max_retries config))
              0%Z self)
    as (r & self' & E & Hr & Hlo & Hhi & Hck).
  exists r, self'. split; [exact E|]. split; [exact Hr|].
  split; [exact Hlo|]. split; [lia | exact Hck].
Qed.

Lemma connect_websocket_outcome_witness :
  let self :=
    fresh_manager (fun _ => ConnectionManager.WsFails
                              (ClientError "Cannot connect to host")) in
  exists r self',
    ConnectionManager.connect_websocket retrying_config self = (r, self')
    /\ match r with
       | Ok b =>
           ConnectionManager.connected self' = b
           /\ (b = true -> ConnectionManager.session_open self' = true
                           /\ ConnectionManager.websocket_open self' = true)
       | Raise e =>
           e = OverflowError "int too large to convert to float"
           /\ (1026 <= max_retries retrying_config)%Z
       end
    /\ ConnectionManager.ws_count self <= ConnectionManager.ws_count self'
    /\ (Z.of_nat (ConnectionManager.ws_count self')
        <= Z.of_nat (ConnectionManager.ws_count self)
           + Z.max 0 (max_retries retrying_config))%Z
    /\ (ConnectionManager.clock self <= ConnectionManager.clock self')%Z.
Proof.
  apply (connect_websocket_outcome retrying_config
           (fresh_manager (fun _ => ConnectionManager.WsFails
                                      (ClientError "Cannot connect to host")))).
  vm_compute. reflexivity.
Defined.

Lemma connect_attempts_gives_up (config : BridgeConfig) (left : nat) :
  (max_retries config <= 1025)%Z ->
  forall (attempt : Z) (self : ConnectionManager.t),
    ws_down self ->
    (0 <= attempt)%Z ->
    (attempt + Z.of_nat (S left) = max_retries config)%Z ->
    exists self',
      ConnectionManager.connect_attempts config (S left) attempt self
      = (Ok false, self')
      /\ ConnectionManager.connected self' = false
      /\ ConnectionManager.ws_count self'
         = ConnectionManager.ws_count self + S left
      /\ ConnectionManager.clock self'
         = (ConnectionManager.clock self
            + Z.max 0 (retry_delay config)
              * (2 ^ (max_retries config - 1) - 2 ^ attempt))%Z.
Proof.
  intros Hmax. induction left as [|left IH]; intros attempt self Hdown Ha Hsum;
    rewrite connect_attempts_step; cbv zeta;
    destruct (Hdown (ConnectionManager.ws_count self)) as [e ->].
  - assert (E : (attempt <? max_retries config - 1)%Z = false)
      by (apply Z.ltb_ge; lia).
    rewrite E. eexists. split; [reflexivity|].
    destruct self as [so wo co oracle n c].
    replace (max_retries config - 1)%Z with attempt by lia.
    destruct so; simpl; unfold time in *; repeat split; lia.
  - assert (E : (attempt <? max_retries config - 1)%Z = true)
      by (apply Z.ltb_lt; lia).
    assert (E2 : (1024 <=? attempt)%Z = false) by (apply Z.leb_gt; lia).
    rewrite E, E2.
    match goal with
    | |- context [ConnectionManager.connect_attempts _ (S left) ?a ?s] =>
        destruct (IH a s) as (self' & E' & Hc & Hn & Hck)
    end.
    + intros k. destruct (Hdown k) as [e' He'].
      exists e'. rewrite <- He'.
      destruct self as [so wo co oracle n c]. destruct so; reflexivity.
    + lia.
    + lia.
    + exists self'. split; [exact E'|]. split; [exact Hc|].
      rewrite Hn, Hck.
      assert (Hp : (2 ^ (attempt + 1) = 2 * 2 ^ attempt)%Z)
        by (rewrite Z.pow_add_r by lia; lia).
      rewrite (backoff_sleep _ _ Ha).
      destruct self as [so wo co oracle n c].
      destruct so; simpl; unfold time in *;
        (split; [lia|]); rewrite Hp; lia.
Qed.

(** X27.  When the websocket endpoint refuses every connection, with a
    retry count between 1 and 1025 and delays in the range of a float,
    [connect_websocket] answers [False] after exactly [max_retries] calls
    of [ws_connect], leaves [connected] at [False], and has slept the retry
    delay (or nothing, for a negative one) [2^(max_retries - 1) - 1] times
    over: there is no sleep after the last try. *)
Theorem connect_websocket_gives_up (config : BridgeConfig)
        (self : ConnectionManager.t) :
  ws_down self ->
  (0 < max_retries config <= 1025)%Z ->
  delays_fit config ->
  exists self',
    ConnectionManager.connect_websocket config self = (Ok false, self')
    /\ ConnectionManager.connected self' = false
    /\ Z.of_nat (ConnectionManager.ws_count self')
       = (Z.of_nat (ConnectionManager.ws_count self) + max_retries config)%Z
    /\ ConnectionManager.clock self'
       = (ConnectionManager.clock self
          + Z.max 0 (retry_delay config)
            * (2 ^ (max_retries config - 1) - 1))%Z.
Proof.
  intros Hdown Hn _. unfold ConnectionManager.connect_websocket.
  destruct (Z.to_nat (max_retries config)) as [|left] eqn:En; [lia|].
  destruct (connect_attempts_gives_up config left (proj2 Hn) 0%Z self Hdown)
    as (self' & E & Hc & Hcount & Hck); [lia | lia |].
  exists self'. split; [exact E|]. split; [exact Hc|].
  split; [lia|]. rewrite Hck. simpl. reflexivity.
Qed.

Lemma connect_websocket_gives_up_witness :
  exists self',
    ConnectionManager.connect_websocket retrying_config
      (fresh_manager (fun _ => ConnectionManager.WsFails
                                 (ClientError "Cannot connect to host")))
    = (Ok false, self')
    /\ ConnectionManager.connected self' = false
    /\ Z.of_nat (ConnectionManager.ws_count self') = (0 + 3)%Z
    /\ ConnectionManager.clock self'
       = (0 + Z.max 0 second * (2 ^ (3 - 1) - 1))%Z.
Proof.
  apply (connect_websocket_gives_up retrying_config
           (fresh_manager (fun _ => ConnectionManager.WsFails
                                      (ClientError "Cannot connect to host")))).
  - intros k. eexists. reflexivity.
  - vm_compute. split; [reflexivity | discriminate].
  - vm_compute. reflexivity.
Defined.

(** ** TFTSerial.connect *)

(** X28.  [connect] never raises and answers [True] exactly when the path
    exists and both opens go through; the link is then up on the new port.
    In every case the read buffer is left as it was, and after an answer
    [False] the port of the link is the one it had and the link is not
    up unless it was. *)
Theorem connect_outcome (config : BridgeConfig) (dev : device)
        (self : TFTSerial.t) :
  exists b self',
    connect config dev self = (Ok b, self')
    /\ TFTSerial._read_buffer self' = TFTSerial._read_buffer self
    /\ (b = true <->
        path_exists dev = true /\ probe dev = None
        /\ exists p, opening dev = inl p)
    /\ (b = true ->
        TFTSerial.connected self' = true
        /\ exists p, opening dev = inl p /\ TFTSerial.serial self' = Some p)
    /\ (b = false ->
        TFTSerial.serial self' = TFTSerial.serial self
        /\ (TFTSerial.connected self' = true ->
            TFTSerial.connected self = true)).
Proof.
  unfold connect. destruct dev as [there pr op]. simpl.
  destruct there; simpl.
  - destruct pr as [e|].
    + destruct e; eexists _, _; (split; [reflexivity|]); simpl;
        repeat split; try discriminate; try tauto;
        try (intros (_ & H & _); discriminate H).
    + destruct op as [p|e]; eexists _, _; (split; [reflexivity|]); simpl;
        repeat split; try discriminate; eauto.
      intros (_ & _ & p & H). discriminate H.
  - destruct (standalone_mode config); eexists _, _;
      (split; [reflexivity|]); simpl;
      repeat split; try discriminate; try tauto;
      try (intros (H & _); discriminate H).
Qed.

(** X29.  [connect] does not empty the read buffer: when a link that
    went down in the middle of a line comes up again, the first line read
    from the new port is the old fragment followed by the new text. *)
Theorem reconnect_keeps_fragment (config : BridgeConfig) (dev : device)
        (p : TFTSerial.port) (self : TFTSerial.t) (line rest : str)
        (more : list TFTSerial.rx) :
  path_exists dev = true ->
  probe dev = None ->
  opening dev = inl p ->
  TFTSerial.incoming p
  = TFTSerial.RxData (line ++ "010"%char :: rest) :: more ->
  ~ In "010"%char (TFTSerial._read_buffer self) ->
  ~ In "010"%char line ->
  ~ In "010"%char rest ->
  Py.strip (TFTSerial._read_buffer self ++ line) <> [] ->
  exists self1 self2,
    connect config dev self = (Ok true, self1)
    /\ TFTSerial.read_line self1
       = (Ok (Some (Py.strip (TFTSerial._read_buffer self ++ line))), self2)
    /\ TFTSerial._read_buffer self2 = rest.
Proof.
  intros He Hp Ho Hin Hb Hl Hr Hne.
  unfold connect. rewrite He, Hp, Ho. cbn [negb].
  eexists _, _. split; [reflexivity|].
  unfold TFTSerial.read_line.
  cbn [TFTSerial.serial TFTSerial.connected TFTSerial.set_connected
         TFTSerial.set_serial negb].
  unfold TFTSerial.poll. rewrite Hin.
  cbn [TFTSerial._read_buffer TFTSerial.set_serial TFTSerial.set_connected
         TFTSerial.serial TFTSerial.connected].
  rewrite app_assoc.
  rewrite (extract_single_line _ rest (In_app_not _ _ _ Hb Hl) Hr).
  destruct (Py.strip (TFTSerial._read_buffer self ++ line)) as [|c l];
    [congruence|].
  split; reflexivity.
Qed.

Lemma reconnect_keeps_fragment_witness :
  exists self1 self2,
    connect retrying_config device_back interrupted_link = (Ok true, self1)
    /\ TFTSerial.read_line self1 = (Ok (Some (Py.strip ("G2" ++ "M105"))), self2)
    /\ TFTSerial._read_buffer self2 = [].
Proof.
  refine (reconnect_keeps_fragment retrying_config device_back _
            interrupted_link "M105" [] [] eq_refl eq_refl eq_refl eq_refl
            _ _ _ _).
  - simpl. intuition discriminate.
  - simpl. intuition discriminate.
  - simpl. tauto.
  - vm_compute. discriminate.
Defined.

(** The main loop hands the whole line on: a line read from the display
    reaches the host as the script it names. *)
Example main_loop_forwards_line :
  let w := snd (TFTMoonrakerBridge.run_turns retrying_config
                  (fun _ => Raise (TypeError "unsupported format string"))
                  (fun _ => []) [TFTMoonrakerBridge.MainLoop]
                  (World.set_tft ready_host
                     (TFTSerial.fed ["G28 X" ++ ["010"%char]]))) in
  http_log w = [script_entry "G28 X"]
  /\ TFTSerial.write_calls (tft w) = [("ok" : str)].
Proof. vm_compute. split; reflexivity. Qed.
